(** * Verification of the Pico 2 W firmware demos

    A shallow embedding of the calendar, NTP, to-do, filesystem-mount,
    web-server, Tetris and logging code of the repository, followed by the
    theorems that settle the specification claims C1..C10.

    C [int] values are integers in [Z]; the two's-complement wrap-around of
    the 32-bit target is written out with [CInt.wrap32] and [CInt.u32].
    Console output is a [string]; byte buffers are [list byte]; C arrays are
    lists read with [!!] and updated with [<[ _ := _ ]>]. *)

From Stdlib Require Import ZArith List String Ascii Bool Lia DecimalString.
From Stdlib.Strings Require Import Byte.
From stdpp Require Import base list.
Import ListNotations.
Local Open Scope Z_scope.

(* ================================================================== *)
(** * Part I: the programs *)
(* ================================================================== *)

(** ** Machine integers of the 32-bit target *)
Module CInt.
(** [int]: 32-bit two's complement. *)
Definition wrap32 (x : Z) : Z := (x + 2^31) mod 2^32 - 2^31.
(** [uint32_t] and [unsigned long] (32 bits on the RP2350). *)
Definition u32 (x : Z) : Z := x mod 2^32.
(** [int64_t] / [time_t] and [uint64_t]. *)
Definition wrap64 (x : Z) : Z := (x + 2^63) mod 2^64 - 2^63.
Definition u64 (x : Z) : Z := x mod 2^64.
(** [uint16_t] ([u16_t] of lwIP). *)
Definition u16 (x : Z) : Z := x mod 2^16.
End CInt.

(** ** printf conversions *)
Module Fmt.
Local Open Scope string_scope.

Definition nl : string := String "010"%char "".
Definition cr : string := String "013"%char "".
Definition esc : string := String "027"%char "".

Fixpoint spaces (n : nat) : string :=
  match n with O => "" | S k => " " ++ spaces k end.

Fixpoint zeros (n : nat) : string :=
  match n with O => "" | S k => "0" ++ zeros k end.

(** Decimal digits of a non-negative number. *)
Definition digits (z : Z) : string :=
  NilZero.string_of_uint (N.to_uint (Z.to_N z)).

(** [%d] *)
Definition d (z : Z) : string :=
  if (z <? 0)%Z then "-" ++ digits (- z) else digits z.

(** [%0wd] and [%0wlu]: zero padding up to the field width [w]. *)
Definition d0 (w : nat) (z : Z) : string :=
  if (z <? 0)%Z
  then "-" ++ zeros (w - 1 - String.length (digits (- z)))%nat
           ++ digits (- z)
  else zeros (w - String.length (digits z))%nat ++ digits z.

(** [%+d] *)
Definition dplus (z : Z) : string :=
  if (z <? 0)%Z then d z else "+" ++ d z.

(** What [snprintf (buf, size, ...)] stores of a formatted text: at most
    [size - 1] characters (followed by the terminator). *)
Definition truncate (size : nat) (s : string) : string :=
  String.substring 0 (size - 1)%nat s.

(** The text of a C string held in a character buffer: up to the first
    NUL (or the whole buffer when it has none). *)
Fixpoint c_str (buf : list ascii) : string :=
  match buf with
  | [] => ""
  | c :: r => if Ascii.eqb c "000" then "" else String c (c_str r)
  end.
End Fmt.

(** ** lwIP packet buffers *)
Module Lwip.
(** A [struct pbuf]: the total length of the datagram or segment and the
    bytes found at [p->payload]. *)
Record pbuf := mk_pbuf { tot_len : Z; payload : list byte }.

(** The [uint8_t] at offset [i] of a buffer; 0 past the modelled bytes. *)
Definition byte_at (buf : list byte) (i : nat) : Z :=
  match buf !! i with
  | Some b => Z.of_N (Byte.to_N b)
  | None => 0
  end.

(** A little-endian 32-bit load, as the Cortex-M33 performs it. *)
Definition load32_le (buf : list byte) (off : nat) : Z :=
  byte_at buf off + byte_at buf (off + 1)%nat * 2^8
  + byte_at buf (off + 2)%nat * 2^16 + byte_at buf (off + 3)%nat * 2^24.

(** [ntohl] on a little-endian host reverses the four bytes. *)
Definition ntohl (x : Z) : Z :=
  (x mod 2^8) * 2^24 + (x / 2^8 mod 2^8) * 2^16
  + (x / 2^16 mod 2^8) * 2^8 + (x / 2^24 mod 2^8).

(** The big-endian number held in bytes [off .. off+3]. *)
Definition be32 (buf : list byte) (off : nat) : Z :=
  byte_at buf off * 2^24 + byte_at buf (off + 1)%nat * 2^16
  + byte_at buf (off + 2)%nat * 2^8 + byte_at buf (off + 3)%nat.
End Lwip.

(** ** The C library's broken-down time *)
Module LibC.
(** [struct tm], as filled in by [gmtime] and [localtime]. *)
Record tm := mk_tm
  { tm_sec : Z; tm_min : Z; tm_hour : Z; tm_mday : Z; tm_mon : Z;
    tm_year : Z; tm_wday : Z }.
End LibC.

(** ** ascii_clock/ascii_clock.cpp *)
Module AsciiClock.
Import CInt Lwip LibC.

Definition NTP_DELTA : Z := 2208988800.
Definition UK_TIMEZONE_OFFSET : Z := 0.
Definition TERMINAL_WIDTH : Z := 80.
Definition CLOCK_WIDTH : Z := 43.
Definition CLOCK_PADDING : Z := Z.quot (TERMINAL_WIDTH - CLOCK_WIDTH) 2.

Record datetime_t := mk_datetime
  { year : Z; month : Z; day : Z; dotw : Z; hour : Z; min : Z; sec : Z }.

(** [sizeof(ntp_packet_t)]: four [uint8_t], three [uint32_t] and four
    pairs of [uint32_t]. *)
Definition sizeof_ntp_packet_t : Z := 4 * 1 + 3 * 4 + 4 * (2 * 4).
(** [offsetof(ntp_packet_t, tx_ts)] *)
Definition offsetof_tx_ts : nat := 4 * 1 + 3 * 4 + 3 * (2 * 4).

Definition DIGITS : list (list string) :=
  [ [" ### "; "#   #"; "#   #"; "#   #"; " ### "];
    ["  #  "; " ##  "; "  #  "; "  #  "; "#####"];
    [" ### "; "#   #"; "  ## "; " #   "; "#####"];
    [" ### "; "#   #"; "  ## "; "#   #"; " ### "];
    ["#   #"; "#   #"; "#####"; "    #"; "    #"];
    ["#####"; "#    "; "#### "; "    #"; "#### "];
    [" ### "; "#    "; "#### "; "#   #"; " ### "];
    ["#####"; "    #"; "   # "; "  #  "; " #   "];
    [" ### "; "#   #"; " ### "; "#   #"; " ### "];
    [" ### "; "#   #"; " ####"; "    #"; " ### "] ]%string.

Definition COLON : list string := ["  "; " #"; "  "; " #"; "  "]%string.

Definition is_leap_year (y : Z) : bool :=
  ((Z.rem y 4 =? 0) && negb (Z.rem y 100 =? 0)) || (Z.rem y 400 =? 0).

Definition month_lengths : list Z := [31;28;31;30;31;30;31;31;30;31;30;31].

(** [d[m - 1]] is read as 0 outside the table. *)
Definition days_in_month (m y : Z) : Z :=
  if (m =? 2) && is_leap_year y then 29
  else nth (Z.to_nat (m - 1)) month_lengths 0.

(** [tick_time] on the global [current_time]; each [++] is a 32-bit
    increment. *)
Definition tick_time (t : datetime_t) : datetime_t :=
  let s := wrap32 (sec t + 1) in
  if s <? 60
  then mk_datetime (year t) (month t) (day t) (dotw t) (hour t) (min t) s
  else
  let mi := wrap32 (min t + 1) in
  if mi <? 60
  then mk_datetime (year t) (month t) (day t) (dotw t) (hour t) mi 0
  else
  let h := wrap32 (hour t + 1) in
  if h <? 24
  then mk_datetime (year t) (month t) (day t) (dotw t) h 0 0
  else
  let d := wrap32 (day t + 1) in
  let w := Z.rem (wrap32 (dotw t + 1)) 7 in
  if d >? days_in_month (month t) (year t) then
    let mo := wrap32 (month t + 1) in
    if mo >? 12 then mk_datetime (wrap32 (year t + 1)) 1 1 w 0 0 0
    else mk_datetime (year t) mo 1 w 0 0 0
  else mk_datetime (year t) (month t) d w 0 0 0.

Definition init_time (y m d w h mi s : Z) : datetime_t :=
  mk_datetime y m d w h mi s.

Definition timestamp_to_datetime (gmtime : Z -> tm) (t : Z) : datetime_t :=
  let r := gmtime t in
  mk_datetime (wrap32 (tm_year r + 1900)) (wrap32 (tm_mon r + 1))
              (tm_mday r) (tm_wday r) (tm_hour r) (tm_min r) (tm_sec r).

(** *** The program state and its surroundings *)

Inductive event :=
| EvLed (on : bool)
| EvSleep (ms : Z)
| EvNtpRequest
| EvPbufFree (p : pbuf)
| EvPrint (s : string).

(** The globals ([current_time], [time_synced], [ntp_state.pcb] with
    [ntp_recv] registered on it), the effects performed so far and the
    number of sleeps taken. *)
Record world := mk_world
  { current_time : datetime_t; time_synced : bool; ntp_pcb : bool;
    trace : list event; sleeps : nat }.

(** What the SDK, the network and the C library answer: the return codes
    of [cyw43_arch_init] and [cyw43_arch_wifi_connect_timeout_ms], whether
    [udp_new] returns a pcb, the datagrams lwIP hands to the receive
    callback while the program sleeps for the [k]-th time, and [gmtime]. *)
Record env := mk_env
  { cyw43_arch_init_rc : Z; wifi_connect_rc : Z; udp_new_ok : bool;
    arrivals : nat -> list pbuf; gmtime : Z -> tm }.

Definition emit (e : event) (w : world) : world :=
  mk_world (current_time w) (time_synced w) (ntp_pcb w)
           (trace w ++ [e]) (sleeps w).

Definition ntp_recv (E : env) (p : pbuf) (w : world) : world :=
  let w1 :=
    if tot_len p =? sizeof_ntp_packet_t then
      let sec1900 := ntohl (load32_le (payload p) offsetof_tx_ts) in
      let unix_time := wrap64 (sec1900 - NTP_DELTA + UK_TIMEZONE_OFFSET) in
      mk_world (timestamp_to_datetime (gmtime E) unix_time) true
               (ntp_pcb w) (trace w) (sleeps w)
    else w in
  emit (EvPbufFree p) w1.

Definition ntp_init (E : env) (w : world) : bool * world :=
  if udp_new_ok E
  then (true, mk_world (current_time w) (time_synced w) true
                       (trace w) (sleeps w))
  else (false, w).

Definition ntp_request (w : world) : world := emit EvNtpRequest w.

(** Sleeping: lwIP runs the receive callback on the datagrams that come
    in meanwhile, provided a pcb with the callback exists. *)
Definition sleep_ms (E : env) (ms : Z) (w : world) : world :=
  let w1 := if ntp_pcb w
            then fold_left (fun a p => ntp_recv E p a) (arrivals E (sleeps w)) w
            else w in
  mk_world (current_time w1) (time_synced w1) (ntp_pcb w1)
           (trace w1 ++ [EvSleep ms]) (S (sleeps w1)).

Fixpoint wifi_blink (E : env) (times : nat) (on_ms off_ms : Z) (w : world)
  : world :=
  match times with
  | O => w
  | S k =>
      wifi_blink E k on_ms off_ms
        (sleep_ms E off_ms (emit (EvLed false)
          (sleep_ms E on_ms (emit (EvLed true) w))))
  end.

(** *** Display *)
Local Open Scope string_scope.

Definition pad : string := Fmt.spaces (Z.to_nat CLOCK_PADDING).
Definition clear_screen : string := Fmt.esc ++ "[2J" ++ Fmt.esc ++ "[H".

Definition digit_row (dgt : Z) (r : nat) : string :=
  nth r (nth (Z.to_nat dgt) DIGITS []) "".

Definition clock_row (t : datetime_t) (r : nat) : string :=
  pad ++ digit_row (Z.quot (hour t) 10) r ++ " "
      ++ digit_row (Z.rem (hour t) 10) r ++ " " ++ nth r COLON "" ++ " "
      ++ digit_row (Z.quot (min t) 10) r ++ " "
      ++ digit_row (Z.rem (min t) 10) r ++ " " ++ nth r COLON "" ++ " "
      ++ digit_row (Z.quot (sec t) 10) r ++ " "
      ++ digit_row (Z.rem (sec t) 10) r ++ Fmt.nl.

(** Everything [display_clock] prints before the time-source line. *)
Definition clock_face (t : datetime_t) : string :=
  Fmt.esc ++ "[H" ++ Fmt.nl
  ++ pad ++ "Pico 2 W ASCII Clock" ++ Fmt.nl ++ Fmt.nl
  ++ String.concat "" (map (clock_row t) (seq 0 5))
  ++ pad ++ Fmt.nl ++ Fmt.d0 4 (year t) ++ "-" ++ Fmt.d0 2 (month t) ++ "-"
  ++ Fmt.d0 2 (day t) ++ "  (Day " ++ Fmt.d (dotw t) ++ ")" ++ Fmt.nl
  ++ pad.

Definition display_clock (w : world) : string :=
  clock_face (current_time w)
  ++ (if time_synced w then "Time source: NTP" ++ Fmt.nl
      else "Time source: MANUAL" ++ Fmt.nl).

Local Close Scope string_scope.

(** *** main *)

Definition initial : world :=
  mk_world (mk_datetime 0 0 0 0 0 0 0) false false [] O.

(** Label [manual_time]. *)
Definition manual_time (w : world) : world :=
  mk_world (init_time 2026 2 1 6 10 48 0) (time_synced w) (ntp_pcb w)
           (trace w) (sleeps w).

(** [for (int i=0;i<50 && !time_synced;i++) sleep_ms(100);] *)
Fixpoint poll_sync (E : env) (n : nat) (w : world) : world :=
  match n with
  | O => w
  | S k => if time_synced w then w else poll_sync E k (sleep_ms E 100 w)
  end.

(** The state at the end of the polling loop, when [main] gets that far. *)
Definition after_polls (E : env) (w : world) : world :=
  poll_sync E 50 (ntp_request (sleep_ms E 2000 w)).

(** [main] up to the label [start_clock] (USB build: [stdio_init_all]
    then a two-second sleep). *)
Definition boot (E : env) : world :=
  let w := sleep_ms E 2000 initial in
  if negb (cyw43_arch_init_rc E =? 0) then manual_time w
  else
    let w := wifi_blink E 2 300 300 w in
    if negb (wifi_connect_rc E =? 0)
    then manual_time (wifi_blink E 3 500 300 w)
    else
      let w := wifi_blink E 5 80 80 w in
      match ntp_init E w with
      | (false, w) => manual_time w
      | (true, w) =>
          let w := after_polls E w in
          if negb (time_synced w) then manual_time w else w
      end.

(** One turn of [while (true)]: display, sleep to the next second, tick. *)
Definition clock_iteration (E : env) (w : world) : world :=
  let w1 := sleep_ms E 1000 (emit (EvPrint (display_clock w)) w) in
  mk_world (tick_time (current_time w1)) (time_synced w1) (ntp_pcb w1)
           (trace w1) (sleeps w1).

Fixpoint clock_loop (E : env) (n : nat) (w : world) : world :=
  match n with
  | O => w
  | S k => clock_loop E k (clock_iteration E w)
  end.

(** [main] after [n] turns of its loop. *)
Definition main (E : env) (n : nat) : world :=
  clock_loop E n (emit (EvPrint clear_screen) (boot E)).

(** What the display of turn [k] (counted from 0) shows. *)
Definition nth_display (E : env) (k : nat) : string :=
  display_clock (main E k).

Definition is_request (e : event) : bool :=
  match e with EvNtpRequest => true | _ => false end.

(** The NTP requests sent so far. *)
Definition ntp_requests (w : world) : nat :=
  length (List.filter is_request (trace w)).

(** The state in which [main] calls [ntp_init], and the state after the
    polling loop, when WiFi came up. *)
Definition before_ntp (E : env) : world :=
  wifi_blink E 5 80 80 (wifi_blink E 2 300 300 (sleep_ms E 2000 initial)).

Definition polled (E : env) : world :=
  after_polls E (snd (ntp_init E (before_ntp E))).

(** One of the four reasons for [goto manual_time] holds. *)
Definition sync_failed (E : env) : bool :=
  negb (cyw43_arch_init_rc E =? 0) || negb (wifi_connect_rc E =? 0)
  || negb (udp_new_ok E) || negb (time_synced (polled E)).

(** No datagram of the size of an NTP packet arrives during the sleeps
    [from], ..., [from + count - 1]. *)
Definition quiet (E : env) (from count : nat) : Prop :=
  forall k, (from <= k < from + count)%nat ->
    Forall (fun p => tot_len p <> sizeof_ntp_packet_t) (arrivals E k).

Definition manual_start : datetime_t := mk_datetime 2026 2 1 6 10 48 0.
End AsciiClock.

(** ** The calendar as a linear count of seconds

    The specification's reading of "advancing by one second": a date and
    time of day is converted to the number of seconds since
    1970-01-01 00:00:00 in the proleptic Gregorian calendar, and back. These
    definitions follow the specification, not the program. *)
Module CalendarSpec.
Import AsciiClock.

(** Leap years among the years 1 .. y-1. *)
Definition leap_years_before (y : Z) : Z :=
  (y - 1) / 4 - (y - 1) / 100 + (y - 1) / 400.

(** Days from 0001-01-01 to January 1st of year [y]. *)
Definition days_before_year (y : Z) : Z :=
  365 * (y - 1) + leap_years_before y.

Definition epoch_days : Z := Eval cbv in days_before_year 1970.

Fixpoint days_before_month_aux (n : nat) (y : Z) : Z :=
  match n with
  | O => 0
  | S k => days_before_month_aux k y + days_in_month (Z.of_nat n) y
  end.

(** Days of year [y] that precede its month [m]. *)
Definition days_before_month (m y : Z) : Z :=
  days_before_month_aux (Z.to_nat (m - 1)) y.

Definition to_days (t : datetime_t) : Z :=
  days_before_year (year t) - epoch_days
  + days_before_month (month t) (year t) + (day t - 1).

(** Converting a datetime to the linear second count. *)
Definition to_seconds (t : datetime_t) : Z :=
  to_days t * 86400 + hour t * 3600 + min t * 60 + sec t.

(** The year a day number falls in: 400 years have 146097 days, so the
    quotient is off by at most one year, which the comparisons repair. *)
Definition year_of_days (n : Z) : Z :=
  let a := n + epoch_days in
  let y0 := 1 + (400 * a) / 146097 in
  if a <? days_before_year y0 then y0 - 1
  else if days_before_year (y0 + 1) <=? a then y0 + 1
  else y0.

(** Month and day of the month of the [doy]-th day (from 0) of year [y]. *)
Fixpoint month_of_yday (fuel : nat) (m doy y : Z) : Z * Z :=
  match fuel with
  | O => (m, doy + 1)
  | S f =>
      if doy <? days_in_month m y then (m, doy + 1)
      else month_of_yday f (m + 1) (doy - days_in_month m y) y
  end.

(** Converting a second count back; the day of the week is not part of
    the count and is supplied as [w]. *)
Definition of_seconds (n : Z) (w : Z) : datetime_t :=
  let dn := n / 86400 in
  let r := n mod 86400 in
  let y := year_of_days dn in
  let doy := dn + epoch_days - days_before_year y in
  let md := month_of_yday 11 1 doy y in
  mk_datetime y (fst md) (snd md) w (r / 3600) (r mod 3600 / 60) (r mod 60).

(** The day of the week one second later: one further modulo 7 exactly
    when the second count crosses into the next day. *)
Definition next_dotw (t : datetime_t) : Z :=
  if to_seconds t / 86400 <? (to_seconds t + 1) / 86400
  then (dotw t + 1) mod 7 else dotw t.

(** The datetimes the claim ranges over. *)
Definition valid_datetime (t : datetime_t) : Prop :=
  0 <= sec t < 60 /\ 0 <= min t < 60 /\ 0 <= hour t < 24 /\
  1 <= month t <= 12 /\ 1 <= day t <= days_in_month (month t) (year t) /\
  0 <= dotw t < 7.

Definition leap_day (y : Z) : Z := if is_leap_year y then 1 else 0.
End CalendarSpec.

(** ** to-do-pico/main.cpp *)
Module Todo.
Definition MAX : Z := 2.
Definition SLOT : nat := 15.

(** The globals [t1], [t2], [d1], [d2], [cnt]. *)
Record state := mk_state
  { t1 : list ascii; t2 : list ascii; d1 : bool; d2 : bool; cnt : Z }.

Definition NUL : ascii := "000"%char.

Definition initial : state :=
  mk_state (repeat NUL SLOT) (repeat NUL SLOT) false false 0.

(** The serial console delivers the characters typed so far; reading past
    them blocks, which is [None] here. *)
Definition getchar (inp : list ascii) : option (ascii * list ascii) :=
  match inp with
  | [] => None
  | c :: r => Some (c, r)
  end.

Definition isspace (c : ascii) : bool :=
  let n := nat_of_ascii c in
  ((n =? 32) || ((9 <=? n) && (n <=? 13)))%nat.

Fixpoint skip_spaces (inp : list ascii) : list ascii :=
  match inp with
  | c :: r => if isspace c then skip_spaces r else inp
  | [] => []
  end.

(** The characters a [%14s] conversion takes: it stops in front of the
    next white space or after [width] characters; a word still open when
    the typed input ends keeps [scanf] waiting. *)
Fixpoint scan_word (width : nat) (inp : list ascii)
  : option (list ascii * list ascii) :=
  match width with
  | O => Some ([], inp)
  | S k =>
      match inp with
      | [] => None
      | c :: r =>
          if isspace c then Some ([], inp)
          else match scan_word k r with
               | Some (word, rest) => Some (c :: word, rest)
               | None => None
               end
      end
  end.

(** [scanf("%14s", slot)]: skip white space, read the word, store it with
    its terminating NUL; the bytes behind the terminator stay. *)
Definition scanf_14s (slot : list ascii) (inp : list ascii)
  : option (list ascii * list ascii) :=
  match skip_spaces inp with
  | [] => None
  | c :: r =>
      match scan_word 14 (c :: r) with
      | Some (word, rest) =>
          Some (word ++ NUL :: drop (S (length word)) slot, rest)
      | None => None
      end
  end.

Local Open Scope string_scope.

Definition menu : string := Fmt.nl ++ "1=List 2=Add 3=Done 4=Del" ++ Fmt.nl ++ ">".

Definition mark (done : bool) : string := if done then "X" else " ".

Definition list_tasks (st : state) : string :=
  Fmt.nl ++ "Tasks:" ++ Fmt.nl
  ++ (if (cnt st >=? 1)%Z
      then "1. [" ++ mark (d1 st) ++ "] " ++ Fmt.c_str (t1 st) ++ Fmt.nl
      else "")
  ++ (if (cnt st >=? 2)%Z
      then "2. [" ++ mark (d2 st) ++ "] " ++ Fmt.c_str (t2 st) ++ Fmt.nl
      else "")
  ++ (if (cnt st =? 0)%Z then "None" ++ Fmt.nl else "").

(** The branch [c == '2']. *)
Definition add_task (st : state) (inp : list ascii)
  : option (state * list ascii * string) :=
  if (cnt st =? 0)%Z then
    match scanf_14s (t1 st) inp with
    | Some (slot, r1) =>
        match getchar r1 with
        | Some (_, r2) =>
            Some (mk_state slot (t2 st) false (d2 st) 1, r2,
                  "Task: " ++ "OK" ++ Fmt.nl)
        | None => None
        end
    | None => None
    end
  else if (cnt st =? 1)%Z then
    match scanf_14s (t2 st) inp with
    | Some (slot, r1) =>
        match getchar r1 with
        | Some (_, r2) =>
            Some (mk_state (t1 st) slot (d1 st) false 2, r2,
                  "Task: " ++ "OK" ++ Fmt.nl)
        | None => None
        end
    | None => None
    end
  else Some (st, inp, "FULL" ++ Fmt.nl).

(** The branch [c == '3']. *)
Definition mark_done (st : state) (inp : list ascii)
  : option (state * list ascii * string) :=
  match inp with
  | n :: _ :: r =>
      if Ascii.eqb n "1" && (cnt st >=? 1)%Z
      then Some (mk_state (t1 st) (t2 st) true (d2 st) (cnt st), r,
                 "Which? " ++ "OK" ++ Fmt.nl)
      else if Ascii.eqb n "2" && (cnt st >=? 2)%Z
      then Some (mk_state (t1 st) (t2 st) (d1 st) true (cnt st), r,
                 "Which? " ++ "OK" ++ Fmt.nl)
      else Some (st, r, "Which? ")
  | _ => None
  end.

(** The branch [c == '4']. *)
Definition delete_task (st : state) (inp : list ascii)
  : option (state * list ascii * string) :=
  match inp with
  | n :: _ :: r =>
      if Ascii.eqb n "1" && (cnt st >=? 1)%Z
      then
        let st1 := if (cnt st =? 2)%Z
                   then mk_state (take SLOT (t2 st) ++ drop SLOT (t1 st))
                                 (t2 st) (d2 st) (d2 st) (cnt st)
                   else st in
        Some (mk_state (t1 st1) (t2 st1) (d1 st1) (d2 st1)
                       (CInt.wrap32 (cnt st1 - 1)), r,
              "Which? " ++ "OK" ++ Fmt.nl)
      else if Ascii.eqb n "2" && (cnt st =? 2)%Z
      then Some (mk_state (t1 st) (t2 st) (d1 st) (d2 st)
                          (CInt.wrap32 (cnt st - 1)), r,
                 "Which? " ++ "OK" ++ Fmt.nl)
      else Some (st, r, "Which? ")
  | _ => None
  end.

(** One turn of [while (1)]: the menu, the choice and the newline behind
    it, then the branch chosen. *)
Definition menu_iteration (st : state) (inp : list ascii)
  : option (state * list ascii * string) :=
  match inp with
  | c :: _ :: r =>
      let branch :=
        if Ascii.eqb c "1" then Some (st, r, list_tasks st)
        else if Ascii.eqb c "2" then add_task st r
        else if Ascii.eqb c "3" then mark_done st r
        else if Ascii.eqb c "4" then delete_task st r
        else Some (st, r, "") in
      match branch with
      | Some (st', r', out) => Some (st', r', menu ++ out)
      | None => None
      end
  | _ => None
  end.

(** The program from its start: the states reached after any number of
    completed turns. *)
Inductive reachable : state -> Prop :=
| reach_initial : reachable initial
| reach_step st inp st' inp' out :
    reachable st -> menu_iteration st inp = Some (st', inp', out) ->
    reachable st'.

(** A slot is 15 bytes and holds a terminated text. *)
Definition slot_ok (slot : list ascii) : Prop :=
  length slot = SLOT /\ (String.length (Fmt.c_str slot) <= 14)%nat.

(** At most two tasks, each slot 15 bytes with a terminated text. *)
Definition todo_invariant (st : state) : Prop :=
  0 <= cnt st <= 2 /\ slot_ok (t1 st) /\ slot_ok (t2 st).
End Todo.

(** ** pico-shell-based-os/pico_os.cpp and shell-based-pico-os/pico_os.cpp

    The clock, log, NTP and filesystem functions below have the same text
    in both files; [view_log], [show_time], [print_prompt] and the Tetris
    functions are those of pico-shell-based-os. *)
Module ShellOS.
Import CInt Lwip LibC.

Definition MAX_LOG_ENTRIES : Z := 50.
Definition LOG_ENTRY_SIZE : nat := 128.
Definition TETRIS_WIDTH : Z := 10.
Definition TETRIS_HEIGHT : Z := 20.

Inductive fs_op := LfsMount | LfsFormat.

Inductive event :=
| EvPrint (s : string)
| EvPbufFree (p : pbuf).

(** The globals the modelled functions use, the LittleFS calls and the
    console and lwIP effects performed so far, and how often the hardware
    timer has been read. *)
Record state := mk_state
  { system_time_offset : Z; time_sync_base : Z; ntp_synced : bool;
    timezone_offset : Z; timezone_str : string;
    log_entries : list string; log_index : Z; log_count : Z;
    fs_calls : list fs_op; events : list event; clock_reads : nat }.

(** The surroundings: the value of the [k]-th reading of
    [get_absolute_time] in microseconds since boot, the C library's
    [localtime], and the return code of the [k]-th LittleFS call. *)
Record env := mk_env
  { clock_us : nat -> Z; localtime : Z -> tm; lfs_rc : nat -> Z }.

Definition initial : state :=
  mk_state 0 0 false 0 "GMT" (replicate (Z.to_nat MAX_LOG_ENTRIES) ""%string)
           0 0 [] [] O.

Definition print (s : string) (st : state) : state :=
  mk_state (system_time_offset st) (time_sync_base st) (ntp_synced st)
           (timezone_offset st) (timezone_str st)
           (log_entries st) (log_index st) (log_count st)
           (fs_calls st) (events st ++ [EvPrint s]) (clock_reads st).

Definition pbuf_free (p : pbuf) (st : state) : state :=
  mk_state (system_time_offset st) (time_sync_base st) (ntp_synced st)
           (timezone_offset st) (timezone_str st)
           (log_entries st) (log_index st) (log_count st)
           (fs_calls st) (events st ++ [EvPbufFree p]) (clock_reads st).

Definition get_absolute_time (E : env) (st : state) : Z * state :=
  (clock_us E (clock_reads st),
   mk_state (system_time_offset st) (time_sync_base st) (ntp_synced st)
            (timezone_offset st) (timezone_str st)
            (log_entries st) (log_index st) (log_count st)
            (fs_calls st) (events st) (S (clock_reads st))).

(** [to_ms_since_boot] returns a [uint32_t]. *)
Definition to_ms_since_boot (t : Z) : Z := u32 (t / 1000).

Definition get_current_time (E : env) (st : state) : Z * state :=
  if system_time_offset st =? 0 then (0, st)
  else
    let (now, st1) := get_absolute_time E st in
    let elapsed_ms := u64 (Z.quot (wrap64 (now - time_sync_base st)) 1000) in
    (wrap64 (system_time_offset st + elapsed_ms / 1000), st1).

Definition set_current_time (E : env) (new_time : Z) (st : state) : state :=
  let (now, st1) := get_absolute_time E st in
  mk_state new_time now true
           (timezone_offset st1) (timezone_str st1)
           (log_entries st1) (log_index st1) (log_count st1)
           (fs_calls st1) (events st1) (clock_reads st1).

Local Open Scope string_scope.

Definition ANSI_RESET : string := Fmt.esc ++ "[0m".
Definition ANSI_BOLD : string := Fmt.esc ++ "[1m".
Definition ANSI_RED : string := Fmt.esc ++ "[31m".
Definition ANSI_GREEN : string := Fmt.esc ++ "[32m".
Definition ANSI_YELLOW : string := Fmt.esc ++ "[33m".
Definition ANSI_BLUE : string := Fmt.esc ++ "[34m".
Definition ANSI_CYAN : string := Fmt.esc ++ "[36m".
Definition ANSI_CLEAR_SCREEN : string := Fmt.esc ++ "[2J" ++ Fmt.esc ++ "[H".

(** ["[+%05lus] %s"] *)
Definition uptime_stamp (uptime_sec : Z) : string :=
  "[+" ++ Fmt.d0 5 uptime_sec ++ "s] ".

(** ["[%02d:%02d:%02d] %s"] *)
Definition clock_stamp (t : tm) : string :=
  "[" ++ Fmt.d0 2 (tm_hour t) ++ ":" ++ Fmt.d0 2 (tm_min t) ++ ":"
      ++ Fmt.d0 2 (tm_sec t) ++ "] ".

(** The text [log_message] formats, and the state after the timer reads
    this takes. *)
Definition log_line (E : env) (msg : string) (st : state) : string * state :=
  let (now, st1) := get_current_time E st in
  if (now =? 0)%Z then
    let (t, st2) := get_absolute_time E st1 in
    let uptime_sec := Z.quot (to_ms_since_boot t) 1000 in
    (Fmt.truncate LOG_ENTRY_SIZE (uptime_stamp uptime_sec ++ msg), st2)
  else
    (Fmt.truncate LOG_ENTRY_SIZE (clock_stamp (localtime E now) ++ msg), st1).

Definition log_message (E : env) (msg : string) (st : state) : state :=
  let (line, st1) := log_line E msg st in
  mk_state (system_time_offset st1) (time_sync_base st1) (ntp_synced st1)
           (timezone_offset st1) (timezone_str st1)
           (<[Z.to_nat (log_index st1) := line]> (log_entries st1))
           (Z.rem (wrap32 (log_index st1 + 1)) MAX_LOG_ENTRIES)
           (if (log_count st1 <? MAX_LOG_ENTRIES)%Z
            then wrap32 (log_count st1 + 1) else log_count st1)
           (fs_calls st1) (events st1) (clock_reads st1).

(** A run of [log_message] calls: the final state and the lines the
    calls formatted, first call first. *)
Fixpoint log_run (E : env) (msgs : list string) (st : state)
  : state * list string :=
  match msgs with
  | [] => (st, [])
  | m :: rest =>
      let (st', lines) := log_run E rest (log_message E m st) in
      (st', fst (log_line E m st) :: lines)
  end.

(** The ring buffer holds the last 50 of the lines [hist] logged so far,
    line number [j] in slot [j mod 50]. *)
Definition ring_inv (st : state) (hist : list string) : Prop :=
  length (log_entries st) = 50%nat /\
  log_index st = (Z.of_nat (length hist) mod 50)%Z /\
  log_count st = Z.min (Z.of_nat (length hist)) 50 /\
  forall j : nat, (length hist - 50 <= j < length hist)%nat ->
    log_entries st !! (j mod 50)%nat = hist !! j.

(** [log_entries[idx]], as printed with [%s]. *)
Definition log_entry_at (st : state) (idx : Z) : string :=
  nth (Z.to_nat idx) (log_entries st) "".

(** The entries the loop of [view_log] prints, in the order printed. *)
Definition view_log_entries (st : state) : list string :=
  let start :=
    Z.rem (wrap32 (wrap32 (log_index st - log_count st) + MAX_LOG_ENTRIES))
          MAX_LOG_ENTRIES in
  map (fun i => log_entry_at st
                  (Z.rem (wrap32 (start + Z.of_nat i)) MAX_LOG_ENTRIES))
      (seq 0 (Z.to_nat (log_count st))).

Definition view_log_banner : string :=
  ANSI_BOLD ++ ANSI_CYAN
  ++ "╔════════════════════════════════════════╗" ++ Fmt.nl
  ++ "║            System Logs                 ║" ++ Fmt.nl
  ++ "╚════════════════════════════════════════╝" ++ Fmt.nl ++ ANSI_RESET.

(** What [view_log] prints. *)
Definition view_log (st : state) : string :=
  ANSI_CLEAR_SCREEN ++ view_log_banner ++ Fmt.nl
  ++ (if (log_count st =? 0)%Z then "No log entries yet" ++ Fmt.nl
      else String.concat "" (map (fun e => e ++ Fmt.nl) (view_log_entries st)))
  ++ Fmt.nl.

(** ["%04d-%02d-%02d %02d:%02d:%02d"] of a broken-down time. *)
Definition date_time_text (t : tm) : string :=
  Fmt.d0 4 (wrap32 (tm_year t + 1900)) ++ "-"
  ++ Fmt.d0 2 (wrap32 (tm_mon t + 1)) ++ "-" ++ Fmt.d0 2 (tm_mday t) ++ " "
  ++ Fmt.d0 2 (tm_hour t) ++ ":" ++ Fmt.d0 2 (tm_min t) ++ ":"
  ++ Fmt.d0 2 (tm_sec t).

(** The [time] command. *)
Definition show_time (E : env) (st : state) : string * state :=
  let (now, st1) := get_current_time E st in
  if (now =? 0)%Z then
    (ANSI_YELLOW ++ "Time not synchronized yet" ++ Fmt.nl ++ ANSI_RESET
     ++ "Use 'wifi' to connect and sync time" ++ Fmt.nl, st1)
  else
    (Fmt.nl ++ ANSI_BOLD ++ "Current Time:" ++ Fmt.nl ++ ANSI_RESET
     ++ "  " ++ date_time_text (localtime E now) ++ " " ++ timezone_str st1
     ++ Fmt.nl ++ Fmt.nl, st1).

Definition prompt_tail : string :=
  ANSI_RESET ++ " " ++ ANSI_BOLD ++ ANSI_BLUE ++ "pico@os" ++ ANSI_RESET
  ++ ":" ++ ANSI_CYAN ++ "~" ++ ANSI_RESET ++ "$ ".

(** The shell prompt. *)
Definition print_prompt (E : env) (st : state) : string * state :=
  let (now, st1) := get_current_time E st in
  if (now =? 0)%Z then
    let (t, st2) := get_absolute_time E st1 in
    let uptime_sec := Z.quot (to_ms_since_boot t) 1000 in
    (ANSI_GREEN ++ "+" ++ Fmt.d0 5 uptime_sec ++ "s" ++ prompt_tail, st2)
  else
    let t := localtime E now in
    (ANSI_GREEN ++ Fmt.d0 2 (tm_hour t) ++ ":" ++ Fmt.d0 2 (tm_min t) ++ ":"
     ++ Fmt.d0 2 (tm_sec t) ++ prompt_tail, st1).

(** *** NTP *)

Definition ntp_recv_callback (E : env) (p : pbuf) (st : state) : state :=
  let st1 :=
    if (tot_len p >=? 48)%Z then
      let data := payload p in
      let ntp_time :=
        u32 (Z.lor (Z.lor (Z.lor (Z.shiftl (byte_at data 40) 24)
                                 (Z.shiftl (byte_at data 41) 16))
                          (Z.shiftl (byte_at data 42) 8))
                   (byte_at data 43)) in
      let unix_time :=
        u32 (ntp_time - 2208988800 + wrap32 (timezone_offset st * 3600)) in
      print (ANSI_GREEN ++ "Time synchronized successfully!" ++ Fmt.nl
             ++ ANSI_RESET)
        (log_message E "NTP time synchronized"
           (set_current_time E unix_time st))
    else st in
  pbuf_free p st1.

(** *** LittleFS *)

Definition lfs_call (E : env) (op : fs_op) (st : state) : Z * state :=
  (lfs_rc E (length (fs_calls st)),
   mk_state (system_time_offset st) (time_sync_base st) (ntp_synced st)
            (timezone_offset st) (timezone_str st)
            (log_entries st) (log_index st) (log_count st)
            (fs_calls st ++ [op]) (events st) (clock_reads st)).

Definition init_filesystem (E : env) (st : state) : state :=
  let (err, st1) := lfs_call E LfsMount st in
  if negb (err =? 0)%Z then
    let st2 := print ("Formatting filesystem..." ++ Fmt.cr ++ Fmt.nl) st1 in
    let (err, st3) := lfs_call E LfsFormat st2 in
    if negb (err =? 0)%Z then
      log_message E "ERROR: Filesystem format failed"
        (print ("ERROR: Failed to format filesystem (code " ++ Fmt.d err
                ++ ")" ++ Fmt.cr ++ Fmt.nl) st3)
    else
      let (err, st4) := lfs_call E LfsMount st3 in
      if negb (err =? 0)%Z then
        log_message E "ERROR: Filesystem mount failed"
          (print ("ERROR: Failed to mount filesystem after format (code "
                  ++ Fmt.d err ++ ")" ++ Fmt.cr ++ Fmt.nl) st4)
      else log_message E "Filesystem mounted successfully" st4
  else log_message E "Filesystem mounted successfully" st1.

Local Close Scope string_scope.

(** *** Tetris *)

Record TetrisPiece := mk_piece
  { shape : list (list Z); x : Z; y : Z; type : Z }.

(** [m[i][j]]; 0 outside the array. *)
Definition cell (m : list (list Z)) (i j : nat) : Z :=
  match m !! i with
  | Some row => match row !! j with Some v => v | None => 0 end
  | None => 0
  end.

Definition rotate_piece (piece : TetrisPiece) : TetrisPiece :=
  let temp :=
    map (fun i => map (fun j => cell (shape piece) (3 - j) i) (seq 0 4))
        (seq 0 4) in
  mk_piece temp (x piece) (y piece) (type piece).

(** The inner loop over [j]: no cell of row [i] is 0. *)
Definition row_full (board : list (list Z)) (i : nat) : bool :=
  forallb (fun j => negb (cell board i j =? 0))
          (seq 0 (Z.to_nat TETRIS_WIDTH)).

(** [for (int k = i; k > 0; k--) memcpy(board[k], board[k-1], ...)] *)
Fixpoint shift_down (k : nat) (board : list (list Z)) : list (list Z) :=
  match k with
  | O => board
  | S k' =>
      shift_down k'
        (match board !! k' with
         | Some row => <[k := row]> board
         | None => board
         end)
  end.

Definition zero_row : list Z := replicate (Z.to_nat TETRIS_WIDTH) 0.

(** The outer loop of [clear_lines] from row [i] on; [i++] followed by
    the loop's [i--] re-examines the same row. *)
Fixpoint clear_lines_loop (fuel : nat) (board : list (list Z))
         (i lines_cleared : Z) : option (list (list Z) * Z) :=
  match fuel with
  | O => None
  | S f =>
      if i >=? 0 then
        if row_full board (Z.to_nat i) then
          clear_lines_loop f
            (<[O := zero_row]> (shift_down (Z.to_nat i) board))
            (wrap32 (wrap32 (i + 1) - 1)) (wrap32 (lines_cleared + 1))
        else clear_lines_loop f board (wrap32 (i - 1)) lines_cleared
      else Some (board, lines_cleared)
  end.

(** Every turn either removes a full row or moves one row up, so twice
    the height plus the final test bounds the number of turns. *)
Definition clear_lines (board : list (list Z)) : option (list (list Z) * Z) :=
  clear_lines_loop (Z.to_nat (2 * TETRIS_HEIGHT + 1)) board
                   (TETRIS_HEIGHT - 1) 0.

Definition occupied (board : list (list Z)) : Z :=
  Z.of_nat (length (List.filter (fun v => negb (v =? 0)) (concat board))).

Definition is_board (board : list (list Z)) : Prop :=
  length board = Z.to_nat TETRIS_HEIGHT /\
  Forall (fun row => length row = Z.to_nat TETRIS_WIDTH) board.
End ShellOS.

(** ** What clearing lines means

    The specification's reading of [clear_lines], on rows instead of
    indices: the full rows go, the others keep their order and sink, and
    zero rows come in at the top. *)
Module TetrisSpec.
Import ShellOS.

Definition row_is_full (row : list Z) : bool :=
  forallb (fun v => negb (v =? 0)) row.

Definition full_rows (board : list (list Z)) : nat :=
  length (List.filter row_is_full board).

Definition cleared (board : list (list Z)) : list (list Z) :=
  replicate (full_rows board) zero_row
  ++ List.filter (fun row => negb (row_is_full row)) board.

(** A piece whose shape is a 4x4 array. *)
Definition is_piece (p : TetrisPiece) : Prop :=
  length (shape p) = 4%nat /\
  Forall (fun row => length row = 4%nat) (shape p).
End TetrisSpec.

(** ** pico_webserver/pico_webserver.cpp *)
Module WebServer.
Import CInt Lwip.
Local Open Scope string_scope.

Definition HTTP_GET : string := "GET".
Definition ERR_OK : Z := 0.
Definition ERR_ABRT : Z := -13.

(** [HTTP_RESPONSE_HEADERS] with its two [%d] filled in. *)
Definition HTTP_RESPONSE_HEADERS (status content_len : Z) : string :=
  "HTTP/1.1 " ++ Fmt.d (wrap32 status) ++ " OK" ++ Fmt.nl
  ++ "Content-Length: " ++ Fmt.d (wrap32 content_len) ++ Fmt.nl
  ++ "Content-Type: text/html; charset=utf-8" ++ Fmt.nl
  ++ "Connection: close" ++ Fmt.nl ++ Fmt.nl.

Definition html_content : string :=
  "<!DOCTYPE html>"
  ++ "<html><head><meta charset='UTF-8'><meta name='viewport' content='width=device-width,initial-scale=1'>"
  ++ "<title>Xyt564| Pico Server</title>"
  ++ "<style>"
  ++ "body{font-family:system-ui,sans-serif;max-width:800px;margin:40px auto;padding:20px;background:#0a0a0a;color:#e0e0e0;line-height:1.6}"
  ++ "h1{color:#60a5fa;border-bottom:2px solid #1e40af;padding-bottom:10px}"
  ++ "h2{color:#93c5fd;margin-top:30px}"
  ++ ".intro{background:#1a1a1a;padding:20px;border-radius:8px;border-left:4px solid #60a5fa;margin:20px 0}"
  ++ ".skills{display:flex;flex-wrap:wrap;gap:8px;margin:15px 0}"
  ++ ".skill{background:#1e40af;color:#fff;padding:6px 12px;border-radius:4px;font-size:14px}"
  ++ ".footer{margin-top:40px;padding-top:20px;border-top:1px solid #333;color:#888;text-align:center;font-size:14px}"
  ++ "a{color:#60a5fa;text-decoration:none}"
  ++ "a:hover{text-decoration:underline}"
  ++ ".status{color:#4ade80;font-size:12px}"
  ++ "</style></head><body>"
  ++ "<div class='status'>🟢 Served from Raspberry Pi Pico 2 W</div>"
  ++ "<h1>Xyt564</h1>"
  ++ "<div class='intro'>"
  ++ "<strong>Self-Taught Developer & Tinkerer</strong><br>"
  ++ "19-year-old college student passionate about systems programming, embedded systems, and cybersecurity. "
  ++ "From building custom programming languages to running home servers on old laptops, I love turning curiosity into working code."
  ++ "</div>"
  ++ "<h2>Featured Projects</h2>"
  ++ "<p><strong>Star Lang</strong> - Custom programming language with lexer, parser, and interpreter built from scratch in C++</p>"
  ++ "<p><strong>M5StickC Plus2 Firmware</strong> - Custom firmware for ESP32-based device with WiFi, Bluetooth, and optimized power management</p>"
  ++ "<p><strong>Home Server</strong> - Repurposed laptop running Linux with file storage, media streaming, and self-hosted services</p>"
  ++ "<p><strong>Custom Game</strong> - Game built in C++ with SDL2, exploring game loops, rendering, and physics from the ground up</p>"
  ++ "<h2>Tech Stack</h2>"
  ++ "<div class='skills'>"
  ++ "<span class='skill'>Python</span>"
  ++ "<span class='skill'>C/C++</span>"
  ++ "<span class='skill'>Rust</span>"
  ++ "<span class='skill'>TypeScript</span>"
  ++ "<span class='skill'>Assembly</span>"
  ++ "<span class='skill'>Embedded Systems</span>"
  ++ "<span class='skill'>Linux</span>"
  ++ "<span class='skill'>Security</span>"
  ++ "</div>"
  ++ "<h2>About</h2>"
  ++ "<p>2+ years of hands-on experience in systems programming, cybersecurity, and building practical tools. "
  ++ "I approach development with a security-first mindset and value understanding my stack end-to-end.</p>"
  ++ "<p><strong>GitHub:</strong> <a href='https://github.com/Xyt564' target='_blank'>Xyt564</a></p>"
  ++ "<div class='footer'>"
  ++ "Optimized for microcontrollers | Built with Pico SDK | "
  ++ "<a href='https://v0-xyt564.vercel.app/' target='_blank'>Full Portfolio</a>"
  ++ "</div>"
  ++ "</body></html>".

Inductive event :=
| EvClearCallbacks
| EvTcpClose
| EvTcpAbort
| EvTcpWrite (data : string)
| EvTcpOutput
| EvTcpRecved (len : Z)
| EvPbufFree (p : pbuf).

(** The surroundings of one callback: whether [malloc] returns a buffer,
    and the results of [tcp_write] and [tcp_close]. *)
Record env := mk_env
  { malloc_ok : bool; tcp_write_rc : Z; tcp_close_rc : Z }.

Definition char_codes (s : string) : list Z :=
  map (fun c => Z.of_nat (nat_of_ascii c)) (list_ascii_of_string s).

Definition byte_codes (buf : list byte) : list Z :=
  map (fun b => Z.of_N (Byte.to_N b)) buf.

(** [strncmp]: the characters are compared up to the first difference,
    a common NUL or [n] of them; a text ends in NUL. *)
Fixpoint strncmp (s1 s2 : list Z) (n : nat) : Z :=
  match n with
  | O => 0
  | S k =>
      let c1 := hd 0%Z s1 in
      let c2 := hd 0%Z s2 in
      if (c1 =? c2)%Z
      then if (c1 =? 0)%Z then 0 else strncmp (tl s1) (tl s2) k
      else (c1 - c2)%Z
  end.

(** The bytes handed to [tcp_write]: [snprintf] stores at most
    [header_len] characters of the header, [strcat] puts the page behind
    them, and [total_len] bytes of the buffer are sent. *)
Definition response_bytes : string :=
  let content_len := String.length html_content in
  let header := HTTP_RESPONSE_HEADERS 200 (Z.of_nat content_len) in
  let header_len := String.length header in
  let total_len := (header_len + content_len)%nat in
  let response := Fmt.truncate (header_len + 1) header ++ html_content in
  String.substring 0 total_len response.

Local Close Scope string_scope.

Definition tcp_close_client_connection (E : env) : list event * Z :=
  if negb (tcp_close_rc E =? ERR_OK)%Z
  then ([EvClearCallbacks; EvTcpClose; EvTcpAbort], ERR_ABRT)
  else ([EvClearCallbacks; EvTcpClose], ERR_OK).

(** [tcp_server_recv]: the lwIP calls made, in order, and the value
    returned. *)
Definition tcp_server_recv (E : env) (p : option pbuf) : list event * Z :=
  match p with
  | None => tcp_close_client_connection E
  | Some p =>
      let served :=
        if (tot_len p >? 0)%Z then
          (if (strncmp (char_codes HTTP_GET) (byte_codes (payload p))
                       (String.length HTTP_GET) =? 0)%Z
           then
             if malloc_ok E then
               EvTcpWrite response_bytes
               :: (if (tcp_write_rc E =? ERR_OK)%Z then [EvTcpOutput] else [])
             else []
           else [])
          ++ [EvTcpRecved (tot_len p)]
        else [] in
      (served ++ [EvPbufFree p], ERR_OK)
  end.

(** The payload begins with the bytes 'G' 'E' 'T'. *)
Definition begins_with_GET (buf : list byte) : bool :=
  match buf with
  | b0 :: b1 :: b2 :: _ =>
      Byte.eqb b0 "G"%byte && Byte.eqb b1 "E"%byte && Byte.eqb b2 "T"%byte
  | _ => false
  end.

Definition is_write (e : event) : bool :=
  match e with EvTcpWrite _ => true | _ => false end.
End WebServer.

(** ** A UTC C library and concrete inputs

    [utc_time] is what [gmtime], and [localtime] without a time zone, compute;
    the remaining definitions are the concrete inputs at which the theorems
    of Part II are evaluated. *)
Module Scenario.
Import Lwip LibC.

(** [needle] occurs somewhere in [hay]. *)
Fixpoint contains (needle hay : string) : bool :=
  String.prefix needle hay
  || match hay with
     | EmptyString => false
     | String _ rest => contains needle rest
     end.

Definition utc_time (t : Z) : tm :=
  let dt := CalendarSpec.of_seconds t ((4 + t / 86400) mod 7) in
  mk_tm (AsciiClock.sec dt) (AsciiClock.min dt) (AsciiClock.hour dt)
        (AsciiClock.day dt) (AsciiClock.month dt - 1)
        (AsciiClock.year dt - 1900) (AsciiClock.dotw dt).

(** An NTP answer of [n] bytes whose transmit timestamp is 3978931680,
    that is 2026-02-01 10:48:00 UTC. *)
Definition ntp_answer (n : nat) : pbuf :=
  mk_pbuf (Z.of_nat n)
          (repeat x00 40 ++ [xed; x29; xad; xe0] ++ repeat x00 (n - 44)).

(** The shell OS five seconds after boot, the timer advancing by a
    microsecond per reading, every LittleFS call succeeding. *)
Definition shell_env : ShellOS.env :=
  ShellOS.mk_env (fun k => 5000000 + Z.of_nat k) utc_time (fun _ => 0).

(** The ASCII clock with WiFi and the UDP socket working; [arr] gives the
    datagrams received during each sleep. *)
Definition clock_env (arr : nat -> list pbuf) : AsciiClock.env :=
  AsciiClock.mk_env 0 0 true arr utc_time.

(** A segment of 16 bytes starting with a GET request line. *)
Definition get_request : pbuf :=
  mk_pbuf 16 (map (fun c => match Byte.of_N (N_of_ascii c) with
                            | Some b => b
                            | None => x00
                            end)
                  (list_ascii_of_string "GET / HTTP/1.1  ")).
End Scenario.

(** ** pico-shell-based-os/pico_os.cpp: the rest of the Tetris game *)
Module TetrisGame.
Import CInt ShellOS.

Definition tetris_shapes : list (list (list Z)) :=
  [ [[0;0;0;0]; [1;1;1;1]; [0;0;0;0]; [0;0;0;0]];
    [[0;0;0;0]; [0;1;1;0]; [0;1;1;0]; [0;0;0;0]];
    [[0;0;0;0]; [1;1;1;0]; [0;1;0;0]; [0;0;0;0]];
    [[0;0;0;0]; [0;1;1;0]; [1;1;0;0]; [0;0;0;0]];
    [[0;0;0;0]; [1;1;0;0]; [0;1;1;0]; [0;0;0;0]];
    [[0;0;0;0]; [1;1;1;0]; [0;0;1;0]; [0;0;0;0]];
    [[0;0;0;0]; [1;1;1;0]; [1;0;0;0]; [0;0;0;0]] ].

(** [board[y][x] = v] *)
Definition set_cell (board : list (list Z)) (y x : nat) (v : Z)
  : list (list Z) :=
  match board !! y with
  | Some row => <[y := <[x := v]> row]> board
  | None => board
  end.

(** The two loops return [true] at the first cell of the shape that leaves
    the board sideways or at the bottom, or sits on an occupied cell. *)
Definition check_collision (board : list (list Z)) (piece : TetrisPiece)
           (dx dy : Z) : bool :=
  existsb (fun i => existsb (fun j =>
    negb (cell (shape piece) i j =? 0) &&
    (let new_x := wrap32 (wrap32 (x piece + Z.of_nat j) + dx) in
     let new_y := wrap32 (wrap32 (y piece + Z.of_nat i) + dy) in
     (new_x <? 0) || (new_x >=? TETRIS_WIDTH) || (new_y >=? TETRIS_HEIGHT)
     || ((new_y >=? 0)
         && negb (cell board (Z.to_nat new_y) (Z.to_nat new_x) =? 0))))
    (seq 0 4)) (seq 0 4).

(** The body of the loops of [merge_piece] at shape cell (i, j). *)
Definition merge_cell (piece : TetrisPiece) (i j : nat)
           (board : list (list Z)) : list (list Z) :=
  if negb (cell (shape piece) i j =? 0) then
    let cx := wrap32 (x piece + Z.of_nat j) in
    let cy := wrap32 (y piece + Z.of_nat i) in
    if (cy >=? 0) && (cy <? TETRIS_HEIGHT) && (cx >=? 0) && (cx <? TETRIS_WIDTH)
    then set_cell board (Z.to_nat cy) (Z.to_nat cx) (wrap32 (type piece + 1))
    else board
  else board.

Definition merge_piece (board : list (list Z)) (piece : TetrisPiece)
  : list (list Z) :=
  fold_left (fun b i => fold_left (fun b' j => merge_cell piece i j b')
                                  (seq 0 4) b)
            (seq 0 4) board.

(** [drop_interval = 1000 - (level - 1) * 100; if (drop_interval < 100)
    drop_interval = 100;] with [int level] and [uint32_t drop_interval]. *)
Definition drop_interval_for (level : Z) : Z :=
  let d := u32 (wrap32 (1000 - wrap32 (wrap32 (level - 1) * 100))) in
  if d <? 100 then 100 else d.

(** [score], [level], [lines] and [drop_interval] of [tetris_game]. *)
Record progress := mk_progress
  { score : Z; level : Z; lines : Z; drop_interval : Z }.

Definition initial_progress : progress :=
  mk_progress 0 1 0 (drop_interval_for 1).

(** The bookkeeping after [clear_lines] returned [cleared]. *)
Definition record_cleared (cleared : Z) (g : progress) : progress :=
  if cleared >? 0 then
    let lines' := wrap32 (lines g + cleared) in
    let score' := wrap32 (score g + wrap32 (wrap32 (cleared * cleared) * 100)) in
    let level' := wrap32 (1 + Z.quot lines' 10) in
    mk_progress score' level' lines' (drop_interval_for level')
  else g.

(** A piece after [x--], [x++] or [y++]. *)
Definition move_piece (piece : TetrisPiece) (dx dy : Z) : TetrisPiece :=
  mk_piece (shape piece) (wrap32 (x piece + dx)) (wrap32 (y piece + dy))
           (type piece).

(** [while (!check_collision(board, &current_piece, 0, 1)) current_piece.y++;] *)
Fixpoint hard_drop (fuel : nat) (board : list (list Z)) (piece : TetrisPiece)
  : option TetrisPiece :=
  match fuel with
  | O => None
  | S f =>
      if check_collision board piece 0 1 then Some piece
      else hard_drop f board (move_piece piece 0 1)
  end.

(** What a key does to the current piece in [tetris_game] ('q' leaves the
    game and is not a move). The drop cannot take more turns than there
    are rows below the piece. *)
Definition handle_key (board : list (list Z)) (piece : TetrisPiece)
           (c : ascii) : option TetrisPiece :=
  if Ascii.eqb c "a" || Ascii.eqb c "A" then
    Some (if check_collision board piece (-1) 0 then piece
          else move_piece piece (-1) 0)
  else if Ascii.eqb c "d" || Ascii.eqb c "D" then
    Some (if check_collision board piece 1 0 then piece
          else move_piece piece 1 0)
  else if Ascii.eqb c "w" || Ascii.eqb c "W" then
    let test_piece := rotate_piece piece in
    Some (if check_collision board test_piece 0 0 then piece else test_piece)
  else if Ascii.eqb c "s" || Ascii.eqb c "S" then
    hard_drop (Z.to_nat (TETRIS_HEIGHT + 5 - y piece)) board piece
  else Some piece.

(** The piece lies inside the walls, above the floor, on free cells. *)
(** The piece that enters the game, from the value [rand ()] returned. *)
Definition new_piece (r : Z) : TetrisPiece :=
  let t := Z.rem r 7 in
  mk_piece (nth (Z.to_nat t) tetris_shapes []) (wrap32 (Z.quot TETRIS_WIDTH 2 - 2))
           0 t.

Definition fits (board : list (list Z)) (piece : TetrisPiece) : Prop :=
  forall i j : nat, (i < 4)%nat -> (j < 4)%nat ->
    cell (shape piece) i j <> 0 ->
    0 <= x piece + Z.of_nat j < TETRIS_WIDTH /\
    y piece + Z.of_nat i < TETRIS_HEIGHT /\
    (0 <= y piece + Z.of_nat i ->
     cell board (Z.to_nat (y piece + Z.of_nat i))
                (Z.to_nat (x piece + Z.of_nat j)) = 0).

(** The shape cell, if any, that lands on board cell (r, c). *)
Definition covers (piece : TetrisPiece) (r c : nat) : bool :=
  existsb (fun i => existsb (fun j =>
    negb (cell (shape piece) i j =? 0)
    && (y piece + Z.of_nat i =? Z.of_nat r)
    && (x piece + Z.of_nat j =? Z.of_nat c)) (seq 0 4)) (seq 0 4).

(** Pieces near the board: no coordinate arithmetic overflows. *)
Definition near (piece : TetrisPiece) : Prop :=
  - 1000 <= x piece <= 1000 /\ - 1000 <= y piece <= 1000 /\
  0 <= type piece <= 6.
End TetrisGame.

(** ** shell-based-pico-os/pico_os.cpp: the log viewer of the first shell *)
Module ShellOSv1.
Import CInt ShellOS.
Local Open Scope string_scope.

(** The entries the loop of [view_log] prints, in the order printed:
    [start = (log_count == MAX_LOG_ENTRIES) ? log_index : 0]. *)
Definition view_log_entries (st : state) : list string :=
  let start :=
    if (log_count st =? MAX_LOG_ENTRIES)%Z then log_index st else 0%Z in
  map (fun i => log_entry_at st
                  (Z.rem (wrap32 (start + Z.of_nat i)) MAX_LOG_ENTRIES))
      (seq 0 (Z.to_nat (log_count st))).

(** What [view_log] prints. *)
Definition view_log (st : state) : string :=
  Fmt.nl ++ "=== System Log ===" ++ Fmt.nl
  ++ String.concat "" (map (fun e => e ++ Fmt.nl) (view_log_entries st))
  ++ Fmt.nl.
End ShellOSv1.

(** ** pico-shell-based-os/pico_os.cpp: reading a line, splitting a command *)
Module ShellInput.
Import CInt.

Definition NUL : ascii := "000"%char.

(** [static char input_buffer1[256], input_buffer2[256]; static int
    buffer_toggle] of [read_line]. *)
Record buffers := mk_buffers
  { input_buffer1 : list ascii; input_buffer2 : list ascii;
    buffer_toggle : Z }.

Definition initial_buffers : buffers :=
  mk_buffers (repeat NUL 256) (repeat NUL 256) 0.

(** The pointer [read_line] returns: one of the two static buffers. *)
Inductive buffer_ptr := Buffer1 | Buffer2.

Definition deref (st : buffers) (p : buffer_ptr) : list ascii :=
  match p with Buffer1 => input_buffer1 st | Buffer2 => input_buffer2 st end.

(** [c == '\r' || c == '\n'] *)
Definition is_newline (c : ascii) : bool :=
  let n := nat_of_ascii c in ((n =? 13) || (n =? 10))%nat.

(** [c == 127 || c == 8] *)
Definition is_backspace (c : ascii) : bool :=
  let n := nat_of_ascii c in ((n =? 127) || (n =? 8))%nat.

(** [c >= 32 && c < 127] *)
Definition is_printable (c : ascii) : bool :=
  let n := nat_of_ascii c in ((32 <=? n) && (n <? 127))%nat.

Local Open Scope string_scope.

(** ["\b \b"] *)
Definition rubout : string := String "008" (String " " (String "008" "")).

(** The loop [while (idx < sizeof(input_buffer1) - 1)] of [read_line] and
    the lines behind it, on the characters typed so far; [None] when
    [getchar] has to wait for more. *)
Fixpoint read_line_loop (echo : bool) (inp : list ascii) (buf : list ascii)
         (idx : nat) (out : string) {struct inp}
  : option (list ascii * list ascii * string) :=
  if (idx <? 255)%nat then
    match inp with
    | []%list => None
    | (c :: r)%list =>
        if is_newline c then
          Some (<[idx := NUL]> buf, r, out ++ Fmt.cr ++ Fmt.nl)
        else if is_backspace c then
          if (0 <? idx)%nat
          then read_line_loop echo r buf (idx - 1)
                              (if echo then out ++ rubout else out)
          else read_line_loop echo r buf idx out
        else if is_printable c then
          read_line_loop echo r (<[idx := c]> buf) (S idx)
                         (out ++ String (if echo then c else "*"%char) "")
        else read_line_loop echo r buf idx out
    end
  else Some (<[idx := NUL]> buf, inp, out ++ Fmt.cr ++ Fmt.nl).

(** [read_line (prompt, echo)]: the buffer returned, the buffers and the
    toggle afterwards, the input left and the text printed. *)
Definition read_line (prompt : string) (echo : bool) (st : buffers)
           (inp : list ascii)
  : option (buffer_ptr * buffers * list ascii * string) :=
  let first := (buffer_toggle st =? 0)%Z in
  let current_buffer := if first then input_buffer1 st else input_buffer2 st in
  let toggle := wrap32 (1 - buffer_toggle st) in
  match read_line_loop echo inp current_buffer 0 prompt with
  | Some (buf, rest, out) =>
      Some (if first then Buffer1 else Buffer2,
            if first then mk_buffers buf (input_buffer2 st) toggle
            else mk_buffers (input_buffer1 st) buf toggle,
            rest, out)
  | None => None
  end.

Local Close Scope string_scope.

(** What the keys typed leave on the line: a printable character is
    appended, a backspace takes the last character away, anything else is
    ignored. *)
Definition edit_key (line : list ascii) (c : ascii) : list ascii :=
  if is_backspace c then removelast line
  else if is_printable c then line ++ [c]
  else line.

Definition edit (keys : list ascii) : list ascii :=
  fold_left edit_key keys [].

(** What is echoed for the keys typed, from a line of [n] characters. *)
Fixpoint echo_of (echo : bool) (n : nat) (keys : list ascii) : string :=
  match keys with
  | [] => ""%string
  | c :: r =>
      if is_backspace c then
        match n with
        | O => echo_of echo n r
        | S k => ((if echo then rubout else "") ++ echo_of echo k r)%string
        end
      else if is_printable c then
        String (if echo then c else "*"%char) (echo_of echo (S n) r)
      else echo_of echo n r
  end.

(** *** execute_command *)

Definition MAX_ARGS : nat := 16.

Definition is_delim (c : ascii) : bool := Ascii.eqb c " ".

Fixpoint skip_delims (s : list ascii) : list ascii :=
  match s with
  | c :: r => if is_delim c then skip_delims r else s
  | [] => []
  end.

(** The token at the front of [s] and what follows its delimiter. *)
Fixpoint scan_token (s : list ascii) : list ascii * list ascii :=
  match s with
  | [] => ([], [])
  | c :: r =>
      if is_delim c then ([], r)
      else let (tok, rest) := scan_token r in (c :: tok, rest)
  end.

(** [strtok (s, " ")] and, on what an earlier call left, [strtok (NULL,
    " ")]: the next token and the text behind it, or [None] for NULL. *)
Definition strtok (s : list ascii) : option (list ascii * list ascii) :=
  match skip_delims s with
  | [] => None
  | c :: r => Some (scan_token (c :: r))
  end.

(** [while (token != NULL && argc < MAX_ARGS) args[argc++] = token; ...],
    with room for [room] more arguments. *)
Fixpoint parse_args (room : nat) (s : list ascii) : list (list ascii) :=
  match room with
  | O => []
  | S k =>
      match strtok s with
      | None => []
      | Some (token, rest) => token :: parse_args k rest
      end
  end.

(** What the [strtok] calls leave of the text they split: NUL over the
    delimiter behind each token found, for at most [calls] calls. *)
Fixpoint strtok_marks (calls : nat) (s : list ascii) : list ascii :=
  match calls with
  | O => s
  | S k =>
      match strtok s with
      | None => s
      | Some (token, rest) =>
          let upto := (length s - length (skip_delims s) + length token)%nat in
          if (upto <? length s)%nat
          then take upto s ++ NUL :: strtok_marks k rest
          else s
      end
  end.

(** Words with the spaces behind them, one space and [snd] more. *)
Definition spaced (words : list (list ascii * nat)) : list ascii :=
  concat (map (fun w => fst w ++ repeat " "%char (S (snd w))) words).

(** A word as [strtok] returns them: not empty, no space in it. *)
Definition is_word (w : list ascii) : Prop :=
  w <> [] /\ Forall (fun c => is_delim c = false) w.

(** What [execute_command] goes on to do: the function it calls with the
    argument it passes, or the text it prints itself. *)
Inductive action :=
| NoCommand
| ShowHelp | Neofetch | TimerApp | TodoApp | NmapApp | AsciiConverter
| TetrisGame | SnakeGame | ShowSystemInfo | ClearScreen | Reboot
| ListProcesses
| Usage (text : string)
| StopProcess (name : list ascii)
| ListFiles
| ViewFile (name : list ascii)
| NanoEditor (name : list ascii)
| DeleteFile (name : list ascii)
| ShowStorageInfo | ShowIp
| PingTest (host : list ascii)
| ConnectWifi | ShowTime | ViewLog | ShowRam | SettingsMenu
| StartHttpServer | StopHttpServer | CreateDefaultWebsite
| UnknownCommand (name : list ascii).

(** [strcmp (a, b) == 0] on texts without NUL. *)
Definition streq (a : list ascii) (b : string) : bool :=
  String.eqb (string_of_list_ascii a) b.

Definition with_arg (args : list (list ascii)) (usage : string)
           (call : list ascii -> action) : action :=
  match args with
  | _ :: a1 :: _ => call a1
  | _ => Usage usage
  end.

Local Open Scope string_scope.

Definition execute_command (cmd : list ascii) : action :=
  let args := parse_args MAX_ARGS cmd in
  match args with
  | []%list => NoCommand
  | (a0 :: _)%list =>
      if streq a0 "help" then ShowHelp
      else if streq a0 "neofetch" then Neofetch
      else if streq a0 "timer" then TimerApp
      else if streq a0 "todo" then TodoApp
      else if streq a0 "nmap" then NmapApp
      else if streq a0 "ascii" then AsciiConverter
      else if streq a0 "tetris" then TetrisGame
      else if streq a0 "snake" then SnakeGame
      else if streq a0 "sysinfo" then ShowSystemInfo
      else if streq a0 "clear" then ClearScreen
      else if streq a0 "reboot" then Reboot
      else if streq a0 "ps" then ListProcesses
      else if streq a0 "stop"
      then with_arg args ("Usage: stop <process_name>" ++ Fmt.nl) StopProcess
      else if streq a0 "ls" then ListFiles
      else if streq a0 "cat"
      then with_arg args ("Usage: cat <filename>" ++ Fmt.nl) ViewFile
      else if streq a0 "nano"
      then with_arg args ("Usage: nano <filename>" ++ Fmt.nl) NanoEditor
      else if streq a0 "make"
      then with_arg args ("Usage: make <filename>" ++ Fmt.nl) NanoEditor
      else if streq a0 "delete"
      then with_arg args ("Usage: delete <filename>" ++ Fmt.nl) DeleteFile
      else if streq a0 "showspace" then ShowStorageInfo
      else if streq a0 "ipa" then ShowIp
      else if streq a0 "ping"
      then with_arg args ("Usage: ping <host>" ++ Fmt.nl) PingTest
      else if streq a0 "wifi" then ConnectWifi
      else if streq a0 "time" then ShowTime
      else if streq a0 "viewlog" then ViewLog
      else if streq a0 "showram" then ShowRam
      else if streq a0 "setting" then SettingsMenu
      else if streq a0 "localhost" then StartHttpServer
      else if streq a0 "stopweb" then StopHttpServer
      else if streq a0 "createweb" then CreateDefaultWebsite
      else UnknownCommand a0
  end.

Local Close Scope string_scope.

(** *** shell_loop *)

(** [command_buffer] and [cmd_index]. *)
Record shell := mk_shell { command_buffer : list ascii; cmd_index : Z }.

Definition initial_shell : shell := mk_shell (repeat NUL 256) 0.

Inductive shell_event :=
| ShPrint (s : string)
| ShExecute (a : action)
| ShPrompt.

(** One character from [getchar_timeout_us] in [shell_loop];
    [execute_command] is handed [command_buffer] and splits it in place,
    one [strtok] call per argument stored and one more. *)
Definition shell_char (c : ascii) (st : shell) : shell * list shell_event :=
  if is_newline c then
    let buf := <[Z.to_nat (cmd_index st) := NUL]> (command_buffer st) in
    let cmd := list_ascii_of_string (Fmt.c_str buf) in
    let buf1 :=
      if cmd_index st >? 0
      then strtok_marks (S MAX_ARGS) cmd ++ drop (length cmd) buf
      else buf in
    (mk_shell (<[0%nat := NUL]> buf1) 0,
     [ShPrint (Fmt.cr ++ Fmt.nl)%string]
     ++ (if cmd_index st >? 0 then [ShExecute (execute_command cmd)] else [])
     ++ [ShPrompt])
  else if is_backspace c then
    if cmd_index st >? 0
    then (mk_shell (command_buffer st) (wrap32 (cmd_index st - 1)),
          [ShPrint rubout])
    else (st, [])
  else if is_printable c then
    if cmd_index st <? 256 - 1
    then (mk_shell (<[Z.to_nat (cmd_index st) := c]> (command_buffer st))
                   (wrap32 (cmd_index st + 1)),
          [ShPrint (String c "")])
    else (st, [])
  else (st, []).

(** The characters of a run, one after the other. *)
Fixpoint shell_run (keys : list ascii) (st : shell)
  : shell * list shell_event :=
  match keys with
  | [] => (st, [])
  | c :: r =>
      let (st1, ev1) := shell_char c st in
      let (st2, ev2) := shell_run r st1 in
      (st2, ev1 ++ ev2)
  end.
End ShellInput.

(** ** pico-shell-based-os/pico_os.cpp: the web server on LittleFS *)
Module ShellHttp.
Import CInt Lwip.

Definition MAX_HTTP_CONNECTIONS : Z := 4.
Definition ERR_OK : Z := 0.
Definition ERR_VAL : Z := -6.
Definition ERR_ABRT : Z := -13.

(** [strrchr (s, c)] for a character [c] other than NUL: the text from
    the last [c] on, or [None] for NULL. *)
Fixpoint strrchr (s : list ascii) (c : ascii) : option (list ascii) :=
  match s with
  | [] => None
  | a :: r =>
      match strrchr r c with
      | Some t => Some t
      | None => if Ascii.eqb a c then Some s else None
      end
  end.

Local Open Scope string_scope.

Definition get_mime_type (filename : list ascii) : string :=
  match strrchr filename "." with
  | None => "text/plain"
  | Some ext =>
      if ShellInput.streq ext ".html" || ShellInput.streq ext ".htm"
      then "text/html"
      else if ShellInput.streq ext ".css" then "text/css"
      else if ShellInput.streq ext ".js" then "application/javascript"
      else if ShellInput.streq ext ".json" then "application/json"
      else if ShellInput.streq ext ".png" then "image/png"
      else if ShellInput.streq ext ".jpg" || ShellInput.streq ext ".jpeg"
      then "image/jpeg"
      else if ShellInput.streq ext ".gif" then "image/gif"
      else if ShellInput.streq ext ".svg" then "image/svg+xml"
      else if ShellInput.streq ext ".ico" then "image/x-icon"
      else if ShellInput.streq ext ".txt" then "text/plain"
      else "application/octet-stream"
  end.

(** What the server does to the world, in order; [log_message] calls are
    kept with their argument. *)
Inductive event :=
| EvFileOpen (path : list ascii)
| EvFileClose
| EvMalloc (size : Z)
| EvFree
| EvTcpWrite (data : string) (len : Z)
| EvTcpOutput
| EvTcpRecved (len : Z)
| EvPbufFree (p : pbuf)
| EvTcpClose
| EvTcpAbort
| EvTcpCallbacks
| EvSleep (ms : Z)
| EvLog (msg : string).

Record state := mk_state { active_connections : Z; trace : list event }.

(** The surroundings: the results of [lfs_file_open], [lfs_file_size] and
    [lfs_file_read] for a path, the text of the file, whether [malloc]
    returns a buffer, and the result of the [k]-th [tcp_write]. *)
Record env := mk_env
  { file_open_rc : list ascii -> Z;
    file_size : list ascii -> Z;
    file_read_rc : list ascii -> Z;
    file_text : list ascii -> string;
    malloc_ok : Z -> bool;
    tcp_write_rc : nat -> Z }.

Definition emit (e : event) (st : state) : state :=
  mk_state (active_connections st) (trace st ++ [e]).

Definition is_write (e : event) : bool :=
  match e with EvTcpWrite _ _ => true | _ => false end.

Definition tcp_write (E : env) (data : string) (len : Z) (st : state)
  : Z * state :=
  (tcp_write_rc E (length (List.filter is_write (trace st))),
   emit (EvTcpWrite data len) st).

Definition crlf : string := Fmt.cr ++ Fmt.nl.

(** The text [send_http_error] formats. *)
Definition error_page (code : Z) (message : string) : string :=
  "HTTP/1.1 " ++ Fmt.d code ++ " " ++ message ++ crlf
  ++ "Content-Type: text/html" ++ crlf
  ++ "Connection: close" ++ crlf
  ++ crlf
  ++ "<html><body><h1>" ++ Fmt.d code ++ " " ++ message
  ++ "</h1></body></html>" ++ crlf.

(** [snprintf] stores at most 255 characters in [response] and returns
    the length of the whole text, which is the length handed on. *)
Definition send_http_error (E : env) (code : Z) (message : string)
           (st : state) : Z * state :=
  let text := error_page code message in
  let len := Z.of_nat (String.length text) in
  let (err, st1) := tcp_write E (Fmt.truncate 256 text) len st in
  (err, emit EvTcpOutput st1).

(** The header of a file response. *)
Definition file_header (mime : string) (read_size : Z) : string :=
  "HTTP/1.1 200 OK" ++ crlf
  ++ "Content-Type: " ++ mime ++ crlf
  ++ "Content-Length: " ++ Fmt.d read_size ++ crlf
  ++ "Connection: close" ++ crlf
  ++ crlf.

Definition send_file_response (E : env) (filepath : list ascii)
           (st : state) : Z * state :=
  let st1 := emit (EvFileOpen filepath) st in
  if (file_open_rc E filepath <? 0)%Z then
    send_http_error E 404 "Not Found" (emit (EvLog "HTTP: File not found") st1)
  else
    let size := file_size E filepath in
    if ((size <? 0) || (size >? 65536))%Z then
      send_http_error E 500 "Internal Server Error" (emit EvFileClose st1)
    else if negb (malloc_ok E (wrap32 (size + 1))) then
      send_http_error E 500 "Internal Server Error" (emit EvFileClose st1)
    else
      let st2 := emit (EvMalloc (wrap32 (size + 1))) st1 in
      let read_size := file_read_rc E filepath in
      let st3 := emit EvFileClose st2 in
      if (read_size <? 0)%Z then
        send_http_error E 500 "Internal Server Error" (emit EvFree st3)
      else
        let content :=
          String.substring 0 (Z.to_nat read_size) (file_text E filepath) in
        let mime := get_mime_type filepath in
        let header := file_header mime read_size in
        let header_len := Z.of_nat (String.length header) in
        let (err, st4) := tcp_write E (Fmt.truncate 256 header) header_len st3 in
        let (err', st5) :=
          if (err =? ERR_OK)%Z then tcp_write E content read_size st4
          else (err, st4) in
        let st6 := emit EvFree (emit EvTcpOutput st5) in
        let log_msg :=
          Fmt.truncate 128
            ("HTTP: Served " ++ string_of_list_ascii filepath ++ " ("
             ++ Fmt.d read_size ++ " bytes)") in
        (err', emit (EvLog log_msg) st6).

Local Close Scope string_scope.

(** A [%Ns] conversion of [sscanf]: white space is skipped, then up to
    [width] characters are taken, up to the next white space or the end
    of the text; the conversion fails at the end of the text. *)
Fixpoint take_word (width : nat) (s : list ascii) : list ascii * list ascii :=
  match width, s with
  | S k, c :: r =>
      if Todo.isspace c then ([], s)
      else let (w, rest) := take_word k r in (c :: w, rest)
  | _, _ => ([], s)
  end.

Definition sscan_word (width : nat) (s : list ascii)
  : option (list ascii * list ascii) :=
  match Todo.skip_spaces s with
  | [] => None
  | c :: r => Some (take_word width (c :: r))
  end.

(** [sscanf (request, "%15s %127s %15s", method, path, version) == 3] *)
Definition parse_request (request : list ascii)
  : option (list ascii * list ascii * list ascii) :=
  match sscan_word 15 request with
  | None => None
  | Some (method, r1) =>
      match sscan_word 127 r1 with
      | None => None
      | Some (path, r2) =>
          match sscan_word 15 r2 with
          | None => None
          | Some (version, _) => Some (method, path, version)
          end
      end
  end.

(** The text of a byte buffer read as a C string. *)
Definition text_of (bytes : list byte) : list ascii :=
  list_ascii_of_string (Fmt.c_str (map ascii_of_byte bytes)).

(** [request]: the first [len] bytes of the segment, [len] at most 511,
    with NUL behind them. *)
Definition request_text (p : pbuf) : list ascii :=
  let len := if (tot_len p <? 512 - 1)%Z then tot_len p else (512 - 1)%Z in
  text_of (take (Z.to_nat len) (payload p)).

(** [strcpy (filepath, "/web/index.html")] or
    [snprintf (filepath, sizeof(filepath), "/web%s", path)] *)
Definition map_url (path : list ascii) : list ascii :=
  if ShellInput.streq path "/" then list_ascii_of_string "/web/index.html"
  else take 143 (list_ascii_of_string "/web" ++ path).

Definition close_connection (st : state) : state :=
  emit EvTcpClose
    (mk_state (wrap32 (active_connections st - 1)) (trace st)).

Local Open Scope string_scope.

(** [p] is [None] for NULL. *)
Definition http_recv_callback (E : env) (p : option pbuf) (err : Z)
           (st : state) : Z * state :=
  match p with
  | None => (ERR_OK, close_connection st)
  | Some p =>
      if negb (err =? ERR_OK)%Z then
        (err, close_connection (emit (EvPbufFree p) st))
      else
        let request := request_text p in
        let st1 := emit (EvPbufFree p) (emit (EvTcpRecved (tot_len p)) st) in
        match parse_request request with
        | None =>
            (ERR_OK,
             close_connection (snd (send_http_error E 400 "Bad Request" st1)))
        | Some (method, path, version) =>
            let log_msg :=
              Fmt.truncate 256
                ("HTTP: " ++ string_of_list_ascii method ++ " "
                 ++ string_of_list_ascii path) in
            let st2 := emit (EvLog log_msg) st1 in
            let st3 :=
              if negb (ShellInput.streq method "GET")
              then snd (send_http_error E 405 "Method Not Allowed" st2)
              else snd (send_file_response E (map_url path) st2) in
            (ERR_OK, close_connection (emit (EvSleep 10) st3))
        end
  end.

Local Close Scope string_scope.

Definition http_err_callback (st : state) : state :=
  if active_connections st >? 0
  then mk_state (wrap32 (active_connections st - 1)) (trace st)
  else st.

(** [newpcb_null] tells whether [newpcb] is NULL. *)
Definition http_accept_callback (newpcb_null : bool) (err : Z) (st : state)
  : Z * state :=
  if negb (err =? ERR_OK) || newpcb_null then (ERR_VAL, st)
  else if active_connections st >=? MAX_HTTP_CONNECTIONS
  then (ERR_ABRT, emit EvTcpAbort st)
  else (ERR_OK,
        emit EvTcpCallbacks
          (mk_state (wrap32 (active_connections st + 1)) (trace st))).

(** The calls lwIP makes: the accept callback with a new connection and
    an error code, the receive callback of a connection with a segment
    and an error code, the error callback of a connection.  NULL is
    [None]; a connection is named by a number, which the callbacks do not
    look at ([tcp_arg] sets NULL). *)
Inductive call :=
| Accept (newpcb : option nat) (err : Z)
| Received (pcb : nat) (p : option pbuf) (err : Z)
| Failed (pcb : nat).

(** The callback that runs for a call. *)
Definition deliver (E : env) (c : call) (st : state) : state :=
  match c with
  | Accept newpcb err =>
      snd (http_accept_callback
             (match newpcb with Some _ => false | None => true end) err st)
  | Received _ p err => snd (http_recv_callback E p err st)
  | Failed _ => http_err_callback st
  end.

Definition holds (pcb : nat) (held : list nat) : bool :=
  existsb (Nat.eqb pcb) held.

Fixpoint remove_one (pcb : nat) (held : list nat) : list nat :=
  match held with
  | [] => []
  | q :: r => if Nat.eqb pcb q then r else q :: remove_one pcb r
  end.

(** The connections open at the server after a call: one more when the
    accept callback has returned ERR_OK; one fewer when the receive
    callback has run, each path of which ends in [tcp_close], or when
    lwIP has reported the connection failed. *)
Definition track (c : call) (st : state) (held : list nat) : list nat :=
  match c with
  | Accept (Some pcb) err =>
      if fst (http_accept_callback false err st) =? ERR_OK
      then pcb :: held else held
  | Accept None _ => held
  | Received pcb _ _ => remove_one pcb held
  | Failed pcb => remove_one pcb held
  end.

(** A call about a connection that is not open at the server: the
    receive callback closes with [tcp_close] and leaves [tcp_recv] and
    [tcp_err] registered, so the peer's close or an error of a connection
    already closed is still delivered. *)
Definition late (c : call) (held : list nat) : bool :=
  match c with
  | Accept _ _ => false
  | Received pcb _ _ => negb (holds pcb held)
  | Failed pcb => negb (holds pcb held)
  end.

(** A run of calls, any calls in any order, with the connections open at
    the server. *)
Fixpoint serve (E : env) (calls : list call) (st : state) (held : list nat)
  : state * list nat :=
  match calls with
  | [] => (st, held)
  | c :: rest => serve E rest (deliver E c st) (track c st held)
  end.

(** No call of the run is late. *)
Fixpoint timely (E : env) (calls : list call) (st : state) (held : list nat)
  : bool :=
  match calls with
  | [] => true
  | c :: rest =>
      negb (late c held) && timely E rest (deliver E c st) (track c st held)
  end.

Definition count_event (f : event -> bool) (tr : list event) : nat :=
  length (List.filter f tr).

Definition is_open (E : env) (e : event) : bool :=
  match e with
  | EvFileOpen path => negb (file_open_rc E path <? 0)
  | _ => false
  end.

Definition is_close (e : event) : bool :=
  match e with EvFileClose => true | _ => false end.

Definition is_malloc (e : event) : bool :=
  match e with EvMalloc _ => true | _ => false end.

Definition is_free (e : event) : bool :=
  match e with EvFree => true | _ => false end.
End ShellHttp.

(** ** pico-shell-based-os/pico_os.cpp: the Snake game *)
Module Snake.
Import CInt.

Definition SNAKE_WIDTH : Z := 20.
Definition SNAKE_HEIGHT : Z := 15.
Definition SNAKE_MAX_LENGTH : Z := 100.

Record SnakeSegment := mk_segment { x : Z; y : Z }.

(** The locals of [snake_game] that live across the turns of its loop,
    and how often [rand] and the timer have been read. *)
Record game := mk_game
  { snake : list SnakeSegment; snake_length : Z; dx : Z; dy : Z; score : Z;
    food_x : Z; food_y : Z; last_move : Z; move_interval : Z;
    pending_direction : ascii; rand_calls : nat; clock_reads : nat }.

(** The surroundings: the value of the [k]-th [rand ()] and of the [k]-th
    [to_ms_since_boot (get_absolute_time ())]. *)
Record env := mk_env { rand : nat -> Z; clock_ms : nat -> Z }.

(** [snake[i]] *)
Definition segment_at (arr : list SnakeSegment) (i : nat) : SnakeSegment :=
  nth i arr (mk_segment 0 0).

(** [for (int i = top; i > 0; i--) snake[i] = snake[i - 1];] *)
Fixpoint shift (top : nat) (arr : list SnakeSegment) : list SnakeSegment :=
  match top with
  | O => arr
  | S j => shift j (<[S j := segment_at arr j]> arr)
  end.

(** The loops over [i < snake_length] that look for a segment at a
    position. *)
Definition on_snake (arr : list SnakeSegment) (len : Z) (px py : Z) : bool :=
  existsb (fun i => (x (segment_at arr i) =? px) && (y (segment_at arr i) =? py))
          (seq 0 (Z.to_nat len)).

(** The state the game starts in; [garbage] is what the array [snake]
    holds before its first three elements are set. *)
Definition initial (E : env) (garbage : list SnakeSegment) : game :=
  let s0 := mk_segment (Z.quot SNAKE_WIDTH 2) (Z.quot SNAKE_HEIGHT 2) in
  let s1 := mk_segment (wrap32 (x s0 - 1)) (y s0) in
  let s2 := mk_segment (wrap32 (x s1 - 1)) (y s1) in
  mk_game (<[2%nat := s2]> (<[1%nat := s1]> (<[0%nat := s0]> garbage)))
          3 1 0 0
          (Z.rem (rand E 0) SNAKE_WIDTH) (Z.rem (rand E 1) SNAKE_HEIGHT)
          (clock_ms E 0) 200 "d" 2 1.

(** The key read in a turn; [None] is PICO_ERROR_TIMEOUT.  The result
    [None] is the [break] of the quit key. *)
Definition handle_key (c : option ascii) (g : game) : option game :=
  match c with
  | None => Some g
  | Some c =>
      let turn d :=
        Some (mk_game (snake g) (snake_length g) (dx g) (dy g) (score g)
                      (food_x g) (food_y g) (last_move g) (move_interval g)
                      d (rand_calls g) (clock_reads g)) in
      if (Ascii.eqb c "w" || Ascii.eqb c "W") && negb (dy g =? 1) then turn "w"%char
      else if (Ascii.eqb c "s" || Ascii.eqb c "S") && negb (dy g =? -1)
      then turn "s"%char
      else if (Ascii.eqb c "a" || Ascii.eqb c "A") && negb (dx g =? 1)
      then turn "a"%char
      else if (Ascii.eqb c "d" || Ascii.eqb c "D") && negb (dx g =? -1)
      then turn "d"%char
      else if Ascii.eqb c "q" || Ascii.eqb c "Q" then None
      else Some g
  end.

(** [dx] and [dy] for the pending direction. *)
Definition direction (g : game) : Z * Z :=
  let p := pending_direction g in
  if Ascii.eqb p "w" then (0, -1)
  else if Ascii.eqb p "s" then (0, 1)
  else if Ascii.eqb p "a" then (-1, 0)
  else if Ascii.eqb p "d" then (1, 0)
  else (dx g, dy g).

(** The [do ... while (true)] that places the food, for at most [fuel]
    draws. *)
Fixpoint place_food (E : env) (fuel : nat) (g : game) : option game :=
  match fuel with
  | O => None
  | S f =>
      let fx := Z.rem (rand E (rand_calls g)) SNAKE_WIDTH in
      let fy := Z.rem (rand E (S (rand_calls g))) SNAKE_HEIGHT in
      let g1 := mk_game (snake g) (snake_length g) (dx g) (dy g) (score g)
                        fx fy (last_move g) (move_interval g)
                        (pending_direction g) (S (S (rand_calls g)))
                        (clock_reads g) in
      if on_snake (snake g1) (snake_length g1) fx fy
      then place_food E f g1 else Some g1
  end.

Inductive outcome :=
| Running (g : game)
| GameOver (g : game)
| Quit (g : game).

(** The block under [if (now - last_move >= move_interval)]. *)
Definition move_snake (E : env) (fuel : nat) (now : Z) (g : game)
  : option outcome :=
  let (dx', dy') := direction g in
  let new_x := wrap32 (x (segment_at (snake g) 0) + dx') in
  let new_y := wrap32 (y (segment_at (snake g) 0) + dy') in
  let g1 := mk_game (snake g) (snake_length g) dx' dy' (score g)
                    (food_x g) (food_y g) (last_move g) (move_interval g)
                    (pending_direction g) (rand_calls g) (clock_reads g) in
  if (new_x <? 0) || (new_x >=? SNAKE_WIDTH) || (new_y <? 0)
     || (new_y >=? SNAKE_HEIGHT)
  then Some (GameOver g1)
  else if on_snake (snake g) (snake_length g) new_x new_y
  then Some (GameOver g1)
  else
    let ate_food := (new_x =? food_x g) && (new_y =? food_y g) in
    let moved :=
      if negb ate_food then
        Some (mk_game (shift (Z.to_nat (wrap32 (snake_length g - 1))) (snake g))
                      (snake_length g) dx' dy' (score g)
                      (food_x g) (food_y g) (last_move g) (move_interval g)
                      (pending_direction g) (rand_calls g) (clock_reads g))
      else
        place_food E fuel
          (if snake_length g <? SNAKE_MAX_LENGTH then
             let m := u32 (move_interval g - 5) in
             mk_game (shift (Z.to_nat (snake_length g)) (snake g))
                     (wrap32 (snake_length g + 1)) dx' dy'
                     (wrap32 (score g + 10))
                     (food_x g) (food_y g) (last_move g)
                     (if m <? 50 then 50 else m)
                     (pending_direction g) (rand_calls g) (clock_reads g)
           else g1) in
    match moved with
    | None => None
    | Some g2 =>
        Some (Running
                (mk_game (<[0%nat := mk_segment new_x new_y]> (snake g2))
                         (snake_length g2) (dx g2) (dy g2) (score g2)
                         (food_x g2) (food_y g2) now (move_interval g2)
                         (pending_direction g2) (rand_calls g2)
                         (clock_reads g2)))
    end.

(** One turn of [while (!game_over)] with the key [c] read in it. *)
Definition iteration (E : env) (fuel : nat) (c : option ascii) (g : game)
  : option outcome :=
  match handle_key c g with
  | None => Some (Quit g)
  | Some g1 =>
      let now := clock_ms E (clock_reads g1) in
      let g2 := mk_game (snake g1) (snake_length g1) (dx g1) (dy g1) (score g1)
                        (food_x g1) (food_y g1) (last_move g1)
                        (move_interval g1) (pending_direction g1)
                        (rand_calls g1) (S (clock_reads g1)) in
      if u32 (now - last_move g2) >=? move_interval g2
      then move_snake E fuel now g2
      else Some (Running g2)
  end.

(** The index pairs of the writes to [board] at the start of a turn,
    [board[snake[i].y][snake[i].x]] and [board[food_y][food_x]]. *)
Definition board_writes (g : game) : list (Z * Z) :=
  map (fun i => (y (segment_at (snake g) i), x (segment_at (snake g) i)))
      (seq 0 (Z.to_nat (snake_length g)))
  ++ [(food_y g, food_x g)].

(** The segments in use, head first. *)
Definition body (g : game) : list SnakeSegment :=
  take (Z.to_nat (snake_length g)) (snake g).

Definition in_field (s : SnakeSegment) : Prop :=
  0 <= x s < SNAKE_WIDTH /\ 0 <= y s < SNAKE_HEIGHT.

(** What holds of the game at the start of every turn. *)
Definition game_ok (g : game) : Prop :=
  length (snake g) = Z.to_nat SNAKE_MAX_LENGTH /\
  3 <= snake_length g <= SNAKE_MAX_LENGTH /\
  Forall in_field (body g) /\ NoDup (body g) /\
  0 <= food_x g < SNAKE_WIDTH /\ 0 <= food_y g < SNAKE_HEIGHT /\
  score g = 10 * (snake_length g - 3) /\
  move_interval g = Z.max 50 (200 - 5 * (snake_length g - 3)) /\
  In (dx g, dy g) [(0, -1); (0, 1); (-1, 0); (1, 0)] /\
  In (pending_direction g) ["w"; "s"; "a"; "d"]%char /\
  direction g <> (- dx g, - dy g).
End Snake.

(** ** The C library's [atoi] *)
Module CLib.
Definition is_digit (c : ascii) : bool :=
  let n := nat_of_ascii c in ((48 <=? n) && (n <=? 57))%nat.

Fixpoint digits_value (s : list ascii) (acc : Z) : Z :=
  match s with
  | c :: r =>
      if is_digit c
      then digits_value r (acc * 10 + (Z.of_nat (nat_of_ascii c) - 48))
      else acc
  | [] => acc
  end.

(** [atoi], the C library's [(int) strtol (s, NULL, 10)]: white space, an
    optional sign, digits; a value out of range is LONG_MAX or LONG_MIN
    (32 bits). *)
Definition atoi (s : list ascii) : Z :=
  match Todo.skip_spaces s with
  | "-"%char :: r => Z.max (- 2^31) (- digits_value r 0)
  | "+"%char :: r => Z.min (2^31 - 1) (digits_value r 0)
  | r => Z.min (2^31 - 1) (digits_value r 0)
  end.
End CLib.

(** ** pico-shell-based-os/pico_os.cpp: the to-do list of the shell *)
Module ShellTodo.
Import CInt ShellInput CLib.

(** [struct TodoItem] *)
Record TodoItem := mk_todo
  { text : list ascii; completed : bool; active : bool }.
(** [todos[2]], both items with an empty text, not completed, not active. *)
(** [todos[2]], both items [{"", false, false}]. *)
Definition initial_todos : list TodoItem :=
  repeat (mk_todo (repeat NUL 100) false false) 2.

(** [todos[i]] *)
Definition todo_at (todos : list TodoItem) (i : nat) : TodoItem :=
  nth i todos (mk_todo [] false false).

(** The [n] bytes [strncpy (dst, src, n)] writes: the text, cut at [n],
    and NUL up to [n] bytes. *)
Definition strncpy (n : nat) (src : list ascii) : list ascii :=
  take n (src ++ repeat NUL n).

(** The text a buffer of [read_line] holds. *)
Definition line_of (st : buffers) (p : buffer_ptr) : list ascii :=
  list_ascii_of_string (Fmt.c_str (deref st p)).

Local Open Scope string_scope.

Definition banner : string :=
  ShellOS.ANSI_CLEAR_SCREEN ++ ShellOS.ANSI_BOLD ++ ShellOS.ANSI_CYAN
  ++ "╔════════════════════════════════════════╗" ++ Fmt.nl
  ++ "║          Todo List Manager             ║" ++ Fmt.nl
  ++ "╚════════════════════════════════════════╝" ++ Fmt.nl ++ ShellOS.ANSI_RESET.

(** One line of the list, [printf ("%d. [%c] %s\n", ...)] for an active
    item. *)
Definition todo_line (i : nat) (t : TodoItem) : string :=
  if active t
  then Fmt.d (wrap32 (Z.of_nat i + 1)) ++ ". ["
       ++ (if completed t then "X" else " ") ++ "] " ++ Fmt.c_str (text t)
       ++ Fmt.nl
  else "".

Definition listing (todos : list TodoItem) : string :=
  Fmt.nl ++ ShellOS.ANSI_BOLD ++ "Current Todos:" ++ Fmt.nl
  ++ ShellOS.ANSI_RESET
  ++ todo_line 0 (todo_at todos 0) ++ todo_line 1 (todo_at todos 1)
  ++ (if active (todo_at todos 0) || active (todo_at todos 1) then ""
      else "  (No todos yet)" ++ Fmt.nl)
  ++ Fmt.nl ++ "Options:" ++ Fmt.nl
  ++ "1. Add todo" ++ Fmt.nl ++ "2. Complete todo" ++ Fmt.nl
  ++ "3. Delete todo" ++ Fmt.nl ++ "4. Exit" ++ Fmt.nl.

(** The first [i] of the loop [for (int i = 0; i < 2; i++)] with
    [!todos[i].active]. *)
Definition first_free (todos : list TodoItem) : option nat :=
  if negb (active (todo_at todos 0)) then Some 0%nat
  else if negb (active (todo_at todos 1)) then Some 1%nat
  else None.

(** The branch [strcmp (choice, "1") == 0]. *)
Definition add_todo (st : buffers) (todos : list TodoItem) (inp : list ascii)
  : option (buffers * list TodoItem * list ascii * string) :=
  match first_free todos with
  | None => Some (st, todos, inp, "")
  | Some i =>
      match read_line "Enter todo: " true st inp with
      | None => None
      | Some (p, st1, rest, out) =>
          let txt := line_of st1 p in
          if (length txt =? 0)%nat
          then Some (st1, todos, rest,
                     out ++ ShellOS.ANSI_YELLOW ++ "Todo text cannot be empty"
                     ++ Fmt.nl ++ ShellOS.ANSI_RESET)
          else Some (st1,
                     <[i := mk_todo (strncpy 99 txt ++ [NUL]) false true]> todos,
                     rest,
                     out ++ ShellOS.ANSI_GREEN ++ "Todo added!" ++ Fmt.nl
                     ++ ShellOS.ANSI_RESET)
      end
  end.

(** [idx >= 0 && idx < 2 && todos[idx].active] *)
Definition valid_index (todos : list TodoItem) (idx : Z) : bool :=
  (idx >=? 0)%Z && (idx <? 2)%Z && active (todo_at todos (Z.to_nat idx)).

Definition invalid_number : string :=
  ShellOS.ANSI_YELLOW ++ "Invalid todo number" ++ Fmt.nl ++ ShellOS.ANSI_RESET.

(** The branch [strcmp (choice, "2") == 0]. *)
Definition complete_todo (st : buffers) (todos : list TodoItem)
           (inp : list ascii)
  : option (buffers * list TodoItem * list ascii * string) :=
  match read_line "Todo number to complete: " true st inp with
  | None => None
  | Some (p, st1, rest, out) =>
      let idx := wrap32 (atoi (line_of st1 p) - 1) in
      if valid_index todos idx then
        let t := todo_at todos (Z.to_nat idx) in
        Some (st1,
              <[Z.to_nat idx := mk_todo (text t) (negb (completed t)) (active t)]>
                todos,
              rest,
              out ++ ShellOS.ANSI_GREEN ++ "Todo toggled!" ++ Fmt.nl
              ++ ShellOS.ANSI_RESET)
      else Some (st1, todos, rest, out ++ invalid_number)
  end.

(** The branch [strcmp (choice, "3") == 0]. *)
Definition delete_todo (st : buffers) (todos : list TodoItem)
           (inp : list ascii)
  : option (buffers * list TodoItem * list ascii * string) :=
  match read_line "Todo number to delete: " true st inp with
  | None => None
  | Some (p, st1, rest, out) =>
      let idx := wrap32 (atoi (line_of st1 p) - 1) in
      if valid_index todos idx then
        let t := todo_at todos (Z.to_nat idx) in
        Some (st1,
              <[Z.to_nat idx := mk_todo (<[0%nat := NUL]> (text t))
                                        (completed t) false]> todos,
              rest,
              out ++ ShellOS.ANSI_GREEN ++ "Todo deleted!" ++ Fmt.nl
              ++ ShellOS.ANSI_RESET)
      else Some (st1, todos, rest, out ++ invalid_number)
  end.

(** One turn of the loop of [todo_app]; the flag tells whether the loop
    goes on. *)
Definition todo_iteration (st : buffers) (todos : list TodoItem)
           (inp : list ascii)
  : option (bool * buffers * list TodoItem * list ascii * string) :=
  match read_line (Fmt.nl ++ "Choice: ") true st inp with
  | None => None
  | Some (p, st1, rest, out) =>
      let choice := line_of st1 p in
      let branch :=
        if streq choice "1" then
          match add_todo st1 todos rest with
          | Some r => Some (true, r) | None => None
          end
        else if streq choice "2" then
          match complete_todo st1 todos rest with
          | Some r => Some (true, r) | None => None
          end
        else if streq choice "3" then
          match delete_todo st1 todos rest with
          | Some r => Some (true, r) | None => None
          end
        else if streq choice "4" then Some (false, (st1, todos, rest, ""))
        else Some (true, (st1, todos, rest, "")) in
      match branch with
      | Some (go_on, (st2, todos2, rest2, out2)) =>
          Some (go_on, st2, todos2, rest2,
                listing todos ++ out ++ out2 ++ (if go_on then banner else ""))
      | None => None
      end
  end.

Local Close Scope string_scope.

(** The list holds two items of 100 bytes each, with a text that ends. *)
Definition todos_ok (todos : list TodoItem) : Prop :=
  length todos = 2%nat /\
  Forall (fun t => length (text t) = 100%nat /\
                   (String.length (Fmt.c_str (text t)) <= 99)%nat) todos.
End ShellTodo.

(** ** pico-shell-based-os/pico_os.cpp: the port scanner *)
Module PortScan.
Import CInt CLib.

(** [strchr (s, '-')], and the text in front of it once [*dash = '\0']:
    the texts before and behind the first dash. *)
Fixpoint split_dash (s : list ascii) : option (list ascii * list ascii) :=
  match s with
  | [] => None
  | c :: r =>
      if Ascii.eqb c "-" then Some ([], r)
      else match split_dash r with
           | Some (a, b) => Some (c :: a, b)
           | None => None
           end
  end.

(** [start_port] and [end_port], both [uint16_t], from the range typed. *)
Definition parse_range (range_input : list ascii) : Z * Z :=
  match split_dash range_input with
  | Some (a, b) => (u16 (atoi a), u16 (atoi b))
  | None => (u16 (atoi range_input), u16 (atoi range_input))
  end.

(** [start_port < 1 || start_port > end_port] *)
Definition invalid_range (start_port end_port : Z) : bool :=
  (start_port <? 1) || (start_port >? end_port).

(** [for (uint16_t port = start_port; port <= end_port; port++)], for at
    most [fuel] turns: the ports handed to [scan_port], in order, and the
    count of those it reports open; [None] when the loop is still running
    after [fuel] turns.  [is_open] is what [scan_port] returns. *)
Fixpoint scan_loop (is_open : Z -> bool) (fuel : nat) (port end_port : Z)
         (open_count : Z) : option (list Z * Z) :=
  match fuel with
  | O => None
  | S f =>
      if port <=? end_port then
        match scan_loop is_open f (u16 (port + 1)) end_port
                        (if is_open port then wrap32 (open_count + 1)
                         else open_count) with
        | Some (ports, n) => Some (port :: ports, n)
        | None => None
        end
      else Some ([], open_count)
  end.

(** The ports scanned in the first [n] turns of a loop that goes on. *)
Fixpoint scanned (n : nat) (port end_port : Z) : list Z :=
  match n with
  | O => []
  | S k =>
      if port <=? end_port
      then port :: scanned k (u16 (port + 1)) end_port
      else []
  end.

(** The range branch of [nmap_app] from the parsing on: [None] for the
    "Invalid port range" exit, else the result of the loop. *)
Definition scan_range (is_open : Z -> bool) (fuel : nat)
           (range_input : list ascii) : option (option (list Z * Z)) :=
  let (start_port, end_port) := parse_range range_input in
  if invalid_range start_port end_port then None
  else Some (scan_loop is_open fuel start_port end_port 0).
End PortScan.

(* ================================================================== *)
(** * Part II: the claims *)
(* ================================================================== *)

(** ** Facts used for several claims *)

Section Shared.
Import CInt.

Lemma wrap32_small x : - 2^31 <= x < 2^31 -> wrap32 x = x.
Proof.
  intros H. unfold wrap32.
  rewrite Z.mod_small; lia.
Qed.

(** [log_message] touches the log and the timer-read count only. *)
Lemma log_message_frame E msg st :
  let st' := ShellOS.log_message E msg st in
  ShellOS.system_time_offset st' = ShellOS.system_time_offset st /\
  ShellOS.time_sync_base st' = ShellOS.time_sync_base st /\
  ShellOS.ntp_synced st' = ShellOS.ntp_synced st /\
  ShellOS.timezone_offset st' = ShellOS.timezone_offset st /\
  ShellOS.fs_calls st' = ShellOS.fs_calls st /\
  ShellOS.events st' = ShellOS.events st.
Proof.
  unfold ShellOS.log_message, ShellOS.log_line, ShellOS.get_current_time,
    ShellOS.get_absolute_time.
  destruct (ShellOS.system_time_offset st =? 0); cbn;
    [| destruct (wrap64 _ =? 0); cbn ]; repeat split; reflexivity.
Qed.

End Shared.

(** ** The calendar of the ASCII clock (C1) *)

Section Calendar.
Import CInt AsciiClock CalendarSpec.


Lemma is_leap_year_iff y :
  is_leap_year y = true <-> (y mod 4 = 0 /\ y mod 100 <> 0) \/ y mod 400 = 0.
Proof.
  unfold is_leap_year.
  rewrite orb_true_iff, andb_true_iff, negb_true_iff, !Z.eqb_eq, Z.eqb_neq.
  Z.to_euclidean_division_equations. lia.
Qed.

Lemma year_length y :
  days_before_year (y + 1) - days_before_year y =
  if is_leap_year y then 366 else 365.
Proof.
  destruct (is_leap_year y) eqn:E.
  - apply is_leap_year_iff in E. unfold days_before_year, leap_years_before.
    replace (y + 1 - 1) with y by lia.
    Z.to_euclidean_division_equations. lia.
  - assert (H : ~ ((y mod 4 = 0 /\ y mod 100 <> 0) \/ y mod 400 = 0)).
    { rewrite <- is_leap_year_iff. congruence. }
    unfold days_before_year, leap_years_before.
    replace (y + 1 - 1) with y by lia.
    Z.to_euclidean_division_equations. lia.
Qed.

Lemma year_of_days_correct n y :
  days_before_year y <= n + epoch_days < days_before_year (y + 1) ->
  year_of_days n = y.
Proof.
  intros H. unfold year_of_days.
  set (a := n + epoch_days) in *.
  assert (Hy : y - 1 <= 1 + 400 * a / 146097 <= y + 1).
  { unfold days_before_year, leap_years_before in H.
    replace (y + 1 - 1) with y in H by lia.
    Z.to_euclidean_division_equations. lia. }
  pose proof (year_length (y - 1)) as L1.
  pose proof (year_length y) as L2.
  pose proof (year_length (y + 1)) as L3.
  replace (y - 1 + 1) with y in L1 by lia.
  assert (E : 1 + 400 * a / 146097 = y - 1 \/ 1 + 400 * a / 146097 = y
              \/ 1 + 400 * a / 146097 = y + 1) by lia.
  destruct (is_leap_year (y - 1)), (is_leap_year y), (is_leap_year (y + 1));
  destruct E as [E | [E | E]]; rewrite E;
  replace (y - 1 + 1) with y by lia;
  repeat match goal with
    | |- context [?u <? ?v] => destruct (Z.ltb_spec u v)
    | |- context [?u <=? ?v] => destruct (Z.leb_spec u v)
    end; lia.
Qed.


Lemma days_in_month_table y :
  days_in_month 1 y = 31 /\ days_in_month 2 y = 28 + leap_day y /\
  days_in_month 3 y = 31 /\ days_in_month 4 y = 30 /\
  days_in_month 5 y = 31 /\ days_in_month 6 y = 30 /\
  days_in_month 7 y = 31 /\ days_in_month 8 y = 31 /\
  days_in_month 9 y = 30 /\ days_in_month 10 y = 31 /\
  days_in_month 11 y = 30 /\ days_in_month 12 y = 31.
Proof.
  unfold days_in_month, leap_day.
  destruct (is_leap_year y); repeat split; reflexivity.
Qed.

Lemma days_before_month_succ m y :
  1 <= m ->
  days_before_month (m + 1) y = days_before_month m y + days_in_month m y.
Proof.
  intros Hm. unfold days_before_month.
  replace (Z.to_nat (m + 1 - 1)) with (S (Z.to_nat (m - 1))) by lia.
  cbn [days_before_month_aux].
  replace (Z.of_nat (S (Z.to_nat (m - 1)))) with m by lia.
  reflexivity.
Qed.

Lemma days_before_month_table y :
  days_before_month 1 y = 0 /\ days_before_month 2 y = 31 /\
  days_before_month 3 y = 59 + leap_day y /\
  days_before_month 4 y = 90 + leap_day y /\
  days_before_month 5 y = 120 + leap_day y /\
  days_before_month 6 y = 151 + leap_day y /\
  days_before_month 7 y = 181 + leap_day y /\
  days_before_month 8 y = 212 + leap_day y /\
  days_before_month 9 y = 243 + leap_day y /\
  days_before_month 10 y = 273 + leap_day y /\
  days_before_month 11 y = 304 + leap_day y /\
  days_before_month 12 y = 334 + leap_day y /\
  days_before_month 13 y = 365 + leap_day y.
Proof.
  pose proof (days_in_month_table y) as T.
  assert (H1 : days_before_month 1 y = 0) by reflexivity.
  assert (N : forall m m', 1 <= m -> m' = m + 1 ->
    days_before_month m' y = days_before_month m y + days_in_month m y).
  { intros m m' Hm ->. apply days_before_month_succ, Hm. }
  pose proof (N 1 2 ltac:(lia) eq_refl).
  pose proof (N 2 3 ltac:(lia) eq_refl).
  pose proof (N 3 4 ltac:(lia) eq_refl).
  pose proof (N 4 5 ltac:(lia) eq_refl).
  pose proof (N 5 6 ltac:(lia) eq_refl).
  pose proof (N 6 7 ltac:(lia) eq_refl).
  pose proof (N 7 8 ltac:(lia) eq_refl).
  pose proof (N 8 9 ltac:(lia) eq_refl).
  pose proof (N 9 10 ltac:(lia) eq_refl).
  pose proof (N 10 11 ltac:(lia) eq_refl).
  pose proof (N 11 12 ltac:(lia) eq_refl).
  pose proof (N 12 13 ltac:(lia) eq_refl).
  clear N. lia.
Qed.

Lemma leap_day_cases y :
  (is_leap_year y = true /\ leap_day y = 1) \/
  (is_leap_year y = false /\ leap_day y = 0).
Proof. unfold leap_day. destruct (is_leap_year y); auto. Qed.

Lemma month_cases m : 1 <= m <= 12 ->
  m = 1 \/ m = 2 \/ m = 3 \/ m = 4 \/ m = 5 \/ m = 6 \/
  m = 7 \/ m = 8 \/ m = 9 \/ m = 10 \/ m = 11 \/ m = 12.
Proof. lia. Qed.

Ltac month_split H :=
  apply month_cases in H;
  repeat (destruct H as [H | H]); subst.

Ltac calendar_tables y :=
  pose proof (days_in_month_table y);
  pose proof (days_before_month_table y);
  destruct (leap_day_cases y) as [[? ?] | [? ?]].

Lemma month_bounds m d y :
  1 <= m <= 12 -> 1 <= d <= days_in_month m y ->
  0 <= days_before_month m y + (d - 1) <
    days_before_year (y + 1) - days_before_year y.
Proof.
  intros Hm Hd. rewrite year_length. calendar_tables y.
  all: match goal with E : is_leap_year _ = _ |- _ => rewrite E end.
  all: month_split Hm; lia.
Qed.

Lemma month_of_yday_step f m doy y :
  month_of_yday (S f) m doy y =
  if doy <? days_in_month m y then (m, doy + 1)
  else month_of_yday f (m + 1) (doy - days_in_month m y) y.
Proof. reflexivity. Qed.

Lemma month_of_yday_correct m d y :
  1 <= m <= 12 -> 1 <= d <= days_in_month m y ->
  month_of_yday 11 1 (days_before_month m y + (d - 1)) y = (m, d).
Proof.
  intros Hm Hd.
  assert (G : forall (k : nat) m0,
    1 <= m0 <= m -> (m - m0 <= Z.of_nat k) ->
    month_of_yday k m0
      (days_before_month m y - days_before_month m0 y + (d - 1)) y = (m, d)).
  { induction k as [| k IH]; intros m0 H0 Hk.
    - assert (m0 = m) by lia. subst m0. simpl. f_equal. lia.
    - rewrite month_of_yday_step.
      destruct (Z.eq_dec m0 m) as [-> | Hne].
      + replace (days_before_month m y - days_before_month m y + (d - 1))
          with (d - 1) by lia.
        destruct (Z.ltb_spec (d - 1) (days_in_month m y)); [f_equal; lia | lia].
      + assert (Hlt : days_before_month (m0 + 1) y <= days_before_month m y).
        { clear IH Hk. remember (m0 + 1) as m1 eqn:E1.
          assert (H1 : 1 <= m1 <= 12) by lia.
          assert (H2 : m1 <= m) by lia. clear E1 H0 Hne Hd.
          calendar_tables y; month_split H1; month_split Hm; lia. }
        rewrite days_before_month_succ in Hlt by lia.
        destruct (Z.ltb_spec
          (days_before_month m y - days_before_month m0 y + (d - 1))
          (days_in_month m0 y)); [lia |].
        rewrite <- (IH (m0 + 1)) by lia.
        f_equal. rewrite days_before_month_succ by lia. lia. }
  specialize (G 11%nat 1 ltac:(lia) ltac:(lia)).
  replace (days_before_month 1 y) with 0 in G by reflexivity.
  rewrite <- G. f_equal. lia.
Qed.

Lemma of_seconds_to_seconds t w :
  valid_datetime t ->
  of_seconds (to_seconds t) w =
  mk_datetime (year t) (month t) (day t) w (hour t) (min t) (sec t).
Proof.
  intros (Hs & Hmi & Hh & Hmo & Hd & _).
  destruct t as [y m d w0 h mi s]; cbn [year month day dotw hour min sec] in *.
  unfold of_seconds, to_seconds, to_days.
  cbn [year month day dotw hour min sec].
  pose proof (month_bounds m d y Hmo Hd) as Hb.
  set (dn := days_before_year y - epoch_days + days_before_month m y + (d - 1)).
  assert (Hq : (dn * 86400 + h * 3600 + mi * 60 + s) / 86400 = dn).
  { Z.to_euclidean_division_equations. lia. }
  assert (Hr : (dn * 86400 + h * 3600 + mi * 60 + s) mod 86400
               = h * 3600 + mi * 60 + s).
  { Z.to_euclidean_division_equations. lia. }
  rewrite Hq, Hr.
  assert (Hy : year_of_days dn = y).
  { apply year_of_days_correct. unfold dn. lia. }
  rewrite Hy.
  replace (dn + epoch_days - days_before_year y)
    with (days_before_month m y + (d - 1)) by (unfold dn; lia).
  rewrite month_of_yday_correct by assumption.
  cbn [fst snd]. f_equal; Z.to_euclidean_division_equations; lia.
Qed.

Lemma tick_time_seconds t :
  valid_datetime t -> - 2^31 <= year t < 2^31 - 1 ->
  valid_datetime (tick_time t) /\
  to_seconds (tick_time t) = to_seconds t + 1 /\
  dotw (tick_time t) = next_dotw t.
Proof.
  intros (Hs & Hmi & Hh & Hmo & Hd & Hw) Hy.
  unfold next_dotw.
  destruct t as [y m d w h mi s]; cbn [year month day dotw hour min sec] in *.
  pose proof (month_bounds m d y Hmo Hd) as Hb.
  unfold tick_time, valid_datetime, to_seconds, to_days.
  cbn [year month day dotw hour min sec].
  set (dn := days_before_year y - epoch_days + days_before_month m y + (d - 1)).
  assert (D28 : 28 <= days_in_month m y <= 31).
  { clear Hd Hb dn. calendar_tables y; month_split Hmo; lia. }
  rewrite !wrap32_small by lia.
  assert (Hrem : Z.rem (w + 1) 7 = (w + 1) mod 7).
  { apply Z.rem_mod_nonneg; lia. }
  assert (Hwr : 0 <= (w + 1) mod 7 < 7) by (apply Z.mod_pos_bound; lia).
  destruct (Z.ltb_spec (s + 1) 60).
  { cbn [year month day dotw hour min sec]. fold dn.
    repeat split; try lia.
    destruct (Z.ltb_spec ((dn * 86400 + h * 3600 + mi * 60 + s) / 86400)
                         ((dn * 86400 + h * 3600 + mi * 60 + s + 1) / 86400));
      [ Z.to_euclidean_division_equations; lia | reflexivity ]. }
  destruct (Z.ltb_spec (mi + 1) 60).
  { cbn [year month day dotw hour min sec]. fold dn.
    repeat split; try lia.
    destruct (Z.ltb_spec ((dn * 86400 + h * 3600 + mi * 60 + s) / 86400)
                         ((dn * 86400 + h * 3600 + mi * 60 + s + 1) / 86400));
      [ Z.to_euclidean_division_equations; lia | reflexivity ]. }
  destruct (Z.ltb_spec (h + 1) 24).
  { cbn [year month day dotw hour min sec]. fold dn.
    repeat split; try lia.
    destruct (Z.ltb_spec ((dn * 86400 + h * 3600 + mi * 60 + s) / 86400)
                         ((dn * 86400 + h * 3600 + mi * 60 + s + 1) / 86400));
      [ Z.to_euclidean_division_equations; lia | reflexivity ]. }
  assert (Hroll :
    ((dn * 86400 + h * 3600 + mi * 60 + s) / 86400 <?
     (dn * 86400 + h * 3600 + mi * 60 + s + 1) / 86400) = true).
  { apply Z.ltb_lt. Z.to_euclidean_division_equations. lia. }
  rewrite Hroll, Hrem.
  destruct (Z.gtb_spec (d + 1) (days_in_month m y)).
  - assert (d = days_in_month m y) by lia.
    destruct (Z.gtb_spec (m + 1) 12).
    + assert (m = 12) by lia. subst m.
      cbn [year month day dotw hour min sec].
      pose proof (days_before_month_table y) as T.
      pose proof (days_before_month_table (y + 1)) as T1.
      pose proof (days_in_month_table (y + 1)) as T2.
      pose proof (days_in_month_table y) as T3.
      pose proof (year_length y) as L. unfold leap_day in *.
      repeat split; try lia.
      unfold dn. destruct (is_leap_year y); lia.
    + cbn [year month day dotw hour min sec].
      pose proof (days_before_month_succ m y ltac:(lia)) as S1.
      assert (28 <= days_in_month (m + 1) y).
      { assert (Hmo' : 1 <= m + 1 <= 12) by lia.
        revert Hmo'. generalize (m + 1). clear. intros m1 Hmo'.
        calendar_tables y; month_split Hmo'; lia. }
      repeat split; try lia.
  - cbn [year month day dotw hour min sec].
    repeat split; try lia.
Qed.

(** C1: for every datetime whose fields are in range, one call of
    [tick_time] advances the calendar by exactly one second: the result is
    the datetime obtained by converting to the linear second count, adding
    one and converting back, the day of the week moving on modulo 7 exactly
    when the day rolls over; February has 29 days exactly in the years
    divisible by 4 and not by 100, or divisible by 400. The year is an
    [int] below [INT_MAX], so that [year++] does not overflow. *)
Theorem tick_time_advances_one_second (t : datetime_t) :
  valid_datetime t -> - 2^31 <= year t < 2^31 - 1 ->
  tick_time t = of_seconds (to_seconds t + 1) (next_dotw t) /\
  valid_datetime (tick_time t) /\
  to_seconds (tick_time t) = to_seconds t + 1 /\
  (forall y, days_in_month 2 y = 29 <->
             (y mod 4 = 0 /\ y mod 100 <> 0) \/ y mod 400 = 0) /\
  (forall y, days_in_month 2 y = 29 \/ days_in_month 2 y = 28).
Proof.
  intros Hv Hy.
  destruct (tick_time_seconds t Hv Hy) as (Hv' & Hs & Hw).
  split; [| split; [exact Hv' | split; [exact Hs |]]].
  - rewrite <- Hs, <- Hw, of_seconds_to_seconds by exact Hv'.
    destruct (tick_time t); reflexivity.
  - split; intros y.
    + rewrite <- is_leap_year_iff. unfold days_in_month. simpl.
      destruct (is_leap_year y); split; intros; congruence.
    + unfold days_in_month. simpl. destruct (is_leap_year y); auto.
Qed.

Lemma tick_time_advances_one_second_witness :
  let t := mk_datetime 2024 2 28 3 23 59 59 in
  valid_datetime t /\ - 2^31 <= year t < 2^31 - 1 /\
  tick_time t = of_seconds (to_seconds t + 1) (next_dotw t) /\
  tick_time t = mk_datetime 2024 2 29 4 0 0 0.
Proof.
  intros t.
  assert (Hv : valid_datetime t)
    by (repeat split; vm_compute; first [reflexivity | discriminate]).
  assert (Hy : - 2^31 <= year t < 2^31 - 1)
    by (split; vm_compute; first [reflexivity | discriminate]).
  split; [exact Hv | split; [exact Hy | split]].
  - exact (proj1 (tick_time_advances_one_second t Hv Hy)).
  - reflexivity.
Defined.
End Calendar.

(** ** NTP response handling (C2) *)

Section Ntp.
Import CInt Lwip LibC.

Lemma byte_at_range buf i : 0 <= byte_at buf i < 256.
Proof.
  unfold byte_at. destruct (buf !! i) as [b |]; [| lia].
  pose proof (Byte.to_N_bounded b). lia.
Qed.

Lemma ntohl_load32_le buf off :
  ntohl (load32_le buf off) = be32 buf off.
Proof.
  unfold ntohl, load32_le, be32.
  pose proof (byte_at_range buf off).
  pose proof (byte_at_range buf (off + 1)).
  pose proof (byte_at_range buf (off + 2)).
  pose proof (byte_at_range buf (off + 3)).
  change (2 ^ 8) with 256. change (2 ^ 16) with 65536.
  change (2 ^ 24) with 16777216.
  Z.to_euclidean_division_equations. lia.
Qed.

Lemma lor_shiftl_low hi lo n :
  0 <= n -> 0 <= lo < 2 ^ n -> Z.lor (Z.shiftl hi n) lo = hi * 2 ^ n + lo.
Proof.
  intros Hn Hlo.
  assert (Hd : Z.land (Z.shiftl hi n) lo = 0).
  { apply Z.bits_inj'. intros m Hm.
    rewrite Z.land_spec, Z.bits_0.
    destruct (Z.lt_ge_cases m n) as [Hlt | Hge].
    - rewrite Z.shiftl_spec_low by exact Hlt. reflexivity.
    - rewrite <- (Z.mod_small lo (2 ^ n)) by exact Hlo.
      rewrite Z.mod_pow2_bits_high by lia. apply andb_false_r. }
  pose proof (Z.add_lor_land (Z.shiftl hi n) lo) as Hadd.
  rewrite Hd, Z.add_0_r, Z.shiftl_mul_pow2 in Hadd by exact Hn.
  rewrite Z.shiftl_mul_pow2 by exact Hn. exact Hadd.
Qed.

Lemma shift_or_be32 buf :
  Z.lor (Z.lor (Z.lor (Z.shiftl (byte_at buf 40) 24)
                      (Z.shiftl (byte_at buf 41) 16))
               (Z.shiftl (byte_at buf 42) 8))
        (byte_at buf 43) = be32 buf 40.
Proof.
  unfold be32.
  change (40 + 1)%nat with 41%nat. change (40 + 2)%nat with 42%nat.
  change (40 + 3)%nat with 43%nat.
  pose proof (byte_at_range buf 40) as H0.
  pose proof (byte_at_range buf 41) as H1.
  pose proof (byte_at_range buf 42) as H2.
  pose proof (byte_at_range buf 43) as H3.
  set (a := byte_at buf 40) in *. set (b := byte_at buf 41) in *.
  set (c := byte_at buf 42) in *. set (d := byte_at buf 43) in *.
  rewrite (Z.shiftl_mul_pow2 b 16), (Z.shiftl_mul_pow2 c 8) by lia.
  rewrite (lor_shiftl_low a (b * 2 ^ 16) 24) by lia.
  replace (a * 2 ^ 24 + b * 2 ^ 16) with (Z.shiftl (a * 2 ^ 8 + b) 16)
    by (rewrite Z.shiftl_mul_pow2; lia).
  rewrite (lor_shiftl_low _ (c * 2 ^ 8) 16) by lia.
  replace ((a * 2 ^ 8 + b) * 2 ^ 16 + c * 2 ^ 8)
    with (Z.shiftl (a * 2 ^ 16 + b * 2 ^ 8 + c) 8)
    by (rewrite Z.shiftl_mul_pow2; lia).
  rewrite (lor_shiftl_low _ d 8) by lia.
  rewrite ?Z.shiftl_mul_pow2 by lia. lia.
Qed.

Lemma be32_range buf off : 0 <= be32 buf off < 2 ^ 32.
Proof.
  unfold be32.
  pose proof (byte_at_range buf off).
  pose proof (byte_at_range buf (off + 1)).
  pose proof (byte_at_range buf (off + 2)).
  pose proof (byte_at_range buf (off + 3)). lia.
Qed.

Lemma u32_wrap32_add a x : u32 (a + wrap32 x) = (a + x) mod 2 ^ 32.
Proof.
  unfold u32, wrap32.
  change (2 ^ 31) with 2147483648. change (2 ^ 32) with 4294967296.
  Z.to_euclidean_division_equations. lia.
Qed.

(** C2 (amended): the ASCII clock accepts a datagram of exactly 48 bytes,
    the two shell OS variants one of at least 48 bytes. A rejected datagram
    is freed and changes nothing else. From an accepted one the handler
    takes the big-endian number in bytes 40-43, subtracts 2208988800 and
    adds the time-zone offset (0 seconds in the clock; [timezone_offset]
    hours in the shell OS, where the arithmetic is that of a 32-bit
    unsigned), makes the result the current time, sets the synced flag and
    frees the buffer. *)
Theorem ntp_response_handling :
  (forall (E : AsciiClock.env) (p : pbuf) (w : AsciiClock.world),
     (tot_len p <> 48 ->
      AsciiClock.ntp_recv E p w = AsciiClock.emit (AsciiClock.EvPbufFree p) w) /\
     (tot_len p = 48 ->
      AsciiClock.ntp_recv E p w =
      AsciiClock.mk_world
        (AsciiClock.timestamp_to_datetime (AsciiClock.gmtime E)
           (be32 (payload p) 40 - 2208988800 + 0))
        true (AsciiClock.ntp_pcb w)
        (AsciiClock.trace w ++ [AsciiClock.EvPbufFree p])
        (AsciiClock.sleeps w))) /\
  (forall (E : ShellOS.env) (p : pbuf) (st : ShellOS.state),
     (tot_len p < 48 ->
      ShellOS.ntp_recv_callback E p st = ShellOS.pbuf_free p st) /\
     (48 <= tot_len p ->
      let st' := ShellOS.ntp_recv_callback E p st in
      ShellOS.system_time_offset st' =
        (be32 (payload p) 40 - 2208988800
         + ShellOS.timezone_offset st * 3600) mod 2 ^ 32 /\
      ShellOS.time_sync_base st' = ShellOS.clock_us E (ShellOS.clock_reads st) /\
      ShellOS.ntp_synced st' = true /\
      last (ShellOS.events st') = Some (ShellOS.EvPbufFree p))).
Proof.
  split.
  - intros E p w. unfold AsciiClock.ntp_recv.
    change AsciiClock.sizeof_ntp_packet_t with 48.
    change AsciiClock.offsetof_tx_ts with 40%nat.
    split; intros H.
    + destruct (Z.eqb_spec (tot_len p) 48) as [e | _]; [contradiction | reflexivity].
    + rewrite H, Z.eqb_refl, ntohl_load32_le.
      pose proof (be32_range (payload p) 40) as R.
      unfold AsciiClock.NTP_DELTA, AsciiClock.UK_TIMEZONE_OFFSET, wrap64.
      rewrite Z.mod_small by lia.
      unfold AsciiClock.emit. cbn.
      do 2 f_equal. lia.
  - intros E p st. split; intros H.
    + unfold ShellOS.ntp_recv_callback.
      destruct (Z.geb_spec (tot_len p) 48); [lia | reflexivity].
    + intros st'.
      set (t := (be32 (payload p) 40 - 2208988800
                 + ShellOS.timezone_offset st * 3600) mod 2 ^ 32).
      set (st1 := ShellOS.set_current_time E t st).
      assert (Hst : st' =
        ShellOS.pbuf_free p
          (ShellOS.print (ShellOS.ANSI_GREEN ++ "Time synchronized successfully!"
                          ++ Fmt.nl ++ ShellOS.ANSI_RESET)%string
             (ShellOS.log_message E "NTP time synchronized" st1))).
      { subst st' st1 t. unfold ShellOS.ntp_recv_callback.
        destruct (Z.geb_spec (tot_len p) 48); [| lia].
        rewrite shift_or_be32.
        pose proof (be32_range (payload p) 40) as R.
        unfold u32 at 2. rewrite (Z.mod_small (be32 _ _)) by exact R.
        rewrite u32_wrap32_add. reflexivity. }
      rewrite Hst.
      destruct (log_message_frame E "NTP time synchronized" st1)
        as (F1 & F2 & F3 & _ & _ & F6).
      cbn [ShellOS.pbuf_free ShellOS.print ShellOS.system_time_offset
           ShellOS.time_sync_base ShellOS.ntp_synced ShellOS.events].
      rewrite F1, F2, F3.
      repeat split; try reflexivity.
      apply last_snoc.
Qed.

Lemma ntp_response_handling_witness :
  ShellOS.system_time_offset
    (ShellOS.ntp_recv_callback Scenario.shell_env (Scenario.ntp_answer 48)
       ShellOS.initial) = 1769942880 /\
  AsciiClock.time_synced
    (AsciiClock.ntp_recv (Scenario.clock_env (fun _ => []))
       (Scenario.ntp_answer 48) AsciiClock.initial) = true.
Proof.
  split.
  - destruct ntp_response_handling as [_ H].
    destruct (H Scenario.shell_env (Scenario.ntp_answer 48) ShellOS.initial)
      as [_ H48].
    destruct H48 as [Hoff _]; [vm_compute; discriminate |].
    rewrite Hoff. reflexivity.
  - destruct ntp_response_handling as [H _].
    destruct (H (Scenario.clock_env (fun _ => [])) (Scenario.ntp_answer 48)
                AsciiClock.initial) as [_ H48].
    rewrite H48 by reflexivity. reflexivity.
Defined.

(** C2 as stated fails on the shell OS: a datagram of 49 bytes is not 48
    bytes long, yet the handler takes its timestamp and sets the synced
    flag. *)
Lemma ntp_recv_callback_accepts_49_bytes :
  let p := Scenario.ntp_answer 49 in
  let st' := ShellOS.ntp_recv_callback Scenario.shell_env p ShellOS.initial in
  tot_len p <> 48 /\
  ShellOS.ntp_synced ShellOS.initial = false /\
  ShellOS.ntp_synced st' = true /\
  ShellOS.system_time_offset ShellOS.initial = 0 /\
  ShellOS.system_time_offset st' = 1769942880.
Proof. vm_compute. repeat split; try reflexivity. discriminate. Qed.
End Ntp.

(** ** The to-do list (C3) *)

Section TodoFacts.
Import Todo.

Lemma skip_spaces_word ws c r :
  Forall (fun a => isspace a = true) ws -> isspace c = false ->
  skip_spaces (ws ++ c :: r) = c :: r.
Proof.
  intros Hws Hc. induction Hws as [| a ws Ha _ IH]; simpl.
  - rewrite Hc. reflexivity.
  - rewrite Ha. exact IH.
Qed.

Lemma scan_word_spec word : forall n r,
  Forall (fun a => isspace a = false) word ->
  (length word <= n)%nat ->
  (length word = n \/ exists y r', r = y :: r' /\ isspace y = true) ->
  scan_word n (word ++ r) = Some (word, r).
Proof.
  induction word as [| a word IH]; intros n r Hw Hn Hend; simpl in *.
  - destruct Hend as [<- | (y & r' & -> & Hy)]; [reflexivity |].
    destruct n; simpl; [reflexivity | rewrite Hy; reflexivity].
  - destruct n as [| n]; [lia |]. simpl.
    inversion Hw as [| ? ? Ha Hw']; subst.
    rewrite Ha, (IH n r Hw'); [reflexivity | lia |].
    destruct Hend as [E | E]; [left; lia | right; exact E].
Qed.

Lemma scan_word_length n : forall inp word rest,
  scan_word n inp = Some (word, rest) -> (length word <= n)%nat.
Proof.
  induction n as [| n IH]; intros inp word rest H; simpl in H.
  - inversion H; subst. simpl. lia.
  - destruct inp as [| c r]; [discriminate |].
    destruct (isspace c); [inversion H; subst; simpl; lia |].
    destruct (scan_word n r) as [[w' r'] |] eqn:E; [| discriminate].
    inversion H; subst. simpl. apply IH in E. lia.
Qed.

Lemma c_str_terminated word tail :
  (String.length (Fmt.c_str (word ++ NUL :: tail)) <= length word)%nat.
Proof.
  induction word as [| a word IH]; simpl; [lia |].
  destruct (Ascii.eqb a "000"); simpl; lia.
Qed.

Lemma stored_slot_ok word slot :
  (length word <= 14)%nat -> length slot = SLOT ->
  slot_ok (word ++ NUL :: drop (S (length word)) slot).
Proof.
  intros Hw Hs. split.
  - rewrite length_app. cbn [length]. rewrite length_drop, Hs.
    unfold SLOT. lia.
  - pose proof (c_str_terminated word (drop (S (length word)) slot)). lia.
Qed.

Lemma scanf_14s_slot_ok slot inp slot' rest :
  length slot = SLOT -> scanf_14s slot inp = Some (slot', rest) ->
  slot_ok slot'.
Proof.
  intros Hs H. unfold scanf_14s in H.
  destruct (skip_spaces inp) as [| c r]; [discriminate |].
  destruct (scan_word 14 (c :: r)) as [[word rest0] |] eqn:E; [| discriminate].
  inversion H; subst.
  apply stored_slot_ok; [eapply scan_word_length; exact E | exact Hs].
Qed.

Lemma todo_invariant_initial : todo_invariant initial.
Proof.
  unfold todo_invariant, slot_ok. cbn [cnt t1 t2 initial].
  repeat split; try lia; try reflexivity.
  all: change (Fmt.c_str (repeat NUL SLOT)) with ""%string; simpl; lia.
Qed.

Lemma wrap32_decr n : 1 <= n <= 2 -> CInt.wrap32 (n - 1) = n - 1.
Proof.
  intros H. unfold CInt.wrap32. rewrite Z.mod_small; lia.
Qed.

Lemma todo_invariant_step st inp st' inp' out :
  todo_invariant st -> menu_iteration st inp = Some (st', inp', out) ->
  todo_invariant st'.
Proof.
  intros (Hc & H1 & H2) H. unfold menu_iteration in H.
  destruct inp as [| c [| x r]]; try discriminate.
  destruct (Ascii.eqb c "1").
  { inversion H; subst. unfold todo_invariant; cbn [cnt t1 t2]; tauto. }
  destruct (Ascii.eqb c "2").
  { unfold add_task in H.
    destruct (Z.eqb_spec (cnt st) 0).
    - destruct (scanf_14s (t1 st) r) as [[slot r1] |] eqn:E; [| discriminate].
      destruct (getchar r1) as [[? r2] |]; [| discriminate].
      inversion H; subst. unfold todo_invariant. cbn.
      split; [lia | split; [| exact H2]].
      eapply scanf_14s_slot_ok; [apply H1 | exact E].
    - destruct (Z.eqb_spec (cnt st) 1).
      + destruct (scanf_14s (t2 st) r) as [[slot r1] |] eqn:E; [| discriminate].
        destruct (getchar r1) as [[? r2] |]; [| discriminate].
        inversion H; subst. unfold todo_invariant. cbn.
        split; [lia | split; [exact H1 |]].
        eapply scanf_14s_slot_ok; [apply H2 | exact E].
      + inversion H; subst. unfold todo_invariant; cbn [cnt t1 t2]; tauto. }
  destruct (Ascii.eqb c "3").
  { unfold mark_done in H. destruct r as [| n [| y r']]; try discriminate.
    destruct (Ascii.eqb n "1" && (cnt st >=? 1));
      [inversion H; subst; unfold todo_invariant; cbn [cnt t1 t2]; tauto |].
    destruct (Ascii.eqb n "2" && (cnt st >=? 2));
      inversion H; subst; unfold todo_invariant; cbn [cnt t1 t2]; tauto. }
  destruct (Ascii.eqb c "4").
  { unfold delete_task in H. destruct r as [| n [| y r']]; try discriminate.
    destruct (Ascii.eqb n "1" && (cnt st >=? 1)) eqn:E1.
    - apply andb_true_iff in E1. destruct E1 as [_ E1].
      apply Z.geb_le in E1.
      destruct (Z.eqb_spec (cnt st) 2) as [e | ne];
        inversion H; subst; unfold todo_invariant; cbn;
        rewrite wrap32_decr by lia.
      + split; [lia | split; [| exact H2]].
        destruct H1 as [L1 _], H2 as [L2 T2].
        rewrite take_ge, drop_ge by (rewrite ?L1, ?L2; reflexivity).
        rewrite app_nil_r. split; assumption.
      + split; [lia | tauto].
    - destruct (Ascii.eqb n "2" && (cnt st =? 2)) eqn:E2.
      + apply andb_true_iff in E2. destruct E2 as [_ E2].
        apply Z.eqb_eq in E2.
        inversion H; subst; unfold todo_invariant; cbn.
        rewrite wrap32_decr by lia. split; [lia | tauto].
      + inversion H; subst. unfold todo_invariant; cbn [cnt t1 t2]; tauto. }
  inversion H; subst. unfold todo_invariant; cbn [cnt t1 t2]; tauto.
Qed.

Lemma reachable_invariant st : reachable st -> todo_invariant st.
Proof.
  induction 1 as [| st inp st' inp' out _ IH Hstep].
  - exact todo_invariant_initial.
  - exact (todo_invariant_step _ _ _ _ _ IH Hstep).
Qed.

Lemma menu_nothing : (menu ++ "")%string = menu.
Proof. reflexivity. Qed.

(** C3: the program holds at most two tasks, each in a 15-byte slot with
    a text of at most 14 characters; the menu has the four branches 1 to 4
    (list, add, mark done, delete) and any other choice does nothing; Add
    with two tasks stored prints FULL and changes nothing; Add with none or
    one stored puts the word typed (white space skipped, at most 14
    characters taken, NUL behind them) into the next free slot, clears its
    done flag and makes the count one more.  Done with the number of a
    stored task sets the done flag of that task and nothing else.  Delete
    of task 1 with two tasks stored copies slot 2 and its done flag to
    slot 1 and makes the count 1; Delete of the only task, or of task 2,
    makes the count one less and leaves slots and flags.  Done and Delete
    with a number that names no stored task change nothing and print no
    OK. *)
Theorem todo_add_task (st : state) (x : ascii) (rest : list ascii) :
  (reachable st -> 0 <= cnt st <= 2 /\ slot_ok (t1 st) /\ slot_ok (t2 st)) /\
  menu_iteration st ("1"%char :: x :: rest) =
    Some (st, rest, (menu ++ list_tasks st)%string) /\
  (forall c : ascii,
     c <> "1"%char -> c <> "2"%char -> c <> "3"%char -> c <> "4"%char ->
     menu_iteration st (c :: x :: rest) = Some (st, rest, menu)) /\
  (cnt st = 2 ->
   menu_iteration st ("2"%char :: x :: rest) =
   Some (st, rest, (menu ++ "FULL" ++ Fmt.nl)%string)) /\
  (forall ws word y rest',
     rest = ws ++ word ++ y :: rest' ->
     Forall (fun a => isspace a = true) ws ->
     Forall (fun a => isspace a = false) word ->
     (1 <= length word <= 14)%nat ->
     length word = 14%nat \/ isspace y = true ->
     let store old := word ++ NUL :: drop (S (length word)) old in
     (cnt st = 0 ->
      menu_iteration st ("2"%char :: x :: rest) =
      Some (mk_state (store (t1 st)) (t2 st) false (d2 st) 1, rest',
            (menu ++ "Task: " ++ "OK" ++ Fmt.nl)%string)) /\
     (cnt st = 1 ->
      menu_iteration st ("2"%char :: x :: rest) =
      Some (mk_state (t1 st) (store (t2 st)) (d1 st) false 2, rest',
            (menu ++ "Task: " ++ "OK" ++ Fmt.nl)%string)) /\
     (forall old, length old = SLOT ->
        slot_ok (store old) /\ take (S (length word)) (store old) = word ++ [NUL])) /\
  (forall n y rest',
     rest = n :: y :: rest' ->
     let ok := (menu ++ "Which? " ++ "OK" ++ Fmt.nl)%string in
     let no := (menu ++ "Which? ")%string in
     (n = "1"%char -> 1 <= cnt st ->
      menu_iteration st ("3"%char :: x :: rest) =
      Some (mk_state (t1 st) (t2 st) true (d2 st) (cnt st), rest', ok)) /\
     (n = "2"%char -> 2 <= cnt st ->
      menu_iteration st ("3"%char :: x :: rest) =
      Some (mk_state (t1 st) (t2 st) (d1 st) true (cnt st), rest', ok)) /\
     ((n = "1"%char -> cnt st < 1) -> (n = "2"%char -> cnt st < 2) ->
      menu_iteration st ("3"%char :: x :: rest) = Some (st, rest', no)) /\
     (n = "1"%char -> cnt st = 2 ->
      length (t1 st) = SLOT -> length (t2 st) = SLOT ->
      menu_iteration st ("4"%char :: x :: rest) =
      Some (mk_state (t2 st) (t2 st) (d2 st) (d2 st) 1, rest', ok)) /\
     (n = "1"%char -> cnt st = 1 ->
      menu_iteration st ("4"%char :: x :: rest) =
      Some (mk_state (t1 st) (t2 st) (d1 st) (d2 st) 0, rest', ok)) /\
     (n = "2"%char -> cnt st = 2 ->
      menu_iteration st ("4"%char :: x :: rest) =
      Some (mk_state (t1 st) (t2 st) (d1 st) (d2 st) 1, rest', ok)) /\
     ((n = "1"%char -> cnt st < 1) -> (n = "2"%char -> cnt st <> 2) ->
      menu_iteration st ("4"%char :: x :: rest) = Some (st, rest', no))).
Proof.
  split; [exact (reachable_invariant st) |].
  split; [reflexivity |].
  split; [| split; [| split]].
  - intros c n1 n2 n3 n4. unfold menu_iteration.
    apply Ascii.eqb_neq in n1, n2, n3, n4.
    rewrite n1, n2, n3, n4, menu_nothing. reflexivity.
  - intros Hfull. unfold menu_iteration, add_task. cbn.
    rewrite Hfull. reflexivity.
  - intros ws word y rest' -> Hws Hword Hlen Hend store.
    assert (Hscan : forall old,
      scanf_14s old (ws ++ word ++ y :: rest') = Some (store old, y :: rest')).
    { intros old. unfold scanf_14s.
      destruct word as [| a word]; [simpl in Hlen; lia |].
      inversion Hword as [| ? ? Ha Hword']; subst.
      cbn [app]. rewrite (skip_spaces_word ws a _ Hws Ha).
      change (a :: word ++ y :: rest') with ((a :: word) ++ y :: rest').
      rewrite scan_word_spec; [reflexivity | exact Hword | lia |].
      destruct Hend as [E | E]; [left; exact E | right; eauto]. }
    split; [| split].
    + intros H0. unfold menu_iteration, add_task. cbn.
      rewrite H0. cbn. rewrite Hscan. reflexivity.
    + intros H0. unfold menu_iteration, add_task. cbn.
      rewrite H0. cbn. rewrite Hscan. reflexivity.
    + intros old Hold. split; [apply stored_slot_ok; [lia | exact Hold] |].
      unfold store.
      change (word ++ NUL :: drop (S (length word)) old)
        with (word ++ [NUL] ++ drop (S (length word)) old).
      rewrite app_assoc, take_app_length'; [reflexivity |].
      rewrite length_app. cbn [length]. lia.
  - intros n y rest' -> ok no.
    assert (H3 : menu_iteration st ("3"%char :: x :: n :: y :: rest') =
                 match mark_done st (n :: y :: rest') with
                 | Some (st', r', out) => Some (st', r', (menu ++ out)%string)
                 | None => None
                 end) by reflexivity.
    assert (H4 : menu_iteration st ("4"%char :: x :: n :: y :: rest') =
                 match delete_task st (n :: y :: rest') with
                 | Some (st', r', out) => Some (st', r', (menu ++ out)%string)
                 | None => None
                 end) by reflexivity.
    rewrite H3, H4. clear H3 H4. unfold mark_done, delete_task.
    split; [| split; [| split; [| split; [| split; [| split]]]]].
    + intros -> Hc. change (Ascii.eqb "1" "1") with true.
      rewrite (proj2 (Z.geb_le _ _) Hc). reflexivity.
    + intros -> Hc. change (Ascii.eqb "2" "1") with false.
      change (Ascii.eqb "2" "2") with true.
      rewrite (proj2 (Z.geb_le _ _) Hc). reflexivity.
    + intros N1 N2.
      assert (E1 : Ascii.eqb n "1" && (cnt st >=? 1) = false).
      { destruct (Ascii.eqb_spec n "1") as [e | _]; [| reflexivity].
        specialize (N1 e). cbn [andb].
        destruct (Z.geb_spec (cnt st) 1); [lia | reflexivity]. }
      assert (E2 : Ascii.eqb n "2" && (cnt st >=? 2) = false).
      { destruct (Ascii.eqb_spec n "2") as [e | _]; [| reflexivity].
        specialize (N2 e). cbn [andb].
        destruct (Z.geb_spec (cnt st) 2); [lia | reflexivity]. }
      rewrite E1, E2. reflexivity.
    + intros -> Hc L1 L2. change (Ascii.eqb "1" "1") with true.
      rewrite Hc. cbn [Z.geb Z.compare andb Z.eqb Pos.eqb t1 t2 d1 d2 cnt].
      rewrite take_ge, drop_ge, app_nil_r by (rewrite ?L1, ?L2; reflexivity).
      reflexivity.
    + intros -> Hc. change (Ascii.eqb "1" "1") with true.
      rewrite Hc. cbn [Z.geb Z.compare andb Z.eqb Pos.eqb t1 t2 d1 d2 cnt].
      rewrite Hc. reflexivity.
    + intros -> Hc. change (Ascii.eqb "2" "1") with false.
      change (Ascii.eqb "2" "2") with true.
      rewrite Hc. reflexivity.
    + intros N1 N2.
      assert (E1 : Ascii.eqb n "1" && (cnt st >=? 1) = false).
      { destruct (Ascii.eqb_spec n "1") as [e | _]; [| reflexivity].
        specialize (N1 e). cbn [andb].
        destruct (Z.geb_spec (cnt st) 1); [lia | reflexivity]. }
      assert (E2 : Ascii.eqb n "2" && (cnt st =? 2) = false).
      { destruct (Ascii.eqb_spec n "2") as [e | _]; [| reflexivity].
        specialize (N2 e). cbn [andb].
        destruct (Z.eqb_spec (cnt st) 2); [contradiction | reflexivity]. }
      rewrite E1, E2. reflexivity.
Qed.

Lemma todo_add_task_witness :
  let milk := list_ascii_of_string "milk"%string ++ repeat NUL 11 in
  let eggs := list_ascii_of_string "eggs"%string ++ repeat NUL 11 in
  let pick (c n : string) :=
    list_ascii_of_string (c ++ Fmt.nl ++ n ++ Fmt.nl)%string in
  reachable initial /\
  menu_iteration initial (pick "2"%string "milk"%string) =
    Some (mk_state milk (repeat NUL 15) false false 1,
          [], (menu ++ "Task: " ++ "OK" ++ Fmt.nl)%string) /\
  menu_iteration (mk_state milk eggs false false 2) (pick "3"%string "2"%string) =
    Some (mk_state milk eggs false true 2,
          [], (menu ++ "Which? " ++ "OK" ++ Fmt.nl)%string) /\
  menu_iteration (mk_state milk eggs false true 2) (pick "4"%string "1"%string) =
    Some (mk_state eggs eggs true true 1,
          [], (menu ++ "Which? " ++ "OK" ++ Fmt.nl)%string).
Proof.
  intros milk eggs pick.
  split; [exact reach_initial |]. split; [| split].
  - destruct (todo_add_task initial "010"%char
                (list_ascii_of_string ("milk" ++ Fmt.nl)))
      as (_ & _ & _ & _ & Hadd & _).
    destruct (Hadd [] (list_ascii_of_string "milk") "010"%char [])
      as (H0 & _).
    + reflexivity.
    + constructor.
    + repeat constructor.
    + simpl. lia.
    + right. reflexivity.
    + exact (H0 eq_refl).
  - destruct (todo_add_task (mk_state milk eggs false false 2) "010"%char
                (list_ascii_of_string ("2" ++ Fmt.nl)))
      as (_ & _ & _ & _ & _ & Hpick).
    destruct (Hpick "2"%char "010"%char [] eq_refl) as (_ & Hdone & _).
    apply Hdone; [reflexivity | cbn; lia].
  - destruct (todo_add_task (mk_state milk eggs false true 2) "010"%char
                (list_ascii_of_string ("1" ++ Fmt.nl)))
      as (_ & _ & _ & _ & _ & Hpick).
    destruct (Hpick "1"%char "010"%char [] eq_refl)
      as (_ & _ & _ & Hdel & _).
    apply Hdel; reflexivity.
Defined.
End TodoFacts.

(** ** Mounting the filesystem (C4) *)

Section Filesystem.
Import ShellOS.
Local Open Scope string_scope.

(** C4: [init_filesystem] mounts; when that succeeds nothing is formatted;
    when it fails the filesystem is formatted and mounted exactly once
    more; a failing format or second mount is reported on the console and
    in the log, and no further LittleFS call follows. [lfs_rc E k] is the
    return code of the [k]-th LittleFS call. *)
Theorem init_filesystem_retries_once (E : env) (st : state) :
  let n := length (fs_calls st) in
  let st' := init_filesystem E st in
  (lfs_rc E n = 0 ->
   fs_calls st' = (fs_calls st ++ [LfsMount])%list /\
   events st' = events st /\
   exists st0, st' = log_message E "Filesystem mounted successfully" st0) /\
  (lfs_rc E n <> 0 -> lfs_rc E (n + 1) <> 0 ->
   fs_calls st' = (fs_calls st ++ [LfsMount; LfsFormat])%list /\
   events st' =
     (events st ++
      [EvPrint ("Formatting filesystem..." ++ Fmt.cr ++ Fmt.nl);
       EvPrint ("ERROR: Failed to format filesystem (code "
                ++ Fmt.d (lfs_rc E (n + 1)) ++ ")" ++ Fmt.cr ++ Fmt.nl)])%list /\
   exists st0, st' = log_message E "ERROR: Filesystem format failed" st0) /\
  (lfs_rc E n <> 0 -> lfs_rc E (n + 1) = 0 -> lfs_rc E (n + 2) <> 0 ->
   fs_calls st' = (fs_calls st ++ [LfsMount; LfsFormat; LfsMount])%list /\
   events st' =
     (events st ++
      [EvPrint ("Formatting filesystem..." ++ Fmt.cr ++ Fmt.nl);
       EvPrint ("ERROR: Failed to mount filesystem after format (code "
                ++ Fmt.d (lfs_rc E (n + 2)) ++ ")" ++ Fmt.cr ++ Fmt.nl)])%list /\
   exists st0, st' = log_message E "ERROR: Filesystem mount failed" st0) /\
  (lfs_rc E n <> 0 -> lfs_rc E (n + 1) = 0 -> lfs_rc E (n + 2) = 0 ->
   fs_calls st' = (fs_calls st ++ [LfsMount; LfsFormat; LfsMount])%list /\
   events st' =
     (events st ++
      [EvPrint ("Formatting filesystem..." ++ Fmt.cr ++ Fmt.nl)])%list /\
   exists st0, st' = log_message E "Filesystem mounted successfully" st0) /\
  (length (List.filter (fun o => match o with LfsMount => true | _ => false end)
                       (drop n (fs_calls st'))) <= 2)%nat /\
  (length (List.filter (fun o => match o with LfsFormat => true | _ => false end)
                       (drop n (fs_calls st'))) <= 1)%nat.
Proof.
  intros n st'. subst st' n. unfold init_filesystem, lfs_call.
  set (n := length (fs_calls st)).
  cbn [print fs_calls events system_time_offset time_sync_base ntp_synced
       timezone_offset timezone_str log_entries log_index log_count
       clock_reads].
  rewrite !length_app. cbn [length]. fold n.
  replace (n + 1 + 1)%nat with (n + 2)%nat by lia.
  assert (Hdrop : forall l : list fs_op, drop n (fs_calls st ++ l) = l)
    by (intros l; apply drop_app_length).
  destruct (Z.eqb_spec (lfs_rc E n) 0) as [e0 | n0]; cbn [negb];
    [| destruct (Z.eqb_spec (lfs_rc E (n + 1)) 0) as [e1 | n1]; cbn [negb];
       [ destruct (Z.eqb_spec (lfs_rc E (n + 2)) 0) as [e2 | n2]; cbn [negb] |] ].
  all: match goal with |- context [log_message ?e ?m ?s] =>
         destruct (log_message_frame e m s) as (_ & _ & _ & _ & Ff & Fe) end.
  all: cbn [print fs_calls events] in Ff, Fe; rewrite Ff, Fe.
  all: rewrite <- ?app_assoc; cbn [app]; rewrite Hdrop.
  all: split; [| split; [| split; [| split; [| split]]]].
  all: try (intros; contradiction).
  all: try (cbn [List.filter length]; lia).
  all: intros; split; [reflexivity | split; [reflexivity | eexists; reflexivity]].
Qed.

Lemma init_filesystem_retries_once_witness :
  fs_calls (init_filesystem
              (mk_env (fun _ => 0) Scenario.utc_time
                      (fun k => if Nat.eqb k 0 then (-84)%Z else 0%Z))
              initial)
  = [LfsMount; LfsFormat; LfsMount].
Proof.
  pose proof (init_filesystem_retries_once
                (mk_env (fun _ => 0%Z) Scenario.utc_time
                        (fun k => if Nat.eqb k 0 then (-84)%Z else 0%Z))
                initial) as H.
  cbv zeta in H. destruct H as (_ & _ & _ & H & _).
  destruct H as (Hcalls & _);
    [ vm_compute; discriminate | reflexivity | reflexivity | exact Hcalls ].
Defined.
End Filesystem.

(** ** The time source of the ASCII clock (C5) *)

Section ClockSource.
Import Lwip AsciiClock.

Lemma ntp_recv_frame E p w :
  ntp_pcb (ntp_recv E p w) = ntp_pcb w /\
  sleeps (ntp_recv E p w) = sleeps w /\
  ntp_requests (ntp_recv E p w) = ntp_requests w /\
  (time_synced w = true -> time_synced (ntp_recv E p w) = true) /\
  (tot_len p <> sizeof_ntp_packet_t ->
   current_time (ntp_recv E p w) = current_time w /\
   time_synced (ntp_recv E p w) = time_synced w).
Proof.
  unfold ntp_recv, ntp_requests, emit.
  destruct (Z.eqb_spec (tot_len p) sizeof_ntp_packet_t) as [e | n];
    cbn [ntp_pcb sleeps trace time_synced current_time];
    rewrite List.filter_app, length_app; cbn [List.filter is_request length];
    (split; [reflexivity | split; [reflexivity | split; [lia | split]]]);
    auto; intros; contradiction.
Qed.

Lemma deliver_frame E ps : forall w,
  let w' := fold_left (fun a p => ntp_recv E p a) ps w in
  ntp_pcb w' = ntp_pcb w /\ sleeps w' = sleeps w /\
  ntp_requests w' = ntp_requests w /\
  (time_synced w = true -> time_synced w' = true) /\
  (Forall (fun p => tot_len p <> sizeof_ntp_packet_t) ps ->
   current_time w' = current_time w /\ time_synced w' = time_synced w).
Proof.
  induction ps as [| p ps IH]; intros w; cbn [fold_left].
  - repeat split; auto.
  - destruct (ntp_recv_frame E p w) as (P1 & P2 & P3 & P4 & P5).
    destruct (IH (ntp_recv E p w)) as (Q1 & Q2 & Q3 & Q4 & Q5).
    cbv zeta. rewrite Q1, Q2, Q3, P1, P2, P3.
    split; [reflexivity | split; [reflexivity | split; [reflexivity | split]]].
    + auto.
    + intros Hq. apply Forall_cons in Hq. destruct Hq as [Hp Hps].
      destruct (Q5 Hps) as [-> ->]. apply (P5 Hp).
Qed.

Lemma sleep_ms_frame E ms w :
  ntp_pcb (sleep_ms E ms w) = ntp_pcb w /\
  sleeps (sleep_ms E ms w) = S (sleeps w) /\
  ntp_requests (sleep_ms E ms w) = ntp_requests w /\
  (time_synced w = true -> time_synced (sleep_ms E ms w) = true) /\
  (ntp_pcb w = false \/
   Forall (fun p => tot_len p <> sizeof_ntp_packet_t) (arrivals E (sleeps w)) ->
   current_time (sleep_ms E ms w) = current_time w /\
   time_synced (sleep_ms E ms w) = time_synced w).
Proof.
  unfold sleep_ms.
  destruct (deliver_frame E (arrivals E (sleeps w)) w) as (Q1 & Q2 & Q3 & Q4 & Q5).
  cbv zeta in *.
  destruct (ntp_pcb w) eqn:Epcb;
    cbn [ntp_pcb sleeps time_synced current_time].
  - rewrite Q1, Q2. unfold ntp_requests in *. cbn [trace].
    rewrite List.filter_app, length_app. cbn [List.filter is_request length].
    rewrite Q3.
    split; [reflexivity | split; [reflexivity | split; [lia | split]]].
    + exact Q4.
    + intros [H | H]; [discriminate | apply (Q5 H)].
  - rewrite Epcb. unfold ntp_requests. cbn [trace].
    rewrite List.filter_app, length_app. cbn [List.filter is_request length].
    split; [reflexivity | split; [reflexivity | split; [lia | split]]]; auto.
Qed.

Lemma emit_frame e w :
  ntp_pcb (emit e w) = ntp_pcb w /\ sleeps (emit e w) = sleeps w /\
  current_time (emit e w) = current_time w /\
  time_synced (emit e w) = time_synced w /\
  ntp_requests (emit e w) =
    (ntp_requests w + if is_request e then 1 else 0)%nat.
Proof.
  unfold emit, ntp_requests. cbn [ntp_pcb sleeps current_time time_synced trace].
  rewrite List.filter_app, length_app. cbn [List.filter].
  destruct (is_request e); repeat split; reflexivity.
Qed.

Lemma wifi_blink_frame E on_ms off_ms times : forall w,
  ntp_pcb w = false ->
  let w' := wifi_blink E times on_ms off_ms w in
  ntp_pcb w' = false /\ ntp_requests w' = ntp_requests w /\
  time_synced w' = time_synced w.
Proof.
  induction times as [| k IH]; intros w Hp; cbn [wifi_blink].
  - auto.
  - set (w1 := emit (EvLed true) w).
    destruct (emit_frame (EvLed true) w) as (A1 & _ & _ & A4 & A5).
    fold w1 in A1, A4, A5.
    destruct (sleep_ms_frame E on_ms w1) as (B1 & _ & B3 & _ & B5).
    set (w2 := sleep_ms E on_ms w1) in *.
    destruct (emit_frame (EvLed false) w2) as (C1 & _ & _ & C4 & C5).
    set (w3 := emit (EvLed false) w2) in *.
    destruct (sleep_ms_frame E off_ms w3) as (D1 & _ & D3 & _ & D5).
    set (w4 := sleep_ms E off_ms w3) in *.
    assert (P4 : ntp_pcb w4 = false) by congruence.
    destruct (IH w4 P4) as (I1 & I2 & I3). cbv zeta.
    rewrite I1, I2, I3. split; [reflexivity |].
    destruct B5 as [_ B5]; [left; congruence |].
    destruct D5 as [_ D5]; [left; congruence |].
    cbn [is_request] in *. split; [lia | congruence].
Qed.

Lemma poll_sync_frame E n : forall w,
  ntp_pcb (poll_sync E n w) = ntp_pcb w /\
  ntp_requests (poll_sync E n w) = ntp_requests w.
Proof.
  induction n as [| n IH]; intros w; cbn [poll_sync]; [auto |].
  destruct (time_synced w); [auto |].
  destruct (IH (sleep_ms E 100 w)) as [-> ->].
  destruct (sleep_ms_frame E 100 w) as (-> & _ & -> & _). auto.
Qed.

Lemma clock_iteration_frame E w :
  ntp_pcb (clock_iteration E w) = ntp_pcb w /\
  sleeps (clock_iteration E w) = S (sleeps w) /\
  ntp_requests (clock_iteration E w) = ntp_requests w /\
  (time_synced w = true -> time_synced (clock_iteration E w) = true) /\
  (ntp_pcb w = false \/
   Forall (fun p => tot_len p <> sizeof_ntp_packet_t) (arrivals E (sleeps w)) ->
   current_time (clock_iteration E w) = tick_time (current_time w) /\
   time_synced (clock_iteration E w) = time_synced w).
Proof.
  unfold clock_iteration.
  destruct (emit_frame (EvPrint (display_clock w)) w) as (A1 & A2 & A3 & A4 & A5).
  set (w1 := emit (EvPrint (display_clock w)) w) in *.
  destruct (sleep_ms_frame E 1000 w1) as (B1 & B2 & B3 & B4 & B5).
  set (w2 := sleep_ms E 1000 w1) in *.
  cbn [ntp_pcb sleeps time_synced current_time].
  unfold ntp_requests in *. cbn [trace is_request] in *.
  split; [congruence | split; [congruence | split; [lia | split]]].
  - intros H. apply B4. congruence.
  - intros H. destruct B5 as [B5 B6]; [rewrite A1, A2; exact H |].
    split; congruence.
Qed.

Lemma clock_loop_frame E k : forall w,
  ntp_requests (clock_loop E k w) = ntp_requests w /\
  (time_synced w = true -> time_synced (clock_loop E k w) = true) /\
  (ntp_pcb w = false \/ quiet E (sleeps w) k ->
   current_time (clock_loop E k w) = Nat.iter k tick_time (current_time w) /\
   time_synced (clock_loop E k w) = time_synced w).
Proof.
  induction k as [| k IH]; intros w; cbn [clock_loop].
  - cbn. auto.
  - destruct (clock_iteration_frame E w) as (A1 & A2 & A3 & A4 & A5).
    destruct (IH (clock_iteration E w)) as (I1 & I2 & I3).
    split; [congruence | split; [auto |]].
    intros H.
    destruct A5 as [A5 A6].
    { destruct H as [H | H]; [left; exact H | right; apply H; lia]. }
    destruct I3 as [I3 I4].
    { destruct H as [H | H]; [left; congruence | right].
      intros j Hj. apply H. lia. }
    rewrite I3, I4, A5, A6, Nat.iter_succ_r. auto.
Qed.

Lemma manual_time_frame w :
  ntp_requests (manual_time w) = ntp_requests w /\
  ntp_pcb (manual_time w) = ntp_pcb w /\
  time_synced (manual_time w) = time_synced w /\
  current_time (manual_time w) = manual_start.
Proof. repeat split. Qed.

Lemma boot_cases E :
  let ok := (cyw43_arch_init_rc E =? 0) && (wifi_connect_rc E =? 0)
            && udp_new_ok E in
  ntp_requests (boot E) = (if ok then 1 else 0)%nat /\
  (ok = false ->
   ntp_pcb (boot E) = false /\ time_synced (boot E) = false /\
   current_time (boot E) = manual_start) /\
  (ok = true ->
   boot E = if negb (time_synced (polled E)) then manual_time (polled E)
            else polled E).
Proof.
  intros ok. subst ok. unfold boot, polled, before_ntp.
  assert (I1 : ntp_pcb initial = false) by reflexivity.
  assert (I2 : time_synced initial = false) by reflexivity.
  assert (I3 : ntp_requests initial = O) by reflexivity.
  destruct (sleep_ms_frame E 2000 initial) as (S1 & _ & S3 & _ & S5).
  destruct S5 as [_ S5]; [left; reflexivity |].
  set (w0 := sleep_ms E 2000 initial) in *.
  destruct (cyw43_arch_init_rc E =? 0); cbn [negb andb].
  2: { destruct (manual_time_frame w0) as (M1 & M2 & M3 & M4).
       split; [congruence | split; [| discriminate]].
       intros _. repeat split; congruence. }
  destruct (wifi_blink_frame E 300 300 2 w0 ltac:(congruence)) as (B1 & B2 & B3).
  cbv zeta in *.
  set (w1 := wifi_blink E 2 300 300 w0) in *.
  destruct (wifi_connect_rc E =? 0); cbn [negb andb].
  2: { destruct (wifi_blink_frame E 500 300 3 w1 B1) as (C1 & C2 & C3).
       cbv zeta in *.
       destruct (manual_time_frame (wifi_blink E 3 500 300 w1))
         as (M1 & M2 & M3 & M4).
       split; [congruence | split; [| discriminate]].
       intros _. repeat split; congruence. }
  destruct (wifi_blink_frame E 80 80 5 w1 B1) as (C1 & C2 & C3). cbv zeta in *.
  set (w2 := wifi_blink E 5 80 80 w1) in *.
  unfold ntp_init. destruct (udp_new_ok E); cbn [snd].
  2: { destruct (manual_time_frame w2) as (M1 & M2 & M3 & M4).
       split; [congruence | split; [| discriminate]].
       intros _. repeat split; congruence. }
  split; [| split; [discriminate | reflexivity]].
  set (w3 := mk_world (current_time w2) (time_synced w2) true (trace w2) (sleeps w2)).
  assert (R3 : ntp_requests w3 = O).
  { change (ntp_requests w3) with (ntp_requests w2). congruence. }
  unfold after_polls.
  destruct (sleep_ms_frame E 2000 w3) as (_ & _ & D3 & _).
  destruct (emit_frame EvNtpRequest (sleep_ms E 2000 w3)) as (_ & _ & _ & _ & F5).
  fold (ntp_request (sleep_ms E 2000 w3)) in F5.
  destruct (poll_sync_frame E 50 (ntp_request (sleep_ms E 2000 w3))) as (_ & G2).
  assert (R : ntp_requests
                (poll_sync E 50 (ntp_request (sleep_ms E 2000 w3))) = 1%nat).
  { rewrite G2, F5, D3, R3. reflexivity. }
  destruct (negb _); [| exact R].
  rewrite (proj1 (manual_time_frame _)). exact R.
Qed.

Lemma display_clock_eq w :
  display_clock w =
  (clock_face (current_time w)
   ++ (if time_synced w then "Time source: NTP" else "Time source: MANUAL")
   ++ Fmt.nl)%string.
Proof. unfold display_clock. destruct (time_synced w); reflexivity. Qed.

(** C5 (amended): [main] sends one NTP request when WiFi and the UDP
    socket come up, and none otherwise, whatever happens later. If WiFi
    init, the WiFi connection or the socket creation fails, or the synced
    flag is still clear after the 50 polls, the clock starts from
    2026-02-01 10:48:00 (day of week 6) with the flag clear, and the
    display of each turn shows that time ticked on and "Time source:
    MANUAL" for as long as no datagram of 48 bytes reaches the receive
    callback during the preceding turns; none ever can in the first three
    cases, where no callback is registered. If the sync succeeds every
    display prints "Time source: NTP". *)
Theorem ascii_clock_time_source (E : env) (k : nat) :
  let ok := (cyw43_arch_init_rc E =? 0) && (wifi_connect_rc E =? 0)
            && udp_new_ok E in
  ntp_requests (main E k) = (if ok then 1 else 0)%nat /\
  (sync_failed E = true ->
   current_time (boot E) = mk_datetime 2026 2 1 6 10 48 0 /\
   time_synced (boot E) = false /\
   (ok = false \/ quiet E (sleeps (boot E)) k ->
    nth_display E k =
    (clock_face (Nat.iter k tick_time (mk_datetime 2026 2 1 6 10 48 0))
     ++ "Time source: MANUAL" ++ Fmt.nl)%string)) /\
  (sync_failed E = false ->
   exists t, nth_display E k =
             (clock_face t ++ "Time source: NTP" ++ Fmt.nl)%string).
Proof.
  intros ok. destruct (boot_cases E) as (Hreq & Hbad & Hgood).
  fold ok in Hreq, Hbad, Hgood.
  unfold nth_display, main.
  destruct (emit_frame (EvPrint clear_screen) (boot E)) as (A1 & A2 & A3 & A4 & A5).
  set (w := emit (EvPrint clear_screen) (boot E)) in *.
  destruct (clock_loop_frame E k w) as (L1 & L2 & L3).
  split; [rewrite L1, A5, Hreq; cbn [is_request]; lia |].
  assert (Hsf : sync_failed E = negb ok || negb (time_synced (polled E))).
  { unfold sync_failed, ok.
    destruct (cyw43_arch_init_rc E =? 0), (wifi_connect_rc E =? 0),
      (udp_new_ok E); reflexivity. }
  rewrite Hsf. split.
  - intros Hfail.
    assert (Hstart : current_time (boot E) = manual_start /\
                     time_synced (boot E) = false /\
                     (ok = false -> ntp_pcb (boot E) = false)).
    { destruct ok eqn:Eok.
      - cbn [negb orb] in Hfail. rewrite (Hgood eq_refl), Hfail.
        apply negb_true_iff in Hfail.
        repeat split; [exact Hfail | discriminate].
      - destruct (Hbad eq_refl) as (P1 & P2 & P3). auto. }
    destruct Hstart as (T1 & T2 & T3).
    split; [exact T1 | split; [exact T2 |]].
    intros Hquiet. rewrite display_clock_eq.
    destruct L3 as [L3 L4].
    { destruct Hquiet as [H | H]; [left; rewrite A1; auto | right].
      rewrite A2. exact H. }
    rewrite L3, L4, A3, A4, T1, T2. reflexivity.
  - intros Hok. apply orb_false_iff in Hok. destruct Hok as [Hok Hsync].
    apply negb_false_iff in Hok, Hsync.
    exists (current_time (clock_loop E k w)).
    rewrite display_clock_eq, L2; [reflexivity |].
    rewrite A4, (Hgood Hok), Hsync. exact Hsync.
Qed.

Lemma ascii_clock_time_source_witness :
  let E := Scenario.clock_env (fun _ => []) in
  sync_failed E = true /\
  ntp_requests (main E 2) = 1%nat /\
  nth_display E 2 =
    (clock_face (mk_datetime 2026 2 1 6 10 48 2)
     ++ "Time source: MANUAL" ++ Fmt.nl)%string.
Proof.
  intros E.
  assert (Hf : sync_failed E = true) by (vm_compute; reflexivity).
  destruct (ascii_clock_time_source E 2) as (Hreq & Hman & _).
  split; [exact Hf | split; [exact Hreq |]].
  destruct (Hman Hf) as (_ & _ & Hdisp).
  rewrite Hdisp; [reflexivity |].
  right. intros j _. apply Forall_nil_2.
Defined.

(** C5 as stated fails when the answer comes late: WiFi and the socket
    are up, nothing arrives during the sleeps 0..65 (the polls included),
    so the clock falls back to the fixed time and the first display says
    MANUAL; the NTP answer arrives during the first one-second sleep of
    the loop, and the second display says NTP. *)
Lemma late_ntp_answer_ends_manual_display :
  let E := Scenario.clock_env
             (fun k => if Nat.eqb k 66 then [Scenario.ntp_answer 48] else []) in
  sync_failed E = true /\
  nth_display E 0 =
    (clock_face (mk_datetime 2026 2 1 6 10 48 0)
     ++ "Time source: MANUAL" ++ Fmt.nl)%string /\
  nth_display E 1 =
    (clock_face (mk_datetime 2026 2 1 0 10 48 1)
     ++ "Time source: NTP" ++ Fmt.nl)%string.
Proof. vm_compute. repeat split. Qed.
End ClockSource.

(** ** The web server's receive callback (C6) *)

Section WebServerFacts.
Import Lwip WebServer.

Lemma byte_code_eqb (b c : byte) :
  (Z.of_N (Byte.to_N b) =? Z.of_N (Byte.to_N c)) = Byte.eqb b c.
Proof.
  destruct (Byte.eqb b c) eqn:E.
  - apply Byte.byte_dec_bl in E. subst. apply Z.eqb_refl.
  - apply Z.eqb_neq. intros e. apply N2Z.inj in e.
    assert (Hbc : b = c).
    { pose proof (Byte.of_to_N b) as Hb. pose proof (Byte.of_to_N c) as Hc.
      congruence. }
    subst. rewrite Byte.byte_dec_lb in E by reflexivity. discriminate.
Qed.

Lemma byte_eqb_sym (b c : byte) : Byte.eqb b c = Byte.eqb c b.
Proof. rewrite <- !byte_code_eqb. apply Z.eqb_sym. Qed.

Lemma byte_code_nonzero (c : byte) :
  c <> x00 -> (Z.of_N (Byte.to_N c) =? 0) = false.
Proof.
  intros H. change 0 with (Z.of_N (Byte.to_N x00)).
  rewrite byte_code_eqb.
  destruct (Byte.eqb c x00) eqn:E; [| reflexivity].
  apply Byte.byte_dec_bl in E. contradiction.
Qed.

Lemma strncmp_cons c1 s1 c2 s2 k :
  c1 <> 0 ->
  (strncmp (c1 :: s1) (c2 :: s2) (S k) =? 0) =
  (c1 =? c2) && (strncmp s1 s2 k =? 0).
Proof.
  intros H. cbn [strncmp hd tl].
  destruct (Z.eqb_spec c1 c2) as [e | n]; cbn [andb].
  - destruct (Z.eqb_spec c1 0); [contradiction | reflexivity].
  - apply Z.eqb_neq. lia.
Qed.

Lemma strncmp_nil c1 s1 k :
  c1 <> 0 -> (strncmp (c1 :: s1) [] (S k) =? 0) = false.
Proof.
  intros H. cbn [strncmp hd tl].
  destruct (Z.eqb_spec c1 0); [contradiction |].
  apply Z.eqb_neq. lia.
Qed.

(** [strncmp] against "GET" is 0 exactly for the payloads that begin with
    the bytes G, E, T. *)
Lemma strncmp_GET buf :
  (strncmp (char_codes HTTP_GET) (byte_codes buf) (String.length HTTP_GET) =? 0)
  = begins_with_GET buf.
Proof.
  change (char_codes HTTP_GET)
    with [Z.of_N (Byte.to_N "G"%byte); Z.of_N (Byte.to_N "E"%byte);
          Z.of_N (Byte.to_N "T"%byte)].
  change (String.length HTTP_GET) with 3%nat.
  unfold begins_with_GET.
  destruct buf as [| b0 [| b1 [| b2 rest]]]; cbn [byte_codes map];
    rewrite ?strncmp_cons, ?strncmp_nil by discriminate;
    rewrite ?byte_code_eqb, ?andb_false_r; try reflexivity.
  rewrite (byte_eqb_sym b0), (byte_eqb_sym b1), (byte_eqb_sym b2).
  cbn [strncmp]. rewrite Z.eqb_refl, andb_true_r, andb_assoc. reflexivity.
Qed.

Lemma response_bytes_eq :
  response_bytes = (HTTP_RESPONSE_HEADERS 200 2621 ++ html_content)%string /\
  String.length html_content = 2621%nat.
Proof. split; vm_compute; reflexivity. Qed.

Local Opaque response_bytes html_content HTTP_RESPONSE_HEADERS.

(** C6 (amended): for a non-empty segment the server passes a response to
    [tcp_write] if and only if the payload begins with the bytes G, E, T
    and [malloc] returned a buffer for the response; the response is the
    fixed header (status 200, Content-Length the length of the page,
    Content-Type text/html, Connection close) followed by the page; in
    every case the received length is acknowledged with [tcp_recved], the
    buffer is freed, and the callback returns ERR_OK. *)
Theorem tcp_server_recv_get (E : env) (p : pbuf) :
  tot_len p > 0 ->
  let evs := fst (tcp_server_recv E (Some p)) in
  snd (tcp_server_recv E (Some p)) = ERR_OK /\
  (existsb is_write evs = true <->
   begins_with_GET (payload p) = true /\ malloc_ok E = true) /\
  (forall data, In (EvTcpWrite data) evs ->
     data = (HTTP_RESPONSE_HEADERS 200 (Z.of_nat (String.length html_content))
             ++ html_content)%string) /\
  (exists before, evs = before ++ [EvTcpRecved (tot_len p); EvPbufFree p] /\
     forall e, In e before -> e = EvTcpWrite response_bytes \/ e = EvTcpOutput).
Proof.
  intros Hlen evs. subst evs. unfold tcp_server_recv.
  destruct (Z.gtb_spec (tot_len p) 0) as [_ | H]; [| lia].
  rewrite strncmp_GET. cbn [fst snd].
  rewrite (proj2 response_bytes_eq).
  change (Z.of_nat 2621) with 2621.
  split; [reflexivity |].
  destruct (begins_with_GET (payload p)), (malloc_ok E),
    (tcp_write_rc E =? ERR_OK); cbn [app existsb is_write orb In].
  all: split;
    [ split;
      [ intros Hw; first [exact (conj eq_refl eq_refl) | discriminate Hw]
      | intros [Hg Hm];
        first [reflexivity | discriminate Hg | discriminate Hm] ] |].
  all: split;
    [ intros data Hin;
      repeat (destruct Hin as [Hin | Hin]; try discriminate Hin);
      try contradiction; injection Hin as <-;
      exact (proj1 response_bytes_eq) |].
  all: match goal with
       | |- exists before, ?pre :: ?pre2 :: ?x :: ?y :: [] = _ /\ _ =>
           exists [pre; pre2]
       | |- exists before, ?pre :: ?x :: ?y :: [] = _ /\ _ => exists [pre]
       | |- exists before, ?x :: ?y :: [] = _ /\ _ => exists []
       end.
  all: split; [reflexivity |].
  all: intros e Hin; repeat (destruct Hin as [Hin | Hin]; auto); contradiction.
Qed.

Lemma tcp_server_recv_get_witness :
  Scenario.get_request.(tot_len) > 0 /\
  fst (tcp_server_recv (mk_env true 0 0) (Some Scenario.get_request)) =
  [EvTcpWrite (HTTP_RESPONSE_HEADERS 200 2621 ++ html_content)%string;
   EvTcpOutput; EvTcpRecved 16; EvPbufFree Scenario.get_request].
Proof.
  split; [reflexivity |].
  pose proof (tcp_server_recv_get (mk_env true 0 0) Scenario.get_request
                eq_refl) as H.
  cbv zeta in H. destruct H as (_ & _ & _ & before & Heq & _).
  rewrite <- (proj1 response_bytes_eq). reflexivity.
Defined.

(** C6 as stated fails when [malloc] returns NULL: the payload begins with
    GET and yet nothing is written. *)
Lemma tcp_server_recv_get_without_memory :
  tot_len Scenario.get_request > 0 /\
  begins_with_GET (payload Scenario.get_request) = true /\
  fst (tcp_server_recv (mk_env false 0 0) (Some Scenario.get_request)) =
  [EvTcpRecved 16; EvPbufFree Scenario.get_request].
Proof. repeat split. Qed.
Local Transparent response_bytes html_content HTTP_RESPONSE_HEADERS.
End WebServerFacts.

(** ** Tetris: clearing lines and rotating pieces (C7, C8) *)

Section Tetris.
Import CInt ShellOS TetrisSpec.

Lemma length_10_cases (row : list Z) :
  length row = 10%nat ->
  exists a b c d e f g h i j, row = [a; b; c; d; e; f; g; h; i; j].
Proof.
  intros H.
  do 10 (destruct row as [| ? row]; [discriminate |]).
  destruct row; [| discriminate]. repeat eexists.
Qed.

Lemma row_full_at top row bot :
  length row = 10%nat ->
  row_full (top ++ row :: bot) (length top) = row_is_full row.
Proof.
  intros H. unfold row_full, cell.
  rewrite list_lookup_middle by reflexivity.
  destruct (length_10_cases row H) as (a & b & c & d & e & f & g & h & i & j & ->).
  reflexivity.
Qed.

Lemma zero_row_not_full : row_is_full zero_row = false.
Proof. reflexivity. Qed.

Lemma shift_down_rows z top : forall row bot,
  <[O := z]> (shift_down (length top) (top ++ row :: bot)) = z :: top ++ bot.
Proof.
  induction top as [| s top IH] using rev_ind; intros row bot.
  - reflexivity.
  - rewrite length_app. cbn [length]. rewrite Nat.add_1_r.
    cbn [shift_down]. rewrite <- app_assoc. cbn [app].
    rewrite list_lookup_middle by reflexivity.
    replace (<[S (length top) := s]> (top ++ s :: row :: bot))
      with (top ++ s :: s :: bot).
    + rewrite IH, <- app_assoc. reflexivity.
    + rewrite insert_app_r_alt by lia.
      replace (S (length top) - length top)%nat with 1%nat by lia.
      reflexivity.
Qed.

Lemma replicate_snoc {A} (n : nat) (z : A) (l : list A) :
  replicate n z ++ z :: l = replicate (S n) z ++ l.
Proof. induction n as [| n IH]; simpl; [| rewrite IH]; reflexivity. Qed.

Lemma full_rows_snoc top row :
  full_rows (top ++ [row]) =
  (full_rows top + if row_is_full row then 1 else 0)%nat.
Proof.
  unfold full_rows. rewrite List.filter_app, length_app. simpl.
  destruct (row_is_full row); reflexivity.
Qed.

Lemma full_rows_le board : (full_rows board <= length board)%nat.
Proof. apply List.filter_length_le. Qed.

(** The loop from row [length top - 1] on, [bot] being the rows below. *)
Lemma clear_lines_loop_spec fuel : forall top bot c,
  Forall (fun row => length row = 10%nat) top ->
  (length top + full_rows top < fuel)%nat ->
  (length top <= 20)%nat ->
  0 <= c -> c + Z.of_nat (full_rows top) < 2 ^ 30 ->
  clear_lines_loop fuel (top ++ bot) (Z.of_nat (length top) - 1) c =
  Some (replicate (full_rows top) zero_row
        ++ List.filter (fun row => negb (row_is_full row)) top ++ bot,
        c + Z.of_nat (full_rows top)).
Proof.
  induction fuel as [| fuel IH]; intros top bot c Hw Hf Hl Hc Hc'; [lia |].
  cbn [clear_lines_loop].
  destruct top as [| r0 top0] using rev_ind.
  - cbn. do 2 f_equal. lia.
  - apply Forall_app in Hw. destruct Hw as [Hw Hr].
    apply Forall_cons in Hr. destruct Hr as [Hr _].
    rewrite length_app in *. cbn [length] in *.
    rewrite full_rows_snoc in *.
    replace (Z.of_nat (length top0 + 1) - 1) with (Z.of_nat (length top0)) by lia.
    destruct (Z.geb_spec (Z.of_nat (length top0)) 0); [| lia].
    rewrite Nat2Z.id, <- app_assoc. cbn [app].
    rewrite row_full_at by exact Hr.
    pose proof (full_rows_le top0) as Hle.
    destruct (row_is_full r0) eqn:Efull.
    + rewrite shift_down_rows.
      assert (W1 : wrap32 (wrap32 (Z.of_nat (length top0) + 1) - 1)
                   = Z.of_nat (length (zero_row :: top0)) - 1).
      { unfold wrap32. cbn [length].
        rewrite (Z.mod_small (Z.of_nat (length top0) + 1 + 2 ^ 31)) by lia.
        rewrite Z.mod_small; lia. }
      assert (W2 : wrap32 (c + 1) = c + 1).
      { unfold wrap32. rewrite Z.mod_small; lia. }
      rewrite W1, W2.
      change (zero_row :: top0 ++ bot) with ((zero_row :: top0) ++ bot).
      rewrite IH.
      * unfold full_rows at 1 2. cbn [List.filter].
        rewrite zero_row_not_full. cbn [negb]. fold (full_rows top0).
        rewrite List.filter_app. cbn [List.filter]. rewrite Efull.
        cbn [negb app]. rewrite app_nil_r.
        cbn [app]. rewrite replicate_snoc.
        replace (full_rows top0 + 1)%nat with (S (full_rows top0)) by lia.
        do 2 f_equal. lia.
      * constructor; [reflexivity | exact Hw].
      * unfold full_rows at 1. cbn [List.filter length].
        rewrite zero_row_not_full. fold (full_rows top0). lia.
      * cbn [length]. lia.
      * lia.
      * unfold full_rows at 1. cbn [List.filter length].
        rewrite zero_row_not_full. fold (full_rows top0). lia.
    + assert (W1 : wrap32 (Z.of_nat (length top0) - 1)
                   = Z.of_nat (length top0) - 1).
      { unfold wrap32. rewrite Z.mod_small; lia. }
      rewrite W1.
      change (top0 ++ r0 :: bot) with (top0 ++ (r0 :: bot)).
      rewrite IH by (try assumption; lia).
      rewrite List.filter_app. cbn [List.filter]. rewrite Efull.
      cbn [negb]. rewrite <- app_assoc. cbn [app].
      rewrite Nat.add_0_r. reflexivity.
Qed.

Lemma filter_split_length {A} (f : A -> bool) (l : list A) :
  (length (List.filter f l) + length (List.filter (fun a => negb (f a)) l)
   = length l)%nat.
Proof.
  induction l as [| a l IH]; simpl; [reflexivity |].
  destruct (f a); simpl; lia.
Qed.

Lemma cleared_is_board board : is_board board -> is_board (cleared board).
Proof.
  intros [Hlen Hrows]. unfold is_board, cleared. split.
  - rewrite length_app, length_replicate. unfold full_rows.
    rewrite filter_split_length. exact Hlen.
  - apply Forall_app. split.
    + apply Forall_forall. intros r Hr.
      apply elem_of_replicate in Hr. destruct Hr as [-> _]. reflexivity.
    + rewrite Forall_forall in Hrows. apply Forall_forall. intros r Hr.
      apply list_elem_of_In, List.filter_In in Hr.
      apply Hrows, list_elem_of_In, Hr.
Qed.

Lemma cleared_no_full_row board :
  is_board board -> forall i, row_full (cleared board) i = false.
Proof.
  intros Hb i. pose proof (cleared_is_board board Hb) as [_ Hrows].
  destruct (cleared board !! i) as [r |] eqn:Ei.
  - assert (Hi : length (take i (cleared board)) = i).
    { apply length_take_le. apply lookup_lt_Some in Ei. lia. }
    replace (row_full (cleared board) i)
      with (row_full (take i (cleared board) ++ r :: drop (S i) (cleared board))
                     (length (take i (cleared board))))
      by (rewrite (take_drop_middle _ _ _ Ei), Hi; reflexivity).
    rewrite row_full_at.
    + apply list_elem_of_lookup_2 in Ei. unfold cleared in Ei.
      apply elem_of_app in Ei. destruct Ei as [Ei | Ei].
      * apply elem_of_replicate in Ei. destruct Ei as [-> _]. reflexivity.
      * apply list_elem_of_In, List.filter_In in Ei.
        apply negb_true_iff, Ei.
    + rewrite Forall_forall in Hrows. apply Hrows.
      eapply list_elem_of_lookup_2, Ei.
  - unfold row_full, cell. rewrite Ei. reflexivity.
Qed.

Lemma occupied_app b1 b2 : occupied (b1 ++ b2) = occupied b1 + occupied b2.
Proof.
  unfold occupied. rewrite concat_app, List.filter_app, length_app. lia.
Qed.

Lemma occupied_cons r b :
  occupied (r :: b) =
  Z.of_nat (length (List.filter (fun v => negb (v =? 0)) r)) + occupied b.
Proof.
  unfold occupied. cbn [concat]. rewrite List.filter_app, length_app. lia.
Qed.

Lemma occupied_zero_rows k : occupied (replicate k zero_row) = 0.
Proof.
  induction k as [| k IH]; [reflexivity |].
  cbn [replicate]. rewrite occupied_cons, IH. reflexivity.
Qed.

Lemma full_row_cells r :
  row_is_full r = true ->
  List.filter (fun v => negb (v =? 0)) r = r.
Proof.
  unfold row_is_full. induction r as [| v r IH]; simpl; [reflexivity |].
  intros H. apply andb_true_iff in H. destruct H as [Hv Hr].
  rewrite Hv, IH by exact Hr. reflexivity.
Qed.

Lemma occupied_split board :
  Forall (fun row => length row = 10%nat) board ->
  occupied board =
  10 * Z.of_nat (full_rows board)
  + occupied (List.filter (fun row => negb (row_is_full row)) board).
Proof.
  induction 1 as [| r b Hr _ IH]; [reflexivity |].
  rewrite occupied_cons, IH. unfold full_rows. cbn [List.filter].
  destruct (row_is_full r) eqn:E; cbn [negb length].
  - rewrite full_row_cells, Hr by exact E. lia.
  - rewrite occupied_cons. lia.
Qed.

(** C7: on a 20x10 board [clear_lines] terminates; it returns the number
    of rows whose 10 cells were all non-zero, and leaves the board with
    those rows removed, the other rows in their order moved down, and zero
    rows filled in at the top; afterwards no row is full and the number of
    occupied cells is smaller by 10 times the number returned. *)
Theorem clear_lines_correct (board : list (list Z)) :
  is_board board ->
  clear_lines board = Some (cleared board, Z.of_nat (full_rows board)) /\
  cleared board =
    replicate (full_rows board) (replicate 10 0)
    ++ List.filter (fun row => negb (row_is_full row)) board /\
  is_board (cleared board) /\
  (forall i, row_full (cleared board) i = false) /\
  occupied (cleared board) = occupied board - 10 * Z.of_nat (full_rows board).
Proof.
  intros Hb. pose proof Hb as [Hlen Hrows].
  change (Z.to_nat TETRIS_HEIGHT) with 20%nat in Hlen.
  change (Z.to_nat TETRIS_WIDTH) with 10%nat in Hrows.
  pose proof (full_rows_le board) as Hle.
  split; [| split; [reflexivity | split; [| split]]].
  - unfold clear_lines.
    change (Z.to_nat (2 * TETRIS_HEIGHT + 1)) with 41%nat.
    pose proof (clear_lines_loop_spec 41 board [] 0 Hrows
                  ltac:(lia) ltac:(lia) ltac:(lia) ltac:(lia)) as H.
    rewrite !app_nil_r, Hlen in H. exact H.
  - exact (cleared_is_board board Hb).
  - exact (cleared_no_full_row board Hb).
  - unfold cleared. rewrite occupied_app, occupied_zero_rows.
    rewrite (occupied_split board Hrows). lia.
Qed.

Lemma clear_lines_correct_witness :
  let board := replicate 18 (replicate 10 0)
               ++ [[1; 1; 1; 1; 0; 1; 1; 1; 1; 1]; replicate 10 7] in
  is_board board /\
  clear_lines board =
  Some (replicate 19 (replicate 10 0) ++ [[1; 1; 1; 1; 0; 1; 1; 1; 1; 1]], 1).
Proof.
  intros board.
  assert (Hb : is_board board).
  { split; [reflexivity |]. unfold board.
    repeat (first [apply Forall_nil_2 | apply Forall_cons_2; [reflexivity |]]). }
  split; [exact Hb |].
  exact (proj1 (clear_lines_correct board Hb)).
Defined.

(** C8: [rotate_piece] writes cell (3-j, i) of the shape into cell (i, j)
    and leaves [x], [y] and [type] alone; four rotations of a 4x4 shape
    give the original piece back. *)
Theorem rotate_piece_quarter_turn (p : TetrisPiece) :
  is_piece p ->
  (forall i j : nat, (i < 4)%nat -> (j < 4)%nat ->
     cell (shape (rotate_piece p)) i j = cell (shape p) (3 - j) i) /\
  rotate_piece (rotate_piece (rotate_piece (rotate_piece p))) = p /\
  x (rotate_piece p) = x p /\ y (rotate_piece p) = y p /\
  type (rotate_piece p) = type p /\
  is_piece (rotate_piece p).
Proof.
  intros [Hlen Hrows].
  split; [| split; [| repeat split]].
  - intros i j Hi Hj.
    do 4 (destruct i as [| i]; [do 4 (destruct j as [| j]; [reflexivity |]); lia |]).
    lia.
  - destruct p as [s px py pt]. cbn [shape] in *.
    do 4 (destruct s as [| ? s]; [discriminate |]).
    destruct s; [| discriminate].
    repeat match goal with
      | H : Forall _ (_ :: _) |- _ =>
          apply Forall_cons in H; destruct H as [? H]
      end.
    repeat match goal with
      | H : length ?r = 4%nat |- _ =>
          do 4 (destruct r as [| ? r]; [discriminate |]);
          destruct r; [clear H | discriminate]
      end.
    reflexivity.
  - repeat constructor.
Qed.

Lemma rotate_piece_quarter_turn_witness :
  let t := mk_piece [[0; 0; 0; 0]; [1; 1; 1; 0]; [0; 1; 0; 0]; [0; 0; 0; 0]]
                    3 0 2 in
  is_piece t /\
  rotate_piece (rotate_piece (rotate_piece (rotate_piece t))) = t /\
  shape (rotate_piece t) = [[0; 0; 1; 0]; [0; 1; 1; 0]; [0; 0; 1; 0]; [0; 0; 0; 0]].
Proof.
  intros t.
  assert (Ht : is_piece t) by (split; [reflexivity | repeat constructor]).
  split; [exact Ht | split; [| reflexivity]].
  exact (proj1 (proj2 (rotate_piece_quarter_turn t Ht))).
Defined.
End Tetris.

(** ** The system log (C9) *)

Section SystemLog.
Import CInt ShellOS.

Lemma log_message_log_fields E msg st :
  log_entries (log_message E msg st) =
    <[Z.to_nat (log_index st) := fst (log_line E msg st)]> (log_entries st) /\
  log_index (log_message E msg st) =
    Z.rem (wrap32 (log_index st + 1)) MAX_LOG_ENTRIES /\
  log_count (log_message E msg st) =
    (if log_count st <? MAX_LOG_ENTRIES then wrap32 (log_count st + 1)
     else log_count st).
Proof.
  unfold log_message, log_line, get_current_time, get_absolute_time.
  destruct (system_time_offset st =? 0); cbn;
    [| destruct (wrap64 _ =? 0); cbn ]; repeat split; reflexivity.
Qed.

Lemma ring_inv_initial : ring_inv initial [].
Proof.
  unfold ring_inv. cbn [initial log_entries log_index log_count length].
  repeat split; try reflexivity.
  intros j Hj. lia.
Qed.

Lemma wrap32_small_nat x : 0 <= x <= 100 -> wrap32 x = x.
Proof. intros H. unfold wrap32. rewrite Z.mod_small; lia. Qed.

Lemma ring_inv_step E msg st hist :
  ring_inv st hist ->
  ring_inv (log_message E msg st) (hist ++ [fst (log_line E msg st)]).
Proof.
  intros (Hlen & Hidx & Hcnt & Hslots).
  destruct (log_message_log_fields E msg st) as (He & Hi & Hc).
  unfold ring_inv. rewrite He, Hi, Hc, length_insert, length_app.
  cbn [length]. unfold MAX_LOG_ENTRIES.
  set (n := length hist) in *.
  assert (Hn : 0 <= Z.of_nat n mod 50 < 50) by (apply Z.mod_pos_bound; lia).
  split; [exact Hlen | split; [| split]].
  - rewrite Hidx, wrap32_small_nat by lia.
    rewrite Z.rem_mod_nonneg by lia.
    replace (Z.of_nat (n + 1)) with (Z.of_nat n + 1) by lia.
    Z.to_euclidean_division_equations. lia.
  - rewrite Hcnt.
    destruct (Z.ltb_spec (Z.min (Z.of_nat n) 50) 50);
      [rewrite wrap32_small_nat by lia |]; lia.
  - intros j Hj.
    assert (Hslot : Z.to_nat (log_index st) = (n mod 50)%nat).
    { rewrite Hidx. rewrite <- (Nat2Z.id (n mod 50)).
      f_equal. rewrite Nat2Z.inj_mod. reflexivity. }
    rewrite Hslot.
    destruct (Nat.eq_dec j n) as [-> | Hne].
    + rewrite list_lookup_insert_eq
        by (rewrite Hlen; apply Nat.mod_upper_bound; lia).
      rewrite lookup_app_r by lia.
      unfold n. rewrite Nat.sub_diag. reflexivity.
    + rewrite list_lookup_insert_ne.
      * rewrite lookup_app_l by lia. apply Hslots. lia.
      * intros Heq.
        pose proof (Nat.div_mod_eq n 50). pose proof (Nat.div_mod_eq j 50).
        pose proof (Nat.mod_upper_bound n 50 ltac:(lia)).
        lia.
Qed.

Lemma log_run_inv E msgs : forall st hist,
  ring_inv st hist ->
  ring_inv (fst (log_run E msgs st)) (hist ++ snd (log_run E msgs st)).
Proof.
  induction msgs as [| m msgs IH]; intros st hist H; cbn [log_run].
  - cbn. rewrite app_nil_r. exact H.
  - specialize (IH _ _ (ring_inv_step E m st hist H)).
    destruct (log_run E msgs (log_message E m st)) as [st' lines].
    cbn [fst snd] in *. rewrite <- app_assoc in IH. exact IH.
Qed.

Lemma log_run_length E msgs : forall st,
  length (snd (log_run E msgs st)) = length msgs.
Proof.
  induction msgs as [| m msgs IH]; intros st; cbn [log_run]; [reflexivity |].
  specialize (IH (log_message E m st)).
  destruct (log_run E msgs (log_message E m st)). cbn in *. lia.
Qed.

Lemma view_log_entries_ring st hist :
  ring_inv st hist ->
  view_log_entries st = drop (length hist - 50) hist.
Proof.
  intros (Hlen & Hidx & Hcnt & Hslots).
  unfold view_log_entries, log_entry_at, MAX_LOG_ENTRIES.
  set (n := length hist) in *.
  assert (Hn : 0 <= Z.of_nat n mod 50 < 50) by (apply Z.mod_pos_bound; lia).
  assert (Hc : 0 <= log_count st <= 50) by lia.
  apply list_eq. intros i.
  rewrite list_lookup_fmap, lookup_drop.
  destruct (Nat.lt_ge_cases i (Z.to_nat (log_count st))) as [Hi | Hi].
  - rewrite lookup_seq_lt by exact Hi. cbn [fmap option_fmap option_map Nat.add].
    rewrite nth_lookup.
    assert (Hj : (n - 50 <= n - 50 + i < n)%nat) by lia.
    rewrite <- (Hslots _ Hj).
    rewrite (wrap32_small (log_index st - log_count st)) by lia.
    rewrite (wrap32_small_nat (log_index st - log_count st + 50)) by lia.
    set (start := Z.rem (log_index st - log_count st + 50) 50).
    assert (Hstart : start = (log_index st - log_count st + 50) mod 50)
      by (apply Z.rem_mod_nonneg; lia).
    assert (Hs : 0 <= start < 50) by (rewrite Hstart; apply Z.mod_pos_bound; lia).
    rewrite wrap32_small_nat by lia.
    rewrite Z.rem_mod_nonneg by lia.
    assert (Hslot : Z.to_nat ((start + Z.of_nat i) mod 50)
                    = ((n - 50 + i) mod 50)%nat).
    { rewrite <- (Nat2Z.id ((n - 50 + i) mod 50)). f_equal.
      rewrite Nat2Z.inj_mod, Hstart, Hidx, Hcnt.
      replace (Z.of_nat (n - 50 + i))
        with (Z.of_nat n - Z.min (Z.of_nat n) 50 + Z.of_nat i) by lia.
      change (Z.of_nat 50) with 50.
      Z.to_euclidean_division_equations. lia. }
    rewrite Hslot.
    destruct (log_entries st !! ((n - 50 + i) mod 50)%nat) eqn:E; [reflexivity |].
    apply lookup_ge_None in E.
    pose proof (Nat.mod_upper_bound (n - 50 + i) 50 ltac:(lia)). lia.
  - rewrite lookup_seq_ge by exact Hi. cbn.
    symmetry. apply lookup_ge_None. lia.
Qed.

End SystemLog.

(** ** The time value 0 as "not set" (C10) *)

Section TimeSentinel.
Import CInt ShellOS.
Local Open Scope string_scope.

(** C10 (amended): [get_current_time] returns 0 while
    [system_time_offset] is 0, which it is at boot and which only
    [set_current_time] changes, to the value it is given; so a
    synchronisation to exactly Unix time 0 reads like a clock never set.
    When the time read is 0, the shell prompt and the log time stamp show
    the uptime instead, and the time command prints a notice that the time
    is not synchronized, without the uptime. *)
Theorem time_zero_sentinel (E : env) (st : state) :
  system_time_offset initial = 0%Z /\
  (system_time_offset st = 0%Z -> get_current_time E st = (0%Z, st)) /\
  (forall t, system_time_offset (set_current_time E t st) = t) /\
  (forall msg, system_time_offset (log_message E msg st)
               = system_time_offset st) /\
  fst (get_current_time E (set_current_time E 0 st)) = 0%Z /\
  (fst (get_current_time E st) = 0%Z ->
   let st1 := snd (get_current_time E st) in
   let uptime_sec :=
     Z.quot (to_ms_since_boot (clock_us E (clock_reads st1))) 1000 in
   fst (show_time E st) =
     ANSI_YELLOW ++ "Time not synchronized yet" ++ Fmt.nl ++ ANSI_RESET
     ++ "Use 'wifi' to connect and sync time" ++ Fmt.nl /\
   fst (print_prompt E st) =
     ANSI_GREEN ++ "+" ++ Fmt.d0 5 uptime_sec ++ "s" ++ prompt_tail /\
   forall msg,
     fst (log_line E msg st) =
     Fmt.truncate LOG_ENTRY_SIZE (uptime_stamp uptime_sec ++ msg)).
Proof.
  split; [reflexivity |].
  split; [intros H; unfold get_current_time; rewrite H; reflexivity |].
  split; [intros t; reflexivity |].
  split; [intros msg; apply (log_message_frame E msg st) |].
  split; [reflexivity |].
  intros H st1 uptime_sec. subst uptime_sec st1.
  unfold show_time, print_prompt, log_line.
  destruct (get_current_time E st) as [now s1]. cbn [fst snd] in *.
  subst now. cbn [Z.eqb fst snd].
  split; [reflexivity | split; [reflexivity | intros msg; reflexivity]].
Qed.

Lemma time_zero_sentinel_witness :
  fst (get_current_time Scenario.shell_env initial) = 0%Z /\
  fst (print_prompt Scenario.shell_env initial) =
    ANSI_GREEN ++ "+00005s" ++ prompt_tail.
Proof.
  split; [reflexivity |].
  pose proof (time_zero_sentinel Scenario.shell_env initial) as H.
  destruct H as (_ & _ & _ & _ & _ & H).
  destruct (H eq_refl) as (_ & Hprompt & _).
  rewrite Hprompt. reflexivity.
Defined.

(** C10 as stated fails for the time command: with the clock not set and
    the system up for 5 seconds, the prompt and the log line show
    "+00005s", the output of the time command does not; it is the fixed
    notice. *)
Lemma show_time_displays_no_uptime :
  let E := Scenario.shell_env in
  fst (get_current_time E initial) = 0%Z /\
  Scenario.contains "+00005s" (fst (print_prompt E initial)) = true /\
  Scenario.contains "+00005s" (fst (log_line E "boot" initial)) = true /\
  Scenario.contains "+00005s" (fst (show_time E initial)) = false /\
  fst (show_time E initial) =
    ANSI_YELLOW ++ "Time not synchronized yet" ++ Fmt.nl ++ ANSI_RESET
    ++ "Use 'wifi' to connect and sync time" ++ Fmt.nl.
Proof. vm_compute. repeat split. Qed.
End TimeSentinel.

(* ================================================================== *)
(** * Part III: further properties of the code *)
(* ================================================================== *)

(** ** Facts on strings and lists used below *)

Section TextFacts.

Lemma string_app_empty (s : string) : (s ++ "")%string = s.
Proof.
  induction s as [| a s IH]; cbn; [reflexivity | rewrite IH; reflexivity].
Qed.

Lemma string_app_assoc (a b c : string) :
  ((a ++ b) ++ c)%string = (a ++ (b ++ c))%string.
Proof.
  induction a as [| x a IH]; cbn; [reflexivity | rewrite IH; reflexivity].
Qed.

Lemma string_of_list_app (a b : list ascii) :
  string_of_list_ascii (a ++ b) =
  (string_of_list_ascii a ++ string_of_list_ascii b)%string.
Proof.
  induction a as [| x a IH]; cbn; [reflexivity | rewrite IH; reflexivity].
Qed.

Lemma existsb_false_iff {A} (f : A -> bool) (l : list A) :
  existsb f l = false <-> forall a, In a l -> f a = false.
Proof.
  induction l as [| a l IH]; simpl.
  - split; [intros _ ? [] | reflexivity].
  - rewrite orb_false_iff, IH. split.
    + intros [Ha Hl] b [<- | Hb]; auto.
    + intros H. split; [apply H; auto | intros b Hb; apply H; auto].
Qed.
Lemma string_length_app (a b : string) :
  String.length (a ++ b) = (String.length a + String.length b)%nat.
Proof.
  induction a as [| x a IH]; cbn; [reflexivity | rewrite IH; reflexivity].
Qed.

Lemma string_length_of_list (l : list ascii) :
  String.length (string_of_list_ascii l) = length l.
Proof.
  induction l as [| x l IH]; cbn; [reflexivity | rewrite IH; reflexivity].
Qed.

(** A property checked on every number below a bound holds of them. *)
Lemma checked_below (P : Z -> bool) (n : Z) :
  forallb (fun k => P (Z.of_nat k)) (seq 0 (Z.to_nat n)) = true ->
  forall z, 0 <= z < n -> P z = true.
Proof.
  intros H z Hz. rewrite forallb_forall in H.
  specialize (H (Z.to_nat z)). rewrite Z2Nat.id in H by lia.
  apply H, in_seq. lia.
Qed.
End TextFacts.

(** ** Tetris: collisions, landing, speed *)

Section TetrisMoves.
Import CInt ShellOS TetrisSpec TetrisGame.

Lemma near_wrap p (i : nat) (d : Z) :
  near p -> (i < 4)%nat -> -1 <= d <= 1 ->
  wrap32 (wrap32 (x p + Z.of_nat i) + d) = x p + Z.of_nat i + d /\
  wrap32 (wrap32 (y p + Z.of_nat i) + d) = y p + Z.of_nat i + d /\
  wrap32 (x p + Z.of_nat i) = x p + Z.of_nat i /\
  wrap32 (y p + Z.of_nat i) = y p + Z.of_nat i /\
  wrap32 (x p + d) = x p + d /\ wrap32 (y p + d) = y p + d /\
  wrap32 (type p + 1) = type p + 1.
Proof.
  intros (Hx & Hy & Ht) Hi Hd.
  rewrite !wrap32_small; rewrite ?wrap32_small; repeat split; lia.
Qed.

(** [check_collision] answers whether the piece, moved by (dx, dy), still
    fits. *)
Lemma check_collision_fits board p dx dy :
  near p -> -1 <= dx <= 1 -> -1 <= dy <= 1 ->
  (check_collision board p dx dy = false <->
   fits board (mk_piece (shape p) (x p + dx) (y p + dy) (type p))).
Proof.
  intros Hn Hdx Hdy. unfold check_collision, fits.
  cbn [shape x y]. unfold TETRIS_WIDTH, TETRIS_HEIGHT.
  rewrite existsb_false_iff. split.
  - intros H i j Hi Hj Hc.
    specialize (H i ltac:(apply in_seq; lia)).
    rewrite existsb_false_iff in H.
    specialize (H j ltac:(apply in_seq; lia)). cbv zeta in H.
    destruct (near_wrap p j dx Hn Hj Hdx) as (Wx & _).
    destruct (near_wrap p i dy Hn Hi Hdy) as (_ & Wy & _).
    rewrite Wx, Wy in H.
    apply Z.eqb_neq in Hc. rewrite Hc in H. cbn [negb andb] in H.
    replace (x p + Z.of_nat j + dx) with (x p + dx + Z.of_nat j) in H by lia.
    replace (y p + Z.of_nat i + dy) with (y p + dy + Z.of_nat i) in H by lia.
    apply orb_false_iff in H. destruct H as [H H4].
    apply orb_false_iff in H. destruct H as [H H3].
    apply orb_false_iff in H. destruct H as [H1 H2].
    split; [lia | split; [lia |]]. intros Hy.
    destruct (Z.geb_spec (y p + dy + Z.of_nat i) 0); [| lia].
    cbn [andb] in H4. apply negb_false_iff, Z.eqb_eq in H4. exact H4.
  - intros H i Hi. apply in_seq in Hi. rewrite existsb_false_iff.
    intros j Hj. apply in_seq in Hj. cbv zeta.
    destruct (near_wrap p j dx Hn ltac:(lia) Hdx) as (-> & _).
    destruct (near_wrap p i dy Hn ltac:(lia) Hdy) as (_ & -> & _).
    destruct (Z.eqb_spec (cell (shape p) i j) 0) as [| Hc]; [reflexivity |].
    cbn [negb andb].
    destruct (H i j ltac:(lia) ltac:(lia) Hc) as (H1 & H2 & H3).
    replace (x p + Z.of_nat j + dx) with (x p + dx + Z.of_nat j) by lia.
    replace (y p + Z.of_nat i + dy) with (y p + dy + Z.of_nat i) by lia.
    destruct (Z.ltb_spec (x p + dx + Z.of_nat j) 0); [lia |].
    destruct (Z.geb_spec (x p + dx + Z.of_nat j) 10); [lia |].
    destruct (Z.geb_spec (y p + dy + Z.of_nat i) 20); [lia |].
    cbn [orb].
    destruct (Z.geb_spec (y p + dy + Z.of_nat i) 0); [| reflexivity].
    rewrite H3 by lia. reflexivity.
Qed.

Lemma fits_same_place board p q :
  fits board p -> shape q = shape p -> x q = x p -> y q = y p -> fits board q.
Proof. unfold fits. intros H -> -> ->. exact H. Qed.

Lemma hard_drop_lands fuel : forall board p i0 j0,
  near p -> fits board p ->
  (i0 < 4)%nat -> (j0 < 4)%nat -> cell (shape p) i0 j0 <> 0 ->
  20 - (y p + Z.of_nat i0) < Z.of_nat fuel ->
  exists q, hard_drop fuel board p = Some q /\
    fits board q /\ check_collision board q 0 1 = true /\
    shape q = shape p /\ x q = x p /\ type q = type p /\ y p <= y q.
Proof.
  induction fuel as [| fuel IH]; intros board p i0 j0 Hn Hf Hi Hj Hc Hfuel.
  - destruct (Hf i0 j0 Hi Hj Hc) as (_ & Hy & _).
    unfold TETRIS_HEIGHT in Hy. lia.
  - cbn [hard_drop].
    destruct (check_collision board p 0 1) eqn:E.
    + exists p. split; [reflexivity |]. split; [exact Hf |].
      split; [exact E |]. repeat (split; [reflexivity |]). lia.
    + apply check_collision_fits in E; [| exact Hn | lia | lia].
      destruct (near_wrap p 0 1 Hn ltac:(lia) ltac:(lia))
        as (_ & _ & _ & _ & _ & Wy & _).
      assert (Wx : wrap32 (x p + 0) = x p)
        by (rewrite wrap32_small; destruct Hn as (? & ? & ?); lia).
      set (q := move_piece p 0 1).
      assert (Hq : fits board q).
      { apply (fits_same_place board _ q E); unfold q, move_piece;
          cbn [shape x y]; [reflexivity | rewrite Wx; lia | exact Wy]. }
      assert (Hyq : y q = y p + 1) by (unfold q, move_piece; cbn [y]; exact Wy).
      assert (Hnq : near q).
      { destruct Hn as (Hx & Hy & Ht).
        destruct (Hq i0 j0 Hi Hj Hc) as (_ & Hy' & _).
        unfold TETRIS_HEIGHT in Hy'.
        unfold near, q, move_piece; cbn [x y type]. rewrite Wx, Wy.
        rewrite Hyq in Hy'. lia. }
      destruct (IH board q i0 j0 Hnq Hq Hi Hj Hc ltac:(lia))
        as (r & Hr & F1 & F2 & F3 & F4 & F5 & F6).
      exists r. split; [exact Hr |]. split; [exact F1 |].
      split; [exact F2 |]. split; [exact F3 |].
      split; [rewrite F4; unfold q, move_piece; cbn [x]; exact Wx |].
      split; [exact F5 | lia].
Qed.

(** X1 (tetris_game, check_collision).
    A key never puts the current piece where it does not fit: a piece
    that fits (inside the walls, above the floor, on free cells) still
    fits after any key; a move or rotation that would not fit is not made;
    the drop key leaves the piece resting on the floor or on other cells,
    in its column. *)
Theorem tetris_key_keeps_piece_fitting
        (board : list (list Z)) (p : TetrisPiece) (c : ascii) :
  near p -> fits board p -> 0 <= y p ->
  (exists i j, (i < 4)%nat /\ (j < 4)%nat /\ cell (shape p) i j <> 0) ->
  exists q, handle_key board p c = Some q /\ fits board q /\
    type q = type p /\
    ((c = "s"%char \/ c = "S"%char) ->
     check_collision board q 0 1 = true /\ x q = x p /\
     shape q = shape p /\ y p <= y q).
Proof.
  intros Hn Hf Hy (i0 & j0 & Hi & Hj & Hc). unfold handle_key.
  destruct (Ascii.eqb c "a" || Ascii.eqb c "A") eqn:Ea.
  { assert (Hns : ~ (c = "s"%char \/ c = "S"%char)).
    { intros [-> | ->]; discriminate. }
    destruct (check_collision board p (-1) 0) eqn:E.
    - exists p. split; [reflexivity |]. split; [exact Hf |].
      split; [reflexivity | intros; contradiction].
    - exists (move_piece p (-1) 0). split; [reflexivity |].
      split; [| split; [reflexivity | intros; contradiction]].
      apply check_collision_fits in E; [| exact Hn | lia | lia].
      destruct (near_wrap p 0 (-1) Hn ltac:(lia) ltac:(lia))
        as (_ & _ & _ & _ & Wx & _).
      apply (fits_same_place board _ _ E); unfold move_piece; cbn [shape x y];
        [reflexivity | exact Wx |].
      rewrite wrap32_small; destruct Hn as (? & ? & ?); lia. }
  destruct (Ascii.eqb c "d" || Ascii.eqb c "D") eqn:Ed.
  { assert (Hns : ~ (c = "s"%char \/ c = "S"%char)).
    { intros [-> | ->]; discriminate. }
    destruct (check_collision board p 1 0) eqn:E.
    - exists p. split; [reflexivity |]. split; [exact Hf |].
      split; [reflexivity | intros; contradiction].
    - exists (move_piece p 1 0). split; [reflexivity |].
      split; [| split; [reflexivity | intros; contradiction]].
      apply check_collision_fits in E; [| exact Hn | lia | lia].
      destruct (near_wrap p 0 1 Hn ltac:(lia) ltac:(lia))
        as (_ & _ & _ & _ & Wx & _).
      apply (fits_same_place board _ _ E); unfold move_piece; cbn [shape x y];
        [reflexivity | exact Wx |].
      rewrite wrap32_small; destruct Hn as (? & ? & ?); lia. }
  destruct (Ascii.eqb c "w" || Ascii.eqb c "W") eqn:Ew.
  { assert (Hns : ~ (c = "s"%char \/ c = "S"%char)).
    { intros [-> | ->]; discriminate. }
    destruct (check_collision board (rotate_piece p) 0 0) eqn:E.
    - exists p. split; [reflexivity |]. split; [exact Hf |].
      split; [reflexivity | intros; contradiction].
    - exists (rotate_piece p). split; [reflexivity |].
      split; [| split; [reflexivity | intros; contradiction]].
      apply check_collision_fits in E; [| exact Hn | lia | lia].
      apply (fits_same_place board _ _ E); unfold rotate_piece; cbn [shape x y];
        first [reflexivity | lia]. }
  destruct (Ascii.eqb c "s" || Ascii.eqb c "S") eqn:Es.
  { destruct (hard_drop_lands (Z.to_nat (TETRIS_HEIGHT + 5 - y p)) board p i0 j0
                Hn Hf Hi Hj Hc) as (q & Hq & F1 & F2 & F3 & F4 & F5 & F6).
    { destruct (Hf i0 j0 Hi Hj Hc) as (_ & Hy' & _).
      unfold TETRIS_HEIGHT in *. lia. }
    exists q. split; [exact Hq |]. split; [exact F1 |].
    split; [exact F5 |]. intros _. tauto. }
  exists p. split; [reflexivity | split; [exact Hf | split; [reflexivity |]]].
  intros [-> | ->]; discriminate.
Qed.

Lemma tetris_key_keeps_piece_fitting_witness :
  let board := replicate 19 (replicate 10 0) ++ [[1; 1; 1; 1; 0; 1; 1; 1; 1; 1]] in
  let p := mk_piece [[0;0;0;0]; [1;1;1;0]; [0;1;0;0]; [0;0;0;0]] 3 0 2 in
  exists q, handle_key board p "s" = Some q /\ fits board q /\
    type q = type p /\
    (("s"%char = "s"%char \/ "s"%char = "S"%char) ->
     check_collision board q 0 1 = true /\ x q = x p /\
     shape q = shape p /\ y p <= y q).
Proof.
  intros board p.
  assert (Hn : near p) by (unfold near; cbn; lia).
  apply (tetris_key_keeps_piece_fitting board p "s" Hn).
  - apply (check_collision_fits board p 0 0 Hn ltac:(lia) ltac:(lia)).
    reflexivity.
  - cbn. lia.
  - exists 1%nat, 0%nat. split; [lia | split; [lia | cbn; lia]].
Defined.

(** X2 (tetris_game).  Lines, level and falling speed after a landing that
    clears rows: the level is one more than the tens of cleared lines, and
    the interval between two falls is 1000 ms less 100 ms per level above
    the first down to 100 ms at levels 10 and 11; from level 12 on (110
    lines) the subtraction, stored in an unsigned 32-bit variable, passes
    below zero and the interval is more than 4 * 10^9 ms, which the lower
    bound of 100 ms does not catch. *)
Theorem tetris_speed_by_level (g : progress) (cleared : Z) :
  0 <= lines g <= 1000000 -> 1 <= cleared <= 4 ->
  let g' := record_cleared cleared g in
  lines g' = lines g + cleared /\
  level g' = 1 + lines g' / 10 /\
  drop_interval g' =
    (if lines g' <? 100 then 1000 - 100 * (lines g' / 10)
     else if lines g' <? 110 then 100
     else 2 ^ 32 + 1000 - 100 * (lines g' / 10)).
Proof.
  intros Hl Hc g'. subst g'. unfold record_cleared.
  destruct (Z.gtb_spec cleared 0) as [_ | ?]; [| lia]. cbn [lines level drop_interval].
  rewrite (wrap32_small (lines g + cleared)) by lia.
  rewrite Z.quot_div_nonneg by lia.
  assert (Hq : 0 <= (lines g + cleared) / 10 <= 100001)
    by (Z.to_euclidean_division_equations; lia).
  rewrite (wrap32_small (1 + _)) by lia.
  split; [reflexivity |]. split; [reflexivity |].
  unfold drop_interval_for.
  replace (1 + (lines g + cleared) / 10 - 1) with ((lines g + cleared) / 10) by lia.
  rewrite (wrap32_small ((lines g + cleared) / 10)) by lia.
  rewrite (wrap32_small (_ * 100)) by lia.
  rewrite (wrap32_small (1000 - _)) by lia.
  unfold u32. change (2 ^ 32) with 4294967296.
  destruct (Z.ltb_spec (lines g + cleared) 100).
  - assert ((lines g + cleared) / 10 <= 9)
      by (Z.to_euclidean_division_equations; lia).
    rewrite Z.mod_small by lia.
    destruct (Z.ltb_spec (1000 - (lines g + cleared) / 10 * 100) 100); lia.
  - destruct (Z.ltb_spec (lines g + cleared) 110).
    + assert ((lines g + cleared) / 10 = 10)
        by (Z.to_euclidean_division_equations; lia).
      replace (1000 - (lines g + cleared) / 10 * 100) with 0 by lia.
      reflexivity.
    + assert (11 <= (lines g + cleared) / 10)
        by (Z.to_euclidean_division_equations; lia).
      replace ((1000 - (lines g + cleared) / 10 * 100) mod 4294967296)
        with (4294967296 + 1000 - 100 * ((lines g + cleared) / 10)).
      * destruct (Z.ltb_spec
          (4294967296 + 1000 - 100 * ((lines g + cleared) / 10)) 100); lia.
      * apply Z.mod_unique with (q := -1); lia.
Qed.

Lemma tetris_speed_by_level_witness :
  drop_interval (record_cleared 4 (mk_progress 12100 11 106 100)) = 4294967196.
Proof.
  apply (tetris_speed_by_level (mk_progress 12100 11 106 100) 4); cbn; lia.
Defined.
End TetrisMoves.

Section TetrisMerge.
Import CInt ShellOS TetrisSpec TetrisGame.

Lemma is_board_set_cell b y0 x0 v :
  is_board b -> is_board (set_cell b y0 x0 v).
Proof.
  intros [Hl Hr]. unfold set_cell.
  destruct (b !! y0) as [row |] eqn:E; [| split; assumption].
  split.
  - rewrite length_insert. exact Hl.
  - apply Forall_insert; [exact Hr |].
    rewrite length_insert. exact (Forall_lookup_1 _ _ _ _ Hr E).
Qed.

Lemma cell_set_cell b y0 x0 v r c :
  is_board b -> (y0 < 20)%nat -> (x0 < 10)%nat ->
  cell (set_cell b y0 x0 v) r c =
  if (r =? y0)%nat && (c =? x0)%nat then v else cell b r c.
Proof.
  intros [Hl Hr] Hy Hx. unfold set_cell.
  change (Z.to_nat TETRIS_HEIGHT) with 20%nat in Hl.
  destruct (b !! y0) as [row |] eqn:E.
  2:{ apply lookup_ge_None in E. lia. }
  assert (Hrow : length row = 10%nat) by exact (Forall_lookup_1 _ _ _ _ Hr E).
  unfold cell. rewrite list_lookup_insert.
  destruct (Nat.eqb_spec r y0) as [-> | Hne].
  - destruct (decide (y0 = y0 /\ (y0 < length b)%nat)) as [_ | n];
      [| exfalso; apply n; split; [reflexivity | lia]].
    rewrite list_lookup_insert. cbn [andb].
    destruct (Nat.eqb_spec c x0) as [-> | Hc].
    + destruct (decide (x0 = x0 /\ (x0 < length row)%nat)) as [_ | n];
        [reflexivity | exfalso; apply n; split; [reflexivity | lia]].
    + destruct (decide (x0 = c /\ (x0 < length row)%nat)) as [[? _] | _];
        [congruence |]. rewrite E. reflexivity.
  - cbn [andb].
    destruct (decide (y0 = r /\ (y0 < length b)%nat)) as [[? _] | _];
      [congruence | reflexivity].
Qed.

Lemma filter_insert_empty (row : list Z) x0 v :
  row !! x0 = Some 0 -> v <> 0 ->
  length (List.filter (fun v => negb (v =? 0)) (<[x0 := v]> row)) =
  S (length (List.filter (fun v => negb (v =? 0)) row)).
Proof.
  intros E Hv. pose proof (lookup_lt_Some _ _ _ E) as Hlt.
  rewrite insert_take_drop by exact Hlt.
  rewrite <- (take_drop_middle _ _ _ E) at 3.
  rewrite !List.filter_app, !length_app. cbn [List.filter].
  apply Z.eqb_neq in Hv. rewrite Hv. cbn [negb Z.eqb length]. lia.
Qed.

Lemma occupied_set_cell b y0 x0 v :
  is_board b -> (y0 < 20)%nat -> (x0 < 10)%nat ->
  cell b y0 x0 = 0 -> v <> 0 ->
  occupied (set_cell b y0 x0 v) = occupied b + 1.
Proof.
  intros [Hl Hr] Hy Hx Hc Hv. unfold set_cell.
  change (Z.to_nat TETRIS_HEIGHT) with 20%nat in Hl.
  destruct (b !! y0) as [row |] eqn:E.
  2:{ apply lookup_ge_None in E. lia. }
  assert (Hrow : length row = 10%nat) by exact (Forall_lookup_1 _ _ _ _ Hr E).
  assert (E0 : row !! x0 = Some 0).
  { unfold cell in Hc. rewrite E in Hc.
    destruct (row !! x0) as [w |] eqn:Ex; [congruence |].
    apply lookup_ge_None in Ex. lia. }
  rewrite insert_take_drop by lia.
  rewrite <- (take_drop_middle _ _ _ E) at 3.
  rewrite !occupied_app, !occupied_cons.
  rewrite (filter_insert_empty row x0 v E0 Hv). lia.
Qed.

(** One pass of the inner loop of [merge_piece], cell by cell. *)
Lemma merge_row_cells p i : forall js b,
  near p -> (i < 4)%nat -> Forall (fun j => (j < 4)%nat) js -> is_board b ->
  let b' := fold_left (fun b' j => merge_cell p i j b') js b in
  is_board b' /\
  forall r c, (r < 20)%nat -> (c < 10)%nat ->
    cell b' r c =
    if existsb (fun j => negb (cell (shape p) i j =? 0)
                         && (y p + Z.of_nat i =? Z.of_nat r)
                         && (x p + Z.of_nat j =? Z.of_nat c)) js
    then type p + 1 else cell b r c.
Proof.
  intros js. induction js as [| j js IH]; intros b Hn Hi Hjs Hb.
  - cbn. split; [exact Hb | reflexivity].
  - inversion Hjs as [| ? ? Hj Hjs']; subst. cbn [fold_left existsb].
    assert (Hstep : is_board (merge_cell p i j b) /\
      forall r c, (r < 20)%nat -> (c < 10)%nat ->
        cell (merge_cell p i j b) r c =
        if negb (cell (shape p) i j =? 0)
           && (y p + Z.of_nat i =? Z.of_nat r)
           && (x p + Z.of_nat j =? Z.of_nat c)
        then type p + 1 else cell b r c).
    { unfold merge_cell.
      destruct (near_wrap p j 0 Hn Hj ltac:(lia)) as (_ & _ & Wx & _).
      destruct (near_wrap p i 0 Hn Hi ltac:(lia))
        as (_ & _ & _ & Wy & _ & _ & Wt).
      rewrite Wx, Wy, Wt. unfold TETRIS_WIDTH, TETRIS_HEIGHT.
      destruct (negb (cell (shape p) i j =? 0)); cbn [andb];
        [| split; [exact Hb | reflexivity]].
      destruct (Z.geb_spec (y p + Z.of_nat i) 0) as [Hy0 | Hy0]; cbn [andb].
      2:{ split; [exact Hb |]. intros r c Hr Hc.
          destruct (Z.eqb_spec (y p + Z.of_nat i) (Z.of_nat r)); [lia |].
          reflexivity. }
      destruct (Z.ltb_spec (y p + Z.of_nat i) 20) as [Hy1 | Hy1]; cbn [andb].
      2:{ split; [exact Hb |]. intros r c Hr Hc.
          destruct (Z.eqb_spec (y p + Z.of_nat i) (Z.of_nat r)); [lia |].
          reflexivity. }
      destruct (Z.geb_spec (x p + Z.of_nat j) 0) as [Hx0 | Hx0]; cbn [andb].
      2:{ split; [exact Hb |]. intros r c Hr Hc.
          destruct (Z.eqb_spec (x p + Z.of_nat j) (Z.of_nat c)); [lia |].
          rewrite andb_false_r. reflexivity. }
      destruct (Z.ltb_spec (x p + Z.of_nat j) 10) as [Hx1 | Hx1].
      2:{ split; [exact Hb |]. intros r c Hr Hc.
          destruct (Z.eqb_spec (x p + Z.of_nat j) (Z.of_nat c)); [lia |].
          rewrite andb_false_r. reflexivity. }
      split; [apply is_board_set_cell; exact Hb |].
      intros r c Hr Hc. rewrite cell_set_cell by (exact Hb || lia).
      destruct (Nat.eqb_spec r (Z.to_nat (y p + Z.of_nat i)));
        destruct (Z.eqb_spec (y p + Z.of_nat i) (Z.of_nat r)); try lia;
        cbn [andb]; [| reflexivity].
      destruct (Nat.eqb_spec c (Z.to_nat (x p + Z.of_nat j)));
        destruct (Z.eqb_spec (x p + Z.of_nat j) (Z.of_nat c)); try lia;
        reflexivity. }
    destruct Hstep as [Hb1 Hc1].
    destruct (IH (merge_cell p i j b) Hn Hi Hjs' Hb1) as [Hb2 Hc2].
    split; [exact Hb2 |]. intros r c Hr Hc.
    rewrite Hc2, Hc1 by assumption.
    destruct (existsb _ js); [rewrite orb_true_r; reflexivity |].
    rewrite orb_false_r. reflexivity.
Qed.

(** The whole of [merge_piece], cell by cell: a cell of the board takes
    the piece's colour when a cell of the piece lies on it and keeps its
    value otherwise. *)
Lemma merge_rows_cells p : forall rows b,
  near p -> Forall (fun i => (i < 4)%nat) rows -> is_board b ->
  let b' := fold_left (fun b i => fold_left (fun b' j => merge_cell p i j b')
                                            (seq 0 4) b) rows b in
  is_board b' /\
  forall r c, (r < 20)%nat -> (c < 10)%nat ->
    cell b' r c =
    if existsb (fun i => existsb (fun j =>
                  negb (cell (shape p) i j =? 0)
                  && (y p + Z.of_nat i =? Z.of_nat r)
                  && (x p + Z.of_nat j =? Z.of_nat c)) (seq 0 4)) rows
    then type p + 1 else cell b r c.
Proof.
  intros rows. induction rows as [| i rows IH]; intros b Hn Hrows Hb.
  - cbn. split; [exact Hb | reflexivity].
  - inversion Hrows as [| ? ? Hi Hrows']; subst. cbn [fold_left existsb].
    assert (H4 : Forall (fun j => (j < 4)%nat) (seq 0 4)).
    { apply List.Forall_forall. intros j Hj. apply in_seq in Hj. lia. }
    destruct (merge_row_cells p i (seq 0 4) b Hn Hi H4 Hb) as [Hb1 Hc1].
    destruct (IH _ Hn Hrows' Hb1) as [Hb2 Hc2].
    split; [exact Hb2 |]. intros r c Hr Hc.
    rewrite Hc2, Hc1 by assumption.
    destruct (existsb _ rows); [rewrite orb_true_r; reflexivity |].
    rewrite orb_false_r. reflexivity.
Qed.

Lemma merge_piece_cells board p :
  near p -> is_board board ->
  is_board (merge_piece board p) /\
  forall r c, (r < 20)%nat -> (c < 10)%nat ->
    cell (merge_piece board p) r c =
    if covers p r c then type p + 1 else cell board r c.
Proof.
  intros Hn Hb. apply (merge_rows_cells p (seq 0 4) board Hn); [| exact Hb].
  apply List.Forall_forall. intros j Hj. apply in_seq in Hj. lia.
Qed.

(** One pass of the inner loop, counted: every cell of row [i] of the
    piece adds one occupied cell. *)
Lemma merge_row_count p i : forall js b,
  near p -> (i < 4)%nat -> Forall (fun j => (j < 4)%nat) js -> NoDup js ->
  is_board b -> 0 <= y p ->
  (forall j, In j js -> cell (shape p) i j <> 0 ->
     0 <= x p + Z.of_nat j < TETRIS_WIDTH /\
     y p + Z.of_nat i < TETRIS_HEIGHT /\
     cell b (Z.to_nat (y p + Z.of_nat i)) (Z.to_nat (x p + Z.of_nat j)) = 0) ->
  occupied (fold_left (fun b' j => merge_cell p i j b') js b) =
  occupied b
  + Z.of_nat (length (List.filter
                        (fun j => negb (cell (shape p) i j =? 0)) js)).
Proof.
  intros js. induction js as [| j js IH]; intros b Hn Hi Hjs Hnd Hb Hy Hfree.
  - cbn. lia.
  - inversion Hjs as [| ? ? Hj Hjs']; subst.
    inversion Hnd as [| ? ? Hnin Hnd']; subst.
    cbn [fold_left List.filter].
    assert (H1 : Forall (fun j => (j < 4)%nat) [j]) by (constructor; auto).
    destruct (merge_row_cells p i [j] b Hn Hi H1 Hb) as [Hb1 Hc1].
    cbn [fold_left existsb] in Hb1, Hc1.
    rewrite IH; try assumption.
    + unfold TETRIS_WIDTH, TETRIS_HEIGHT in Hfree.
      destruct (Z.eqb_spec (cell (shape p) i j) 0) as [E | E]; cbn [negb length].
      * unfold merge_cell. apply Z.eqb_eq in E. rewrite E. cbn [negb]. lia.
      * destruct (Hfree j (or_introl eq_refl) E) as (Hx & Hy' & H0).
        unfold merge_cell. apply Z.eqb_neq in E. rewrite E. cbn [negb].
        destruct (near_wrap p j 0 Hn Hj ltac:(lia)) as (_ & _ & Wx & _).
        destruct (near_wrap p i 0 Hn Hi ltac:(lia))
          as (_ & _ & _ & Wy & _ & _ & Wt).
        rewrite Wx, Wy, Wt. unfold TETRIS_WIDTH, TETRIS_HEIGHT.
        destruct (Z.geb_spec (y p + Z.of_nat i) 0); [| lia].
        destruct (Z.ltb_spec (y p + Z.of_nat i) 20); [| lia].
        destruct (Z.geb_spec (x p + Z.of_nat j) 0); [| lia].
        destruct (Z.ltb_spec (x p + Z.of_nat j) 10); [| lia].
        cbn [andb]. rewrite occupied_set_cell; try assumption; try lia.
        destruct Hn as (_ & _ & Ht). lia.
    + intros j' Hj' E'. destruct (Hfree j' (or_intror Hj') E') as (Hx & Hy' & H0).
      split; [exact Hx | split; [exact Hy' |]].
      unfold TETRIS_WIDTH, TETRIS_HEIGHT in Hx, Hy'.
      rewrite Hc1 by lia. rewrite orb_false_r.
      assert (j' <> j) by (intros ->; apply Hnin, list_elem_of_In; exact Hj').
      destruct (Z.eqb_spec (x p + Z.of_nat j)
                  (Z.of_nat (Z.to_nat (x p + Z.of_nat j')))); [lia |].
      rewrite andb_false_r. exact H0.
Qed.

Lemma merge_rows_count p : forall rows b,
  near p -> Forall (fun i => (i < 4)%nat) rows -> NoDup rows ->
  is_board b -> 0 <= y p ->
  (forall i j, In i rows -> (j < 4)%nat -> cell (shape p) i j <> 0 ->
     0 <= x p + Z.of_nat j < TETRIS_WIDTH /\
     y p + Z.of_nat i < TETRIS_HEIGHT /\
     cell b (Z.to_nat (y p + Z.of_nat i)) (Z.to_nat (x p + Z.of_nat j)) = 0) ->
  occupied (fold_left (fun b i => fold_left (fun b' j => merge_cell p i j b')
                                            (seq 0 4) b) rows b) =
  occupied b
  + Z.of_nat (length (flat_map
       (fun i => List.filter (fun j => negb (cell (shape p) i j =? 0))
                             (seq 0 4)) rows)).
Proof.
  intros rows. induction rows as [| i rows IH]; intros b Hn Hrows Hnd Hb Hy Hfree.
  - cbn. lia.
  - inversion Hrows as [| ? ? Hi Hrows']; subst.
    inversion Hnd as [| ? ? Hnin Hnd']; subst.
    cbn [fold_left flat_map]. rewrite length_app.
    assert (H4 : Forall (fun j => (j < 4)%nat) (seq 0 4)).
    { apply List.Forall_forall. intros j Hj. apply in_seq in Hj. lia. }
    destruct (merge_row_cells p i (seq 0 4) b Hn Hi H4 Hb) as [Hb1 Hc1].
    rewrite IH; try assumption.
    + rewrite (merge_row_count p i (seq 0 4) b); try assumption.
      * lia.
      * apply NoDup_seq.
      * intros j Hj E. apply in_seq in Hj.
        apply (Hfree i j (or_introl eq_refl)); [lia | exact E].
    + intros i' j' Hi' Hj' E'.
      destruct (Hfree i' j' (or_intror Hi') Hj' E') as (Hx & Hy' & H0).
      split; [exact Hx | split; [exact Hy' |]].
      unfold TETRIS_WIDTH, TETRIS_HEIGHT in Hx, Hy'.
      rewrite Hc1 by lia.
      assert (i' <> i) by (intros ->; apply Hnin, list_elem_of_In; exact Hi').
      assert (Hno : existsb (fun j =>
                  negb (cell (shape p) i j =? 0)
                  && (y p + Z.of_nat i =? Z.of_nat (Z.to_nat (y p + Z.of_nat i')))
                  && (x p + Z.of_nat j =? Z.of_nat (Z.to_nat (x p + Z.of_nat j'))))
                (seq 0 4) = false).
      { apply existsb_false_iff. intros j _.
        destruct (Z.eqb_spec (y p + Z.of_nat i)
                    (Z.of_nat (Z.to_nat (y p + Z.of_nat i')))); [lia |].
        rewrite andb_false_r. reflexivity. }
      rewrite Hno. exact H0.
Qed.

Lemma row_cells_count (row : list Z) :
  length row = 4%nat ->
  length (List.filter (fun j => negb (match row !! j with Some v => v | None => 0 end =? 0))
                      (seq 0 4)) =
  length (List.filter (fun v => negb (v =? 0)) row).
Proof.
  intros H. destruct row as [| a [| b [| c [| d [| ? ?]]]]]; try discriminate.
  cbn. destruct (a =? 0), (b =? 0), (c =? 0), (d =? 0); reflexivity.
Qed.

Lemma shape_cells_count p :
  is_piece p ->
  Z.of_nat (length (flat_map
       (fun i => List.filter (fun j => negb (cell (shape p) i j =? 0))
                             (seq 0 4)) (seq 0 4))) =
  occupied (shape p).
Proof.
  intros [Hl Hr]. destruct (shape p) as [| r0 [| r1 [| r2 [| r3 [| ? ?]]]]];
    try discriminate.
  inversion Hr as [| ? ? H0 Hr1]; subst.
  inversion Hr1 as [| ? ? H1 Hr2]; subst.
  inversion Hr2 as [| ? ? H2 Hr3]; subst.
  inversion Hr3 as [| ? ? H3 _]; subst.
  change (seq 0 4) with [0; 1; 2; 3]%nat at 2. cbn [flat_map].
  unfold cell. cbn [lookup list_lookup].
  rewrite !length_app, !row_cells_count by assumption.
  rewrite !occupied_cons. change (occupied []) with 0.
  cbn [length]. lia.
Qed.

Lemma covers_fits board p r c :
  fits board p -> covers p r c = true -> cell board r c = 0.
Proof.
  unfold covers. intros Hf H.
  apply existsb_exists in H. destruct H as (i & Hi & H).
  apply existsb_exists in H. destruct H as (j & Hj & H).
  apply in_seq in Hi, Hj.
  apply andb_true_iff in H. destruct H as [H Hx].
  apply andb_true_iff in H. destruct H as [Hc Hy].
  apply negb_true_iff, Z.eqb_neq in Hc. apply Z.eqb_eq in Hx, Hy.
  destruct (Hf i j ltac:(lia) ltac:(lia) Hc) as (_ & _ & H0).
  rewrite Hx, Hy, !Nat2Z.id in H0. apply H0. lia.
Qed.

(** X3 (merge_piece).  A piece that fits and lies below the top edge is
    written onto the board as it is: the board keeps its 20 x 10 size,
    a cell takes the value type + 1 exactly where a cell of the piece lies
    and keeps its value elsewhere, no occupied cell is overwritten, and the
    number of occupied cells grows by the number of cells of the piece. *)
Theorem merge_piece_writes_the_piece (board : list (list Z)) (p : TetrisPiece) :
  is_board board -> is_piece p -> near p -> fits board p -> 0 <= y p ->
  is_board (merge_piece board p) /\
  (forall r c, (r < 20)%nat -> (c < 10)%nat ->
     cell (merge_piece board p) r c =
     if covers p r c then type p + 1 else cell board r c) /\
  (forall r c, cell board r c <> 0 ->
     cell (merge_piece board p) r c = cell board r c) /\
  occupied (merge_piece board p) = occupied board + occupied (shape p).
Proof.
  intros Hb Hp Hn Hf Hy.
  destruct (merge_piece_cells board p Hn Hb) as [Hb' Hc'].
  split; [exact Hb' |]. split; [exact Hc' |]. split.
  - intros r c Hrc.
    destruct (Nat.lt_ge_cases r 20) as [Hr | Hr].
    + destruct (Nat.lt_ge_cases c 10) as [Hc | Hc].
      * rewrite Hc' by assumption.
        destruct (covers p r c) eqn:E; [| reflexivity].
        exfalso. apply Hrc. exact (covers_fits board p r c Hf E).
      * exfalso. apply Hrc. destruct Hb as [Hl Hr'].
        unfold cell. destruct (board !! r) as [row |] eqn:Er; [| reflexivity].
        assert (Hrow : length row = 10%nat)
          by exact (Forall_lookup_1 _ _ _ _ Hr' Er).
        rewrite (proj2 (lookup_ge_None row c)) by lia. reflexivity.
    + exfalso. apply Hrc. destruct Hb as [Hl _].
      change (Z.to_nat TETRIS_HEIGHT) with 20%nat in Hl.
      unfold cell. rewrite (proj2 (lookup_ge_None board r)) by lia. reflexivity.
  - unfold merge_piece. rewrite merge_rows_count; try assumption.
    + rewrite shape_cells_count by exact Hp. reflexivity.
    + apply List.Forall_forall. intros j Hj. apply in_seq in Hj. lia.
    + apply NoDup_seq.
    + intros i j Hi Hj E. apply in_seq in Hi.
      destruct (Hf i j ltac:(lia) Hj E) as (Hx & Hy' & H0).
      split; [exact Hx | split; [exact Hy' |]]. apply H0. lia.
Qed.

Lemma merge_piece_writes_the_piece_witness :
  let board := replicate 19 (replicate 10 0) ++ [[1; 1; 1; 1; 0; 1; 1; 1; 1; 1]] in
  let p := mk_piece [[0;0;0;0]; [1;1;1;0]; [0;1;0;0]; [0;0;0;0]] 3 17 2 in
  occupied (merge_piece board p) = occupied board + occupied (shape p).
Proof.
  intros board p.
  assert (Hn : near p) by (unfold near; cbn; lia).
  apply (merge_piece_writes_the_piece board p).
  - split; [reflexivity |]. repeat constructor.
  - split; [reflexivity |]. repeat constructor.
  - exact Hn.
  - apply (check_collision_fits board p 0 0 Hn ltac:(lia) ltac:(lia)).
    reflexivity.
  - cbn. lia.
Defined.

Lemma filter_length_4 (f : Z -> bool) a b c d :
  length (List.filter f [a; b; c; d]) =
  ((if f a then 1 else 0) + (if f b then 1 else 0)
   + (if f c then 1 else 0) + (if f d then 1 else 0))%nat.
Proof. cbn. destruct (f a), (f b), (f c), (f d); reflexivity. Qed.

Lemma rotate_piece_cells p :
  is_piece p ->
  is_piece (rotate_piece p) /\
  occupied (shape (rotate_piece p)) = occupied (shape p).
Proof.
  intros [Hl Hr]. unfold rotate_piece. cbn [shape].
  destruct (shape p) as [| r0 [| r1 [| r2 [| r3 [| ? ?]]]]]; try discriminate.
  inversion Hr as [| ? ? H0 Hr1]; subst.
  inversion Hr1 as [| ? ? H1 Hr2]; subst.
  inversion Hr2 as [| ? ? H2 Hr3]; subst.
  inversion Hr3 as [| ? ? H3 _]; subst.
  destruct r0 as [| a0 [| a1 [| a2 [| a3 [| ? ?]]]]]; try discriminate.
  destruct r1 as [| b0 [| b1 [| b2 [| b3 [| ? ?]]]]]; try discriminate.
  destruct r2 as [| c0 [| c1 [| c2 [| c3 [| ? ?]]]]]; try discriminate.
  destruct r3 as [| d0 [| d1 [| d2 [| d3 [| ? ?]]]]]; try discriminate.
  split.
  - split; [reflexivity |]. repeat constructor.
  - cbn [seq map cell Nat.sub lookup list_lookup].
    rewrite !occupied_cons, !filter_length_4. change (occupied []) with 0.
    lia.
Qed.

Lemma hard_drop_shape fuel : forall board p q,
  hard_drop fuel board p = Some q -> shape q = shape p.
Proof.
  induction fuel as [| fuel IH]; intros board p q H; cbn [hard_drop] in H;
    [discriminate |].
  destruct (check_collision board p 0 1); [inversion H; reflexivity |].
  apply IH in H. exact H.
Qed.

(** X4 (tetris_game, rotate_piece).  The falling piece always has four
    cells: each of the seven pieces enters as a 4 x 4 shape with four
    cells set, at column 3 of the top row, where it fits an empty board;
    turning it keeps the 4 x 4 shape and the number of cells, and no key
    changes them. *)
Theorem tetris_piece_keeps_four_cells
        (r : Z) (board : list (list Z)) (p q : TetrisPiece) (c : ascii) :
  0 <= r ->
  is_piece p ->
  handle_key board p c = Some q ->
  (is_piece (new_piece r) /\ occupied (shape (new_piece r)) = 4 /\
   x (new_piece r) = 3 /\ y (new_piece r) = 0 /\
   0 <= type (new_piece r) <= 6 /\
   check_collision (replicate 20 (replicate 10 0)) (new_piece r) 0 0 = false) /\
  is_piece (rotate_piece p) /\
  occupied (shape (rotate_piece p)) = occupied (shape p) /\
  is_piece q /\ occupied (shape q) = occupied (shape p).
Proof.
  intros Hr Hp Hk. split; [| split; [| split]].
  - unfold new_piece.
    assert (Ht : 0 <= Z.rem r 7 < 7) by (apply Z.rem_bound_pos; lia).
    assert (Hc : Z.rem r 7 = 0 \/ Z.rem r 7 = 1 \/ Z.rem r 7 = 2 \/
                 Z.rem r 7 = 3 \/ Z.rem r 7 = 4 \/ Z.rem r 7 = 5 \/
                 Z.rem r 7 = 6) by lia.
    cbn [x y type shape].
    destruct Hc as [E | [E | [E | [E | [E | [E | E]]]]]]; rewrite E;
      (split; [split; [reflexivity | repeat constructor] |]);
      repeat split; try reflexivity; try lia.
  - exact (proj1 (rotate_piece_cells p Hp)).
  - exact (proj2 (rotate_piece_cells p Hp)).
  - assert (Hs : shape q = shape p \/ shape q = shape (rotate_piece p)).
    { unfold handle_key in Hk.
      destruct (Ascii.eqb c "a" || Ascii.eqb c "A").
      { inversion Hk. destruct (check_collision board p (-1) 0); auto. }
      destruct (Ascii.eqb c "d" || Ascii.eqb c "D").
      { inversion Hk. destruct (check_collision board p 1 0); auto. }
      destruct (Ascii.eqb c "w" || Ascii.eqb c "W").
      { inversion Hk. destruct (check_collision board (rotate_piece p) 0 0);
          auto. }
      destruct (Ascii.eqb c "s" || Ascii.eqb c "S").
      { left. eapply hard_drop_shape. exact Hk. }
      inversion Hk. auto. }
    destruct (rotate_piece_cells p Hp) as [[R1 R2] R3].
    destruct Hp as [P1 P2].
    destruct Hs as [Hs | Hs]; unfold is_piece; rewrite Hs; auto.
Qed.

Lemma tetris_piece_keeps_four_cells_witness :
  occupied (shape (rotate_piece (new_piece 9))) = 4.
Proof.
  assert (Hp : is_piece (new_piece 9))
    by (split; [reflexivity | repeat constructor]).
  destruct (tetris_piece_keeps_four_cells 9 (replicate 20 (replicate 10 0))
              (new_piece 9) (new_piece 9) "x" ltac:(lia) Hp eq_refl)
    as ((_ & H4 & _) & _ & Hrot & _).
  rewrite Hrot. exact H4.
Defined.
End TetrisMerge.

(** ** ASCII clock: many ticks *)

Section ClockTicks.
Import CInt AsciiClock CalendarSpec.

Lemma days_before_year_mono y1 y2 :
  y1 <= y2 -> days_before_year y1 <= days_before_year y2.
Proof.
  intros H. unfold days_before_year, leap_years_before.
  Z.to_euclidean_division_equations. lia.
Qed.

Lemma to_seconds_year_start t :
  valid_datetime t ->
  (days_before_year (year t) - epoch_days) * 86400 <= to_seconds t.
Proof.
  intros (Hs & Hmi & Hh & Hmo & Hd & _).
  pose proof (month_bounds _ _ _ Hmo Hd) as Hb.
  unfold to_seconds, to_days. lia.
Qed.

Lemma year_before_last t :
  valid_datetime t ->
  to_seconds t < to_seconds (mk_datetime (2^31 - 1) 1 1 0 0 0 0) ->
  year t < 2^31 - 1.
Proof.
  intros Hv Hlt.
  destruct (Z.lt_ge_cases (year t) (2^31 - 1)) as [| Hge]; [assumption |].
  exfalso. pose proof (to_seconds_year_start t Hv) as H1.
  pose proof (days_before_year_mono _ _ Hge) as H2.
  assert (E : to_seconds (mk_datetime (2^31 - 1) 1 1 0 0 0 0) =
              (days_before_year (2^31 - 1) - epoch_days) * 86400)
    by reflexivity.
  lia.
Qed.

Lemma tick_time_year t :
  year t < 2^31 - 1 -> - 2^31 <= year t -> year t <= year (tick_time t).
Proof.
  intros H1 H2. unfold tick_time.
  repeat match goal with
    | |- context [if ?c then _ else _] => destruct c
    end; cbn [year]; try lia.
  rewrite wrap32_small; lia.
Qed.

(** X5 (tick_time).  Ticking the clock n times moves it n seconds on:
    from any calendar time, as long as the year 2^31 - 1 is not reached,
    the clock shows the calendar time of n seconds later, and the day of
    the week has moved on by the number of midnights passed. *)
Theorem ticks_count_seconds (t : datetime_t) (n : nat) :
  valid_datetime t -> - 2^31 <= year t ->
  to_seconds t + Z.of_nat n < to_seconds (mk_datetime (2^31 - 1) 1 1 0 0 0 0) ->
  let t' := Nat.iter n tick_time t in
  valid_datetime t' /\
  to_seconds t' = to_seconds t + Z.of_nat n /\
  dotw t' = (dotw t + ((to_seconds t + Z.of_nat n) / 86400
                       - to_seconds t / 86400)) mod 7 /\
  t' = of_seconds (to_seconds t + Z.of_nat n) (dotw t').
Proof.
  intros Hv Hy Hn t'. subst t'.
  assert (K : valid_datetime (Nat.iter n tick_time t) /\
              - 2^31 <= year (Nat.iter n tick_time t) /\
              to_seconds (Nat.iter n tick_time t) = to_seconds t + Z.of_nat n /\
              dotw (Nat.iter n tick_time t) =
                (dotw t + ((to_seconds t + Z.of_nat n) / 86400
                           - to_seconds t / 86400)) mod 7).
  { induction n as [| n IH].
    - cbn [Nat.iter]. split; [exact Hv |]. split; [exact Hy |].
      split; [cbn; lia |].
      destruct Hv as (_ & _ & _ & _ & _ & Hw).
      replace (to_seconds t + Z.of_nat 0) with (to_seconds t) by (cbn; lia).
      rewrite Z.sub_diag, Z.add_0_r, Z.mod_small by lia. reflexivity.
    - destruct IH as (Hv' & Hy' & Hs' & Hw'); [lia |].
      change (Nat.iter (S n) tick_time t)
        with (tick_time (Nat.iter n tick_time t)).
      set (u := Nat.iter n tick_time t) in *.
      assert (Hlast : year u < 2^31 - 1)
        by (apply year_before_last; [exact Hv' | lia]).
      destruct (tick_time_seconds u Hv' (conj Hy' Hlast)) as (V & S1 & W).
      split; [exact V |].
      split; [pose proof (tick_time_year u Hlast Hy'); lia |].
      split; [lia |].
      rewrite W. unfold next_dotw. rewrite Hs', Hw'.
      replace (Z.of_nat (S n)) with (Z.of_nat n + 1) by lia.
      replace (to_seconds t + (Z.of_nat n + 1))
        with (to_seconds t + Z.of_nat n + 1) by lia.
      destruct (Z.ltb_spec ((to_seconds t + Z.of_nat n) / 86400)
                           ((to_seconds t + Z.of_nat n + 1) / 86400)) as [L | L].
      + assert ((to_seconds t + Z.of_nat n + 1) / 86400 =
                (to_seconds t + Z.of_nat n) / 86400 + 1)
          by (Z.to_euclidean_division_equations; lia).
        Z.to_euclidean_division_equations; lia.
      + assert ((to_seconds t + Z.of_nat n + 1) / 86400 =
                (to_seconds t + Z.of_nat n) / 86400)
          by (Z.to_euclidean_division_equations; lia).
        congruence. }
  destruct K as (V & _ & S1 & W).
  split; [exact V |]. split; [exact S1 |]. split; [exact W |].
  rewrite <- S1, of_seconds_to_seconds by exact V.
  destruct (Nat.iter n tick_time t); reflexivity.
Qed.

Lemma ticks_count_seconds_witness :
  let t := mk_datetime 2024 2 28 3 23 59 0 in
  to_seconds (Nat.iter 90 tick_time t) = to_seconds t + 90 /\
  Nat.iter 90 tick_time t = mk_datetime 2024 2 29 4 0 0 30.
Proof.
  intros t.
  assert (Hv : valid_datetime t)
    by (repeat split; vm_compute; first [reflexivity | discriminate]).
  assert (Hy : - 2^31 <= year t) by (vm_compute; discriminate).
  assert (Hn : to_seconds t + Z.of_nat 90 <
               to_seconds (mk_datetime (2^31 - 1) 1 1 0 0 0 0))
    by (vm_compute; reflexivity).
  destruct (ticks_count_seconds t 90 Hv Hy Hn) as (_ & S1 & _).
  split; [exact S1 | vm_compute; reflexivity].
Defined.
End ClockTicks.

(** ** ASCII clock: the size of a frame *)

Section ClockFrame.
Import CInt AsciiClock CalendarSpec.

Lemma digit_row_length d r :
  0 <= d <= 9 -> (r < 5)%nat -> String.length (digit_row d r) = 5%nat.
Proof.
  intros Hd Hr.
  assert (Hc : d = 0 \/ d = 1 \/ d = 2 \/ d = 3 \/ d = 4 \/ d = 5 \/ d = 6
               \/ d = 7 \/ d = 8 \/ d = 9) by lia.
  destruct r as [| [| [| [| [| r]]]]]; [| | | | | lia];
    repeat (destruct Hc as [-> | Hc]; [reflexivity |]); subst; reflexivity.
Qed.

Lemma colon_length r : (r < 5)%nat -> String.length (nth r COLON ""%string) = 2%nat.
Proof. intros Hr. destruct r as [| [| [| [| [| r]]]]]; [| | | | | lia]; reflexivity. Qed.

Lemma d0_2_length z : 0 <= z <= 99 -> String.length (Fmt.d0 2 z) = 2%nat.
Proof.
  intros Hz. apply Nat.eqb_eq.
  apply (checked_below (fun v => (String.length (Fmt.d0 2 v) =? 2)%nat) 100);
    [vm_compute; reflexivity | lia].
Qed.

Lemma d0_4_length z : 0 <= z <= 9999 -> String.length (Fmt.d0 4 z) = 4%nat.
Proof.
  intros Hz. apply Nat.eqb_eq.
  apply (checked_below (fun v => (String.length (Fmt.d0 4 v) =? 4)%nat) 10000);
    [vm_compute; reflexivity | lia].
Qed.

Lemma d_1_length z : 0 <= z <= 9 -> String.length (Fmt.d z) = 1%nat.
Proof.
  intros Hz. apply Nat.eqb_eq.
  apply (checked_below (fun v => (String.length (Fmt.d v) =? 1)%nat) 10);
    [vm_compute; reflexivity | lia].
Qed.

Lemma clock_row_length t r :
  0 <= hour t < 24 -> 0 <= min t < 60 -> 0 <= sec t < 60 -> (r < 5)%nat ->
  String.length (clock_row t r) = 60%nat.
Proof.
  intros Hh Hm Hs Hr. unfold clock_row.
  rewrite !string_length_app.
  rewrite !digit_row_length, !colon_length
    by (first [exact Hr | Z.to_euclidean_division_equations; lia]).
  reflexivity.
Qed.

(** X6 (display_clock, pad).  Every frame of the clock has the same
    size: for a calendar time in the years 0 to 9999 each of the five
    rows of big digits is 18 spaces and 41 characters long (two short of
    the [CLOCK_WIDTH] the margin is computed from), and the whole frame has
    418 characters with the NTP label and 421 with the MANUAL label, so a
    frame printed from the home position covers the one before it as long
    as the label stays. *)
Theorem clock_frames_have_one_size (w : world) (r : nat) :
  valid_datetime (current_time w) -> 0 <= year (current_time w) <= 9999 ->
  (r < 5)%nat ->
  String.length (clock_row (current_time w) r) = (18 + 41 + 1)%nat /\
  String.length (display_clock w) =
    (if time_synced w then 418 else 421)%nat.
Proof.
  intros (Hs & Hmi & Hh & Hmo & Hd & Hw) Hy Hr.
  split; [apply clock_row_length; assumption |].
  rewrite display_clock_eq. unfold clock_face.
  cbn [seq map String.concat].
  rewrite !string_length_app.
  rewrite !clock_row_length by (first [assumption | lia]).
  assert (Hday : 1 <= day (current_time w) <= 31).
  { pose proof (days_in_month_table (year (current_time w))) as T.
    destruct (leap_day_cases (year (current_time w))) as [[_ L] | [_ L]];
      assert (Hc : month (current_time w) = 1 \/ month (current_time w) = 2 \/
                   month (current_time w) = 3 \/ month (current_time w) = 4 \/
                   month (current_time w) = 5 \/ month (current_time w) = 6 \/
                   month (current_time w) = 7 \/ month (current_time w) = 8 \/
                   month (current_time w) = 9 \/ month (current_time w) = 10 \/
                   month (current_time w) = 11 \/ month (current_time w) = 12)
        by lia;
      repeat (destruct Hc as [Hc | Hc]; [rewrite Hc in Hd; lia |]);
      rewrite Hc in Hd; lia. }
  rewrite d0_4_length, !d0_2_length, d_1_length by lia.
  destruct (time_synced w); reflexivity.
Qed.

Lemma clock_frames_have_one_size_witness :
  let w := mk_world (mk_datetime 2026 2 1 6 10 48 0) false false [] O in
  String.length (display_clock w) = 421%nat.
Proof.
  intros w.
  assert (Hv : valid_datetime (current_time w))
    by (repeat split; vm_compute; first [reflexivity | discriminate]).
  apply (clock_frames_have_one_size w 0 Hv); [cbn; lia | lia].
Defined.
End ClockFrame.

(** ** to-do-pico: what the list shows after Add and after Delete *)

Section TodoSession.
Import Todo.

Lemma c_str_word word tail :
  Forall (fun a => a <> NUL) word ->
  Fmt.c_str (word ++ NUL :: tail) = string_of_list_ascii word.
Proof.
  induction 1 as [| a word Ha _ IH]; cbn [app Fmt.c_str string_of_list_ascii].
  - reflexivity.
  - apply Ascii.eqb_neq in Ha. unfold NUL in Ha. rewrite Ha, IH. reflexivity.
Qed.

Lemma scanf_14s_word slot ws word y rest :
  Forall (fun a => isspace a = true) ws ->
  Forall (fun a => isspace a = false) word ->
  (1 <= length word <= 14)%nat ->
  length word = 14%nat \/ isspace y = true ->
  scanf_14s slot (ws ++ word ++ y :: rest) =
  Some (word ++ NUL :: drop (S (length word)) slot, y :: rest).
Proof.
  intros Hws Hword Hlen Hend. unfold scanf_14s.
  destruct word as [| a word]; [simpl in Hlen; lia |].
  inversion Hword as [| ? ? Ha Hword']; subst.
  cbn [app]. rewrite (skip_spaces_word ws a _ Hws Ha).
  change (a :: word ++ y :: rest) with ((a :: word) ++ y :: rest).
  rewrite scan_word_spec; [reflexivity | exact Hword | lia |].
  destruct Hend as [E | E]; [left; exact E | right; eauto].
Qed.



Lemma slot_take (a b : list ascii) :
  length a = SLOT -> length b = SLOT -> take SLOT b ++ drop SLOT a = b.
Proof.
  intros Ha Hb. rewrite take_ge, drop_ge by lia. apply app_nil_r.
Qed.

(** X8 (main, branch Delete).  Delete closes the gap: with two tasks,
    deleting the first makes the second, with its done mark, the only task
    listed; deleting the second leaves the first; deleting the only task
    leaves none; a number that names no stored task changes nothing and is
    not answered with OK. *)
Theorem todo_delete_then_list (st : state) (x x' : ascii) (rest : list ascii) :
  todo_invariant st ->
  (cnt st = 2 ->
   exists st',
     menu_iteration st ("4"%char :: x :: "1"%char :: x' :: rest) =
       Some (st', rest, (menu ++ "Which? " ++ "OK" ++ Fmt.nl)%string) /\
     list_tasks st' =
       (Fmt.nl ++ "Tasks:" ++ Fmt.nl ++ "1. [" ++ mark (d2 st) ++ "] "
        ++ Fmt.c_str (t2 st) ++ Fmt.nl)%string) /\
  (cnt st = 2 ->
   exists st',
     menu_iteration st ("4"%char :: x :: "2"%char :: x' :: rest) =
       Some (st', rest, (menu ++ "Which? " ++ "OK" ++ Fmt.nl)%string) /\
     list_tasks st' =
       (Fmt.nl ++ "Tasks:" ++ Fmt.nl ++ "1. [" ++ mark (d1 st) ++ "] "
        ++ Fmt.c_str (t1 st) ++ Fmt.nl)%string) /\
  (cnt st = 1 ->
   exists st',
     menu_iteration st ("4"%char :: x :: "1"%char :: x' :: rest) =
       Some (st', rest, (menu ++ "Which? " ++ "OK" ++ Fmt.nl)%string) /\
     list_tasks st' = (Fmt.nl ++ "Tasks:" ++ Fmt.nl ++ "None" ++ Fmt.nl)%string) /\
  (forall n : ascii,
     (n = "1"%char -> cnt st = 0) -> (n = "2"%char -> cnt st <> 2) ->
     menu_iteration st ("4"%char :: x :: n :: x' :: rest) =
       Some (st, rest, (menu ++ "Which? ")%string)).
Proof.
  intros (Hc & (L1 & _) & (L2 & _)).
  split; [| split; [| split]].
  - intros E. exists (mk_state (t2 st) (t2 st) (d2 st) (d2 st) 1). split.
    + unfold menu_iteration, delete_task.
      rewrite (slot_take _ _ L1 L2), E. reflexivity.
    + unfold list_tasks. cbn [cnt t1 t2 d1 d2]. cbn.
      rewrite ?string_app_empty. reflexivity.
  - intros E. exists (mk_state (t1 st) (t2 st) (d1 st) (d2 st) 1). split.
    + unfold menu_iteration, delete_task. rewrite E. reflexivity.
    + unfold list_tasks. cbn [cnt t1 t2 d1 d2]. cbn.
      rewrite ?string_app_empty. reflexivity.
  - intros E. exists (mk_state (t1 st) (t2 st) (d1 st) (d2 st) 0). split.
    + unfold menu_iteration, delete_task. rewrite E. cbn. rewrite E.
      reflexivity.
    + unfold list_tasks. cbn [cnt t1 t2 d1 d2]. reflexivity.
  - intros n H1 H2. unfold menu_iteration, delete_task.
    change (Ascii.eqb "4" "1") with false. change (Ascii.eqb "4" "2") with false.
    change (Ascii.eqb "4" "3") with false. change (Ascii.eqb "4" "4") with true.
    cbv iota.
    destruct (Ascii.eqb_spec n "1") as [E1 | E1].
    + rewrite (H1 E1). subst n. reflexivity.
    + cbn [andb]. destruct (Ascii.eqb_spec n "2") as [E2 | E2]; [| reflexivity].
      destruct (Z.eqb_spec (cnt st) 2) as [E | E]; [destruct (H2 E2 E) |].
      reflexivity.
Qed.

Lemma todo_delete_then_list_witness :
  let st := mk_state (list_ascii_of_string "milk" ++ repeat NUL 11)
                     (list_ascii_of_string "tea" ++ repeat NUL 12)
                     false true 2 in
  exists st',
    menu_iteration st (list_ascii_of_string ("4" ++ Fmt.nl ++ "1" ++ Fmt.nl)) =
      Some (st', [], (menu ++ "Which? " ++ "OK" ++ Fmt.nl)%string) /\
    list_tasks st' =
      (Fmt.nl ++ "Tasks:" ++ Fmt.nl ++ "1. [X] tea" ++ Fmt.nl)%string.
Proof.
  intros st.
  assert (Hinv : todo_invariant st).
  { split; [cbn; lia |]. split; (split; [reflexivity | cbn; lia]). }
  exact (proj1 (todo_delete_then_list st "010" "010" [] Hinv) eq_refl).
Defined.
End TodoSession.

(** ** The shell: log and clock *)

Section ShellLogAndClock.
Import CInt LibC ShellOS.

Lemma view_log_start_same st hist :
  ring_inv st hist ->
  Z.rem (wrap32 (wrap32 (log_index st - log_count st) + MAX_LOG_ENTRIES))
        MAX_LOG_ENTRIES =
  if log_count st =? MAX_LOG_ENTRIES then log_index st else 0.
Proof.
  intros (Hlen & Hidx & Hcnt & _). unfold MAX_LOG_ENTRIES.
  assert (Hn : 0 <= Z.of_nat (length hist) mod 50 < 50)
    by (apply Z.mod_pos_bound; lia).
  rewrite (wrap32_small (log_index st - log_count st)) by lia.
  rewrite wrap32_small by lia.
  rewrite Z.rem_mod_nonneg by lia.
  destruct (Z.eqb_spec (log_count st) 50) as [E | E].
  - rewrite E. replace (log_index st - 50 + 50) with (log_index st) by lia.
    apply Z.mod_small. lia.
  - assert (Z.of_nat (length hist) < 50) by lia.
    rewrite Hidx, Hcnt, (Z.mod_small (Z.of_nat (length hist)) 50) by lia.
    replace (Z.of_nat (length hist) - Z.min (Z.of_nat (length hist)) 50 + 50)
      with 50 by lia.
    reflexivity.
Qed.


Lemma substring_length_le (s : string) : forall n m,
  (String.length (String.substring n m s) <= m)%nat.
Proof.
  induction s as [| a s IH]; intros n m.
  - destruct n, m; cbn; lia.
  - destruct n as [| n].
    + destruct m as [| m]; cbn; [lia |]. specialize (IH 0%nat m). lia.
    + cbn. apply IH.
Qed.

Lemma log_line_length E msg st :
  (String.length (fst (log_line E msg st)) <= 127)%nat.
Proof.
  unfold log_line.
  destruct (get_current_time E st) as [now st1].
  destruct (now =? 0).
  - destruct (get_absolute_time E st1) as [t st2]. cbn [fst].
    unfold Fmt.truncate. apply substring_length_le.
  - cbn [fst]. unfold Fmt.truncate. apply substring_length_le.
Qed.


(** X11 (get_current_time, set_current_time).  The clock of the shell is
    the time last set plus the whole seconds the hardware timer has
    counted since: with a time set (not 0) and the timer not behind the
    reading taken when the time was set, [get_current_time] returns the
    offset plus the elapsed microseconds divided by 10^6; in particular a
    time set is the time read back in the same second. *)
Theorem clock_counts_from_the_time_set (E : env) (st : state) :
  let now := clock_us E (clock_reads st) in
  system_time_offset st <> 0 ->
  - 2^62 <= system_time_offset st < 2^62 ->
  0 <= time_sync_base st <= now -> now < 2^62 ->
  fst (get_current_time E st) =
    system_time_offset st + (now - time_sync_base st) / 1000000 /\
  (forall T, T <> 0 -> - 2^62 <= T < 2^62 ->
     0 <= now <= clock_us E (S (clock_reads st)) ->
     clock_us E (S (clock_reads st)) < 2^62 ->
     fst (get_current_time E (set_current_time E T st)) =
       T + (clock_us E (S (clock_reads st)) - now) / 1000000).
Proof.
  intros now.
  assert (K : forall off base c, off <> 0 -> - 2^62 <= off < 2^62 ->
    0 <= base <= c -> c < 2^62 ->
    wrap64 (off + u64 (Z.quot (wrap64 (c - base)) 1000) / 1000) =
    off + (c - base) / 1000000).
  { intros off base c H0 Hoff Hb Hc. unfold wrap64, u64.
    change (2 ^ 62) with 4611686018427387904 in *.
    change (2 ^ 63) with 9223372036854775808.
    change (2 ^ 64) with 18446744073709551616.
    rewrite (Z.mod_small (c - base + _)) by lia.
    replace (c - base + 9223372036854775808 - 9223372036854775808)
      with (c - base) by lia.
    rewrite Z.quot_div_nonneg by lia.
    assert (0 <= (c - base) / 1000 < 4611686018427387904)
      by (Z.to_euclidean_division_equations; lia).
    rewrite (Z.mod_small ((c - base) / 1000)) by lia.
    rewrite Z.div_div by lia. change (1000 * 1000) with 1000000.
    assert (0 <= (c - base) / 1000000 < 4611686018427387904)
      by (Z.to_euclidean_division_equations; lia).
    rewrite Z.mod_small by lia. lia. }
  intros H0 Hoff Hb Hc. split.
  - unfold get_current_time, get_absolute_time.
    rewrite (proj2 (Z.eqb_neq _ _) H0). cbn [fst].
    apply K; assumption.
  - intros T HT HTr Hclk Hclk2.
    unfold set_current_time, get_current_time, get_absolute_time.
    cbn [system_time_offset time_sync_base clock_reads fst].
    rewrite (proj2 (Z.eqb_neq _ _) HT). cbn [fst].
    apply K; first [assumption | lia].
Qed.

Lemma clock_counts_from_the_time_set_witness :
  let E := mk_env (fun k => 5000000 + 2500000 * Z.of_nat k)
                  (fun _ => mk_tm 0 0 0 1 0 70 4) (fun _ => 0) in
  let st := set_current_time E 1700000000 initial in
  fst (get_current_time E st) = 1700000002.
Proof.
  intros E st.
  assert (H : fst (get_current_time E st) =
              system_time_offset st
              + (clock_us E (clock_reads st) - time_sync_base st) / 1000000).
  { apply (clock_counts_from_the_time_set E st); vm_compute;
      repeat split; first [reflexivity | discriminate]. }
  rewrite H. reflexivity.
Defined.
End ShellLogAndClock.

(** ** The shell: reading a line *)

Section ReadLine.
Import CInt ShellInput.

Lemma printable_not_special c :
  is_printable c = true ->
  is_newline c = false /\ is_backspace c = false /\ c <> NUL.
Proof.
  unfold is_printable, is_newline, is_backspace. cbv zeta. intros H.
  apply andb_true_iff in H. destruct H as [H1 H2].
  apply Nat.leb_le in H1. apply Nat.ltb_lt in H2.
  split; [| split].
  - apply orb_false_iff. split; apply Nat.eqb_neq; lia.
  - apply orb_false_iff. split; apply Nat.eqb_neq; lia.
  - intros ->. change (nat_of_ascii NUL) with 0%nat in H1. lia.
Qed.

Lemma edit_key_printable line c :
  Forall (fun a => is_printable a = true) line ->
  Forall (fun a => is_printable a = true) (edit_key line c).
Proof.
  intros H. unfold edit_key.
  destruct (is_backspace c).
  - destruct line as [| a line] using rev_ind; [exact H |].
    rewrite removelast_last. apply Forall_app in H. tauto.
  - destruct (is_printable c) eqn:E; [| exact H].
    apply Forall_app. split; [exact H | repeat constructor; exact E].
Qed.

Lemma edit_key_length line c :
  (length (edit_key line c) <= S (length line))%nat.
Proof.
  unfold edit_key. destruct (is_backspace c).
  - destruct line as [| a line] using rev_ind; [cbn; lia |].
    rewrite removelast_last, length_app. cbn. lia.
  - destruct (is_printable c); [rewrite length_app; cbn |]; lia.
Qed.

Lemma c_str_printable line tail :
  Forall (fun a => is_printable a = true) line ->
  Fmt.c_str (line ++ NUL :: tail) = string_of_list_ascii line.
Proof.
  induction 1 as [| a line Ha _ IH]; cbn [app Fmt.c_str string_of_list_ascii].
  - reflexivity.
  - destruct (printable_not_special a Ha) as (_ & _ & Hn).
    apply Ascii.eqb_neq in Hn. unfold NUL in Hn. rewrite Hn, IH. reflexivity.
Qed.

(** The loop on keys without a newline, while the line stays short of 255
    characters: the buffer holds the edited line up to [idx], the echo is
    that of the keys, and the terminator ends the call. *)
Lemma read_line_loop_keys echo : forall keys t rest buf idx out,
  Forall (fun c => is_newline c = false) keys -> is_newline t = true ->
  length buf = 256%nat -> (idx + length keys < 255)%nat ->
  exists buf',
    read_line_loop echo (keys ++ t :: rest) buf idx out =
      Some (buf', rest,
            (out ++ echo_of echo idx keys ++ Fmt.cr ++ Fmt.nl)%string) /\
    length buf' = 256%nat /\
    exists tail,
      buf' = fold_left edit_key keys (take idx buf) ++ NUL :: tail.
Proof.
  induction keys as [| c keys IH]; intros t rest buf idx out Hk Ht Hb Hlen.
  - cbn [app read_line_loop echo_of fold_left length] in *.
    destruct (Nat.ltb_spec idx 255) as [_ | ?]; [| lia].
    rewrite Ht. exists (<[idx := NUL]> buf). split; [reflexivity |].
    split; [rewrite length_insert; exact Hb |].
    exists (drop (S idx) buf). apply insert_take_drop. lia.
  - inversion Hk as [| ? ? Hc Hk']; subst.
    cbn [app read_line_loop echo_of fold_left length] in *.
    destruct (Nat.ltb_spec idx 255) as [_ | ?]; [| lia].
    rewrite Hc. unfold edit_key at 2.
    destruct (is_backspace c) eqn:Eb.
    + destruct idx as [| idx].
      * cbn [Nat.ltb Nat.leb].
        destruct (IH t rest buf 0%nat out Hk' Ht Hb ltac:(lia))
          as (buf' & E & L & tail & T).
        exists buf'. rewrite E. split; [reflexivity |].
        split; [exact L |]. exists tail. exact T.
      * change (0 <? S idx)%nat with true. cbv iota.
        replace (S idx - 1)%nat with idx by lia.
        destruct (IH t rest buf idx
                    (if echo then (out ++ rubout)%string else out)
                    Hk' Ht Hb ltac:(lia)) as (buf' & E & L & tail & T).
        exists buf'. rewrite E. split.
        { destruct echo; rewrite ?string_app_assoc; reflexivity. }
        split; [exact L |]. exists tail. rewrite T.
        assert (Hx : is_Some (buf !! idx)) by (apply lookup_lt_is_Some; lia).
        destruct Hx as [a Ha].
        rewrite (take_S_r buf idx a Ha), removelast_last. reflexivity.
    + destruct (is_printable c) eqn:Ep.
      * destruct (IH t rest (<[idx := c]> buf) (S idx)
                    (out ++ String (if echo then c else "*"%char) "")%string
                    Hk' Ht ltac:(rewrite length_insert; exact Hb) ltac:(lia))
          as (buf' & E & L & tail & T).
        exists buf'. rewrite E. split.
        { rewrite string_app_assoc. reflexivity. }
        split; [exact L |]. exists tail. rewrite T.
        assert (Ha : <[idx := c]> buf !! idx = Some c).
        { rewrite list_lookup_insert.
          destruct (decide (idx = idx /\ (idx < length buf)%nat)) as [_ | n];
            [reflexivity | exfalso; apply n; split; [reflexivity | lia]]. }
        rewrite (take_S_r _ idx c Ha), take_insert_ge by lia. reflexivity.
      * destruct (IH t rest buf idx out Hk' Ht Hb ltac:(lia))
          as (buf' & E & L & tail & T).
        exists buf'. rewrite E. split; [reflexivity |].
        split; [exact L |]. exists tail. exact T.
Qed.

Lemma fold_edit_printable keys : forall line,
  Forall (fun a => is_printable a = true) line ->
  Forall (fun a => is_printable a = true) (fold_left edit_key keys line).
Proof.
  induction keys as [| c keys IH]; intros line H; cbn [fold_left];
    [exact H |].
  apply IH, edit_key_printable, H.
Qed.

(** X12 (read_line).  A line typed and ended with Enter is the line
    returned: for keys other than a newline, fewer than 255 of them,
    followed by CR or LF, [read_line] returns the text the keys leave
    (printable characters appended, each backspace taking one away, other
    keys ignored), has printed the prompt, the echo of the keys (stars
    when the echo is off) and CR LF, has consumed the terminator and
    nothing behind it, and the static buffers keep their 256 bytes. *)
Theorem read_line_returns_the_line
        (prompt : string) (echo : bool) (st : buffers)
        (keys : list ascii) (t : ascii) (rest : list ascii) :
  Forall (fun c => is_newline c = false) keys -> is_newline t = true ->
  (length keys < 255)%nat ->
  length (input_buffer1 st) = 256%nat -> length (input_buffer2 st) = 256%nat ->
  exists p st',
    read_line prompt echo st (keys ++ t :: rest) =
      Some (p, st', rest,
            (prompt ++ echo_of echo 0 keys ++ Fmt.cr ++ Fmt.nl)%string) /\
    Fmt.c_str (deref st' p) = string_of_list_ascii (edit keys) /\
    Forall (fun a => is_printable a = true) (edit keys) /\
    length (input_buffer1 st') = 256%nat /\
    length (input_buffer2 st') = 256%nat.
Proof.
  intros Hk Ht Hlen L1 L2. unfold read_line.
  assert (Hp : Forall (fun a => is_printable a = true) (edit keys))
    by (apply fold_edit_printable; constructor).
  destruct (buffer_toggle st =? 0).
  - destruct (read_line_loop_keys echo keys t rest (input_buffer1 st) 0 prompt
                Hk Ht L1 ltac:(lia)) as (buf' & E & L & tail & T).
    rewrite E. eexists _, _. split; [reflexivity |].
    cbn [deref input_buffer1 input_buffer2].
    split; [| split; [exact Hp | split; assumption]].
    rewrite T. apply c_str_printable. exact Hp.
  - destruct (read_line_loop_keys echo keys t rest (input_buffer2 st) 0 prompt
                Hk Ht L2 ltac:(lia)) as (buf' & E & L & tail & T).
    rewrite E. eexists _, _. split; [reflexivity |].
    cbn [deref input_buffer1 input_buffer2].
    split; [| split; [exact Hp | split; assumption]].
    rewrite T. apply c_str_printable. exact Hp.
Qed.

Lemma read_line_returns_the_line_witness :
  exists p st',
    read_line "> " false initial_buffers
      (list_ascii_of_string ("pw" ++ String "127" "" ++ "in" ++ Fmt.cr ++ Fmt.nl)) =
      Some (p, st', list_ascii_of_string Fmt.nl,
            ("> " ++ echo_of false 0
                       (list_ascii_of_string ("pw" ++ String "127" "" ++ "in"))
             ++ Fmt.cr ++ Fmt.nl)%string) /\
    Fmt.c_str (deref st' p) = "pin"%string.
Proof.
  destruct (read_line_returns_the_line "> " false initial_buffers
              (list_ascii_of_string ("pw" ++ String "127" "" ++ "in"))
              "013"%char (list_ascii_of_string Fmt.nl))
    as (p & st' & E & C & _).
  - repeat constructor.
  - reflexivity.
  - cbn. lia.
  - reflexivity.
  - reflexivity.
  - exists p, st'. split; [exact E | exact C].
Defined.

Lemma read_line_loop_full echo : forall keys rest buf idx out,
  Forall (fun c => is_printable c = true) keys ->
  length buf = 256%nat -> (idx + length keys = 255)%nat ->
  exists tail,
    read_line_loop echo (keys ++ rest) buf idx out =
      Some (take idx buf ++ keys ++ NUL :: tail, rest,
            (out ++ echo_of echo idx keys ++ Fmt.cr ++ Fmt.nl)%string) /\
    length (take idx buf ++ keys ++ NUL :: tail) = 256%nat.
Proof.
  induction keys as [| c keys IH]; intros rest buf idx out Hk Hb Hlen.
  - cbn [app length echo_of] in *.
    assert (idx = 255%nat) by lia. subst idx.
    exists (drop 256 buf).
    assert (E : read_line_loop echo rest buf 255 out =
                Some (<[255%nat := NUL]> buf, rest,
                      (out ++ Fmt.cr ++ Fmt.nl)%string))
      by (destruct rest; reflexivity).
    rewrite E, insert_take_drop by lia. split; [reflexivity |].
    rewrite length_app, length_take. cbn [length]. rewrite length_drop. lia.
  - inversion Hk as [| ? ? Hc Hk']; subst.
    destruct (printable_not_special c Hc) as (Hn & Hbs & _).
    cbn [app read_line_loop echo_of length] in *.
    destruct (Nat.ltb_spec idx 255) as [_ | ?]; [| lia].
    rewrite Hn, Hbs, Hc.
    destruct (IH rest (<[idx := c]> buf) (S idx)
                (out ++ String (if echo then c else "*"%char) "")%string
                Hk' ltac:(rewrite length_insert; exact Hb) ltac:(lia))
      as (tail & E & L).
    assert (Ha : <[idx := c]> buf !! idx = Some c).
    { rewrite list_lookup_insert.
      destruct (decide (idx = idx /\ (idx < length buf)%nat)) as [_ | n];
        [reflexivity | exfalso; apply n; split; [reflexivity | lia]]. }
    rewrite (take_S_r _ idx c Ha), take_insert_ge in E, L by lia.
    rewrite <- app_assoc in E, L. cbn [app] in E, L.
    exists tail. rewrite E, string_app_assoc. split; [reflexivity | exact L].
Qed.

(** X13 (read_line).  A line of 255 characters ends by itself: after 255
    printable characters [read_line] returns them without reading a
    terminator, so the Enter key typed behind them, and whatever follows,
    is left for the next read. *)
Theorem read_line_full_line_leaves_the_terminator
        (prompt : string) (echo : bool) (st : buffers)
        (keys rest : list ascii) :
  Forall (fun c => is_printable c = true) keys -> length keys = 255%nat ->
  length (input_buffer1 st) = 256%nat -> length (input_buffer2 st) = 256%nat ->
  exists p st',
    read_line prompt echo st (keys ++ rest) =
      Some (p, st', rest,
            (prompt ++ echo_of echo 0 keys ++ Fmt.cr ++ Fmt.nl)%string) /\
    Fmt.c_str (deref st' p) = string_of_list_ascii keys /\
    length (input_buffer1 st') = 256%nat /\
    length (input_buffer2 st') = 256%nat.
Proof.
  intros Hk Hlen L1 L2. unfold read_line.
  destruct (buffer_toggle st =? 0).
  - destruct (read_line_loop_full echo keys rest (input_buffer1 st) 0 prompt
                Hk L1 ltac:(lia)) as (tail & E & L).
    rewrite E. eexists _, _. split; [reflexivity |].
    cbn [deref input_buffer1 input_buffer2 take app] in *.
    split; [apply c_str_printable; exact Hk | split; assumption].
  - destruct (read_line_loop_full echo keys rest (input_buffer2 st) 0 prompt
                Hk L2 ltac:(lia)) as (tail & E & L).
    rewrite E. eexists _, _. split; [reflexivity |].
    cbn [deref input_buffer1 input_buffer2 take app] in *.
    split; [apply c_str_printable; exact Hk | split; assumption].
Qed.

Lemma read_line_full_line_leaves_the_terminator_witness :
  exists p st',
    read_line "" true initial_buffers
      (repeat "a"%char 255 ++ list_ascii_of_string (Fmt.cr ++ "ls" ++ Fmt.cr)) =
      Some (p, st', list_ascii_of_string (Fmt.cr ++ "ls" ++ Fmt.cr),
            ("" ++ echo_of true 0 (repeat "a"%char 255) ++ Fmt.cr ++ Fmt.nl)%string) /\
    Fmt.c_str (deref st' p) = string_of_list_ascii (repeat "a"%char 255).
Proof.
  destruct (read_line_full_line_leaves_the_terminator "" true initial_buffers
              (repeat "a"%char 255)
              (list_ascii_of_string (Fmt.cr ++ "ls" ++ Fmt.cr)))
    as (p & st' & E & C & _).
  - apply List.Forall_forall. intros c Hc. apply repeat_spec in Hc. subst c.
    reflexivity.
  - apply repeat_length.
  - reflexivity.
  - reflexivity.
  - exists p, st'. split; [exact E | exact C].
Defined.

(** X14 (read_line).  Two lines read one after the other do not share
    their buffer: the second call returns the other buffer and leaves the
    first line as it was, and the call after that returns the buffer of
    the first again. *)
Theorem read_line_alternates_buffers
        (st st1 st2 : buffers) (b1 b2 : buffer_ptr)
        (p1 p2 : string) (e1 e2 : bool)
        (inp inp1 inp2 : list ascii) (o1 o2 : string) :
  buffer_toggle st = 0 \/ buffer_toggle st = 1 ->
  read_line p1 e1 st inp = Some (b1, st1, inp1, o1) ->
  read_line p2 e2 st1 inp1 = Some (b2, st2, inp2, o2) ->
  b1 <> b2 /\ deref st2 b1 = deref st1 b1 /\
  buffer_toggle st2 = buffer_toggle st /\
  (forall p3 e3 inp3 b3 st3 rest3 o3,
     read_line p3 e3 st2 inp3 = Some (b3, st3, rest3, o3) -> b3 = b1).
Proof.
  intros Ht H1 H2. unfold read_line in H1, H2.
  destruct (read_line_loop e1 inp _ 0 p1) as [[[buf1 r1] out1] |];
    [| discriminate].
  destruct Ht as [Ht | Ht]; rewrite Ht in H1; cbn in H1;
    inversion H1; subst; clear H1; cbn in H2;
    destruct (read_line_loop e2 inp1 _ 0 p2) as [[[buf2 r2] out2] |];
    try discriminate; inversion H2; subst; clear H2; cbn.
  - split; [discriminate |]. split; [reflexivity |].
    split; [symmetry; exact Ht |].
    intros p3 e3 inp3 b3 st3 rest3 o3 H3. unfold read_line in H3. cbn in H3.
    destruct (read_line_loop e3 inp3 _ 0 p3) as [[[buf3 r3] out3] |];
      [| discriminate].
    inversion H3; reflexivity.
  - split; [discriminate |]. split; [reflexivity |].
    split; [symmetry; exact Ht |].
    intros p3 e3 inp3 b3 st3 rest3 o3 H3. unfold read_line in H3. cbn in H3.
    destruct (read_line_loop e3 inp3 _ 0 p3) as [[[buf3 r3] out3] |];
      [| discriminate].
    inversion H3; reflexivity.
Qed.

Lemma read_line_alternates_buffers_witness :
  let ssid := list_ascii_of_string ("home" ++ Fmt.cr) in
  let pass := list_ascii_of_string ("secret" ++ Fmt.cr) in
  exists b1 st1 o1 b2 st2 o2,
    read_line "SSID: " true initial_buffers (ssid ++ pass) =
      Some (b1, st1, pass, o1) /\
    read_line "Password: " false st1 pass = Some (b2, st2, [], o2) /\
    b1 <> b2 /\
    Fmt.c_str (deref st2 b1) = "home"%string /\
    Fmt.c_str (deref st2 b2) = "secret"%string.
Proof.
  intros ssid pass.
  destruct (read_line "SSID: " true initial_buffers (ssid ++ pass))
    as [[[[b1 st1] r1] o1] |] eqn:E1; [| discriminate].
  assert (R1 : r1 = pass) by (vm_compute in E1; inversion E1; reflexivity).
  subst r1.
  destruct (read_line "Password: " false st1 pass)
    as [[[[b2 st2] r2] o2] |] eqn:E2;
    [| vm_compute in E1; inversion E1; subst; discriminate].
  assert (R2 : r2 = []).
  { vm_compute in E1. inversion E1; subst. vm_compute in E2.
    inversion E2; reflexivity. }
  subst r2.
  destruct (read_line_alternates_buffers initial_buffers st1 st2 b1 b2
              "SSID: " "Password: " true false (ssid ++ pass) pass [] o1 o2
              (or_introl eq_refl) E1 E2) as (Hne & Hkeep & _).
  exists b1, st1, o1, b2, st2, o2.
  split; [reflexivity |]. split; [exact E2 |]. split; [exact Hne |].
  vm_compute in E1. inversion E1; subst. vm_compute in E2.
  inversion E2; subst. split; reflexivity.
Defined.

Lemma fold_edit_plain line : forall acc,
  Forall (fun c => is_printable c = true) line ->
  fold_left edit_key line acc = acc ++ line.
Proof.
  induction line as [| c line IH]; intros acc H; cbn [fold_left].
  - rewrite app_nil_r. reflexivity.
  - inversion H as [| ? ? Hc H']; subst.
    destruct (printable_not_special c Hc) as (_ & Hb & _).
    rewrite IH by exact H'. unfold edit_key. rewrite Hb, Hc.
    rewrite <- app_assoc. reflexivity.
Qed.

(** A line of printable characters, read whole. *)
Lemma read_line_plain prompt echo st line t rest :
  Forall (fun c => is_printable c = true) line -> is_newline t = true ->
  (length line < 255)%nat ->
  length (input_buffer1 st) = 256%nat -> length (input_buffer2 st) = 256%nat ->
  exists p st' out,
    read_line prompt echo st (line ++ t :: rest) = Some (p, st', rest, out) /\
    list_ascii_of_string (Fmt.c_str (deref st' p)) = line /\
    length (input_buffer1 st') = 256%nat /\
    length (input_buffer2 st') = 256%nat.
Proof.
  intros Hl Ht Hlen L1 L2.
  assert (Hk : Forall (fun c => is_newline c = false) line).
  { eapply Forall_impl; [exact Hl |]. intros c Hc.
    exact (proj1 (printable_not_special c Hc)). }
  unfold read_line.
  destruct (buffer_toggle st =? 0).
  - destruct (read_line_loop_keys echo line t rest (input_buffer1 st) 0 prompt
                Hk Ht L1 ltac:(lia)) as (buf' & E & L & tail & T).
    rewrite E. eexists _, _, _. split; [reflexivity |].
    cbn [deref input_buffer1 input_buffer2].
    split; [| split; assumption].
    rewrite T, fold_edit_plain by exact Hl. cbn [take app].
    rewrite c_str_printable by exact Hl.
    apply list_ascii_of_string_of_list_ascii.
  - destruct (read_line_loop_keys echo line t rest (input_buffer2 st) 0 prompt
                Hk Ht L2 ltac:(lia)) as (buf' & E & L & tail & T).
    rewrite E. eexists _, _, _. split; [reflexivity |].
    cbn [deref input_buffer1 input_buffer2].
    split; [| split; assumption].
    rewrite T, fold_edit_plain by exact Hl. cbn [take app].
    rewrite c_str_printable by exact Hl.
    apply list_ascii_of_string_of_list_ascii.
Qed.
End ReadLine.

(** ** The shell: splitting and dispatching a command *)

Section CommandLine.
Import CInt ShellInput.

Lemma skip_delims_spaces n s : skip_delims (repeat " "%char n ++ s) = skip_delims s.
Proof. induction n as [| n IH]; [reflexivity | exact IH]. Qed.

Lemma skip_delims_word w s :
  is_word w -> skip_delims (w ++ s) = w ++ s.
Proof.
  intros [Hne Hw]. destruct w as [| c w]; [contradiction |].
  inversion Hw as [| ? ? Hc _]; subst. cbn. rewrite Hc. reflexivity.
Qed.

Lemma scan_token_word w s :
  Forall (fun c => is_delim c = false) w ->
  scan_token (w ++ " "%char :: s) = (w, s).
Proof.
  induction 1 as [| c w Hc _ IH]; cbn; [reflexivity |].
  rewrite Hc, IH. reflexivity.
Qed.

Lemma scan_token_last w :
  Forall (fun c => is_delim c = false) w -> scan_token w = (w, []).
Proof.
  induction 1 as [| c w Hc _ IH]; cbn; [reflexivity |].
  rewrite Hc, IH. reflexivity.
Qed.

Lemma strtok_word n w s :
  is_word w -> strtok (repeat " "%char n ++ w ++ " "%char :: s) = Some (w, s).
Proof.
  intros Hw. unfold strtok.
  rewrite skip_delims_spaces, skip_delims_word by exact Hw.
  destruct w as [| c w]; [destruct Hw; contradiction |].
  cbn [app]. change (c :: w ++ " "%char :: s) with ((c :: w) ++ " "%char :: s).
  rewrite scan_token_word by (destruct Hw; assumption). reflexivity.
Qed.

Lemma strtok_last n w :
  is_word w -> strtok (repeat " "%char n ++ w) = Some (w, []).
Proof.
  intros Hw. unfold strtok.
  rewrite <- (app_nil_r w) at 1.
  rewrite skip_delims_spaces, skip_delims_word, app_nil_r by exact Hw.
  destruct w as [| c w]; [destruct Hw; contradiction |].
  rewrite scan_token_last by (destruct Hw; assumption). reflexivity.
Qed.

Lemma strtok_blank n : strtok (repeat " "%char n) = None.
Proof.
  unfold strtok. rewrite <- (app_nil_r (repeat _ n)), skip_delims_spaces.
  reflexivity.
Qed.

Lemma spaced_cons w g words :
  spaced ((w, g) :: words) = w ++ " "%char :: repeat " "%char g ++ spaced words.
Proof.
  unfold spaced. cbn [map concat fst snd repeat].
  rewrite <- app_assoc. reflexivity.
Qed.

Lemma parse_args_spaced : forall words room lead last,
  Forall (fun w => is_word (fst w)) words ->
  last = [] \/ is_word last ->
  parse_args room (repeat " "%char lead ++ spaced words ++ last) =
  take room (map fst words ++ (if decide (last = []) then [] else [last])).
Proof.
  induction words as [| [w g] words IH]; intros room lead last Hw Hl.
  - unfold spaced. cbn [map concat app].
    destruct room as [| room]; [destruct (decide (last = [])); reflexivity |].
    cbn [parse_args].
    destruct (decide (last = [])) as [-> | Hne].
    + rewrite app_nil_r, strtok_blank. reflexivity.
    + destruct Hl as [-> | Hl]; [contradiction |].
      rewrite strtok_last by exact Hl. destruct room; reflexivity.
  - inversion Hw as [| ? ? Hw1 Hw']; subst. cbn [fst] in Hw1.
    destruct room as [| room]; [reflexivity |].
    rewrite spaced_cons. rewrite <- !app_assoc. cbn [app].
    rewrite <- !app_assoc.
    cbn [parse_args]. rewrite strtok_word by exact Hw1.
    rewrite (IH room g last Hw' Hl). reflexivity.
Qed.

Lemma scan_token_is_word : forall s tok rest,
  scan_token s = (tok, rest) -> Forall (fun c => is_delim c = false) tok.
Proof.
  induction s as [| c s IH]; intros tok rest H; cbn in H.
  - inversion H. constructor.
  - destruct (is_delim c) eqn:E; [inversion H; constructor |].
    destruct (scan_token s) as [t r]. inversion H; subst.
    constructor; [exact E | eapply IH; reflexivity].
Qed.

Lemma skip_delims_head : forall s c r,
  skip_delims s = c :: r -> is_delim c = false.
Proof.
  induction s as [| a s IH]; intros c r H; cbn in H; [discriminate |].
  destruct (is_delim a) eqn:E; [eapply IH; exact H |].
  inversion H; subst. exact E.
Qed.

Lemma strtok_is_word s tok rest :
  strtok s = Some (tok, rest) -> is_word tok /\ (length rest < length s)%nat.
Proof.
  unfold strtok. intros H.
  destruct (skip_delims s) as [| c r] eqn:E; [discriminate |].
  pose proof (skip_delims_head s c r E) as Hc.
  assert (H1 : scan_token (c :: r) = (tok, rest)) by congruence.
  assert (H2 : exists t', tok = c :: t' /\ scan_token r = (t', rest)).
  { pose proof H1 as H1'. cbn in H1'. rewrite Hc in H1'.
    destruct (scan_token r) as [t' q']. inversion H1'; subst.
    exists t'. split; reflexivity. }
  destruct H2 as (t' & -> & H2). split.
  - split; [discriminate |]. eapply scan_token_is_word. exact H1.
  - assert (L1 : (length (c :: r) <= length s)%nat).
    { rewrite <- E. clear. induction s as [| a s IH]; cbn; [lia |].
      destruct (is_delim a); cbn in *; lia. }
    assert (L2 : forall u t q, scan_token u = (t, q) ->
                 (length q <= length u)%nat).
    { clear. induction u as [| a u IH]; intros t q H; cbn in H.
      - inversion H. cbn. lia.
      - destruct (is_delim a).
        + inversion H. cbn. lia.
        + destruct (scan_token u) as [t' q'] eqn:E. inversion H; subst.
          specialize (IH _ _ eq_refl). cbn. lia. }
    pose proof (L2 _ _ _ H2). cbn [length] in L1. lia.
Qed.

Lemma parse_args_words : forall room s,
  Forall is_word (parse_args room s) /\
  (length (parse_args room s) <= room)%nat.
Proof.
  induction room as [| room IH]; intros s; cbn [parse_args].
  - split; [constructor | cbn; lia].
  - destruct (strtok s) as [[tok rest] |] eqn:E; [| split; [constructor | cbn; lia]].
    destruct (IH rest) as [I1 I2]. split.
    + constructor; [exact (proj1 (strtok_is_word _ _ _ E)) | exact I1].
    + cbn. lia.
Qed.

(** X15 (execute_command, the strtok loop).  How a command line is split:
    the arguments are the words of the line in their order, at most 16 of
    them, whatever the number of spaces in front of, between and behind
    them; no argument is empty or holds a space. *)
Theorem command_line_is_split_into_words
        (lead : nat) (words : list (list ascii * nat)) (last : list ascii) :
  Forall (fun w => is_word (fst w)) words ->
  last = [] \/ is_word last ->
  parse_args MAX_ARGS (repeat " "%char lead ++ spaced words ++ last) =
    take MAX_ARGS (map fst words ++ (if decide (last = []) then [] else [last])) /\
  (forall s, Forall is_word (parse_args MAX_ARGS s) /\
             (length (parse_args MAX_ARGS s) <= MAX_ARGS)%nat).
Proof.
  intros Hw Hl. split.
  - apply parse_args_spaced; assumption.
  - intros s. apply parse_args_words.
Qed.

Lemma command_line_is_split_into_words_witness :
  parse_args MAX_ARGS (list_ascii_of_string "  cat   notes.txt ") =
  [list_ascii_of_string "cat"; list_ascii_of_string "notes.txt"].
Proof.
  apply (command_line_is_split_into_words 2
           [(list_ascii_of_string "cat", 2%nat);
            (list_ascii_of_string "notes.txt", 0%nat)] []).
  - repeat constructor; discriminate.
  - left. reflexivity.
Defined.

Lemma parse_two_words w1 w2 :
  is_word w1 -> is_word w2 ->
  parse_args MAX_ARGS (w1 ++ " "%char :: w2) = [w1; w2].
Proof.
  intros H1 H2.
  assert (Hw : Forall (fun w : list ascii * nat => is_word (fst w))
                      [(w1, 0%nat)])
    by (constructor; [exact H1 | constructor]).
  pose proof (parse_args_spaced [(w1, 0%nat)] MAX_ARGS 0 w2 Hw
                (or_intror H2)) as H.
  rewrite spaced_cons in H. unfold spaced in H.
  cbn [map concat repeat app] in H. rewrite <- app_assoc in H.
  cbn [app] in H. rewrite H.
  destruct (decide (w2 = [])) as [-> | _];
    [destruct H2; contradiction | reflexivity].
Qed.

Lemma parse_one_word w :
  is_word w -> parse_args MAX_ARGS w = [w].
Proof.
  intros H1.
  pose proof (parse_args_spaced [] MAX_ARGS 0 w ltac:(constructor)
                (or_intror H1)) as H.
  unfold spaced in H. cbn [map concat repeat app] in H. rewrite H.
  destruct (decide (w = [])) as [-> | _];
    [destruct H1; contradiction | reflexivity].
Qed.

Lemma execute_command_args s s' a0 a1 more more' :
  parse_args MAX_ARGS s = a0 :: a1 :: more ->
  parse_args MAX_ARGS s' = a0 :: a1 :: more' ->
  execute_command s = execute_command s'.
Proof.
  intros H H'. unfold execute_command. rewrite H, H'. reflexivity.
Qed.

Lemma execute_command_arg s s' a0 :
  parse_args MAX_ARGS s = [a0] -> parse_args MAX_ARGS s' = [a0] ->
  execute_command s = execute_command s'.
Proof.
  intros H H'. unfold execute_command. rewrite H, H'. reflexivity.
Qed.

(** X16 (execute_command).  Only the first two words of a command line
    count, and the spaces do not: a line of spaces does nothing, and any
    other line is carried out as its first word, or its first two words
    with one space between, would be.  The commands that need an argument
    (stop, cat, nano, make, delete, ping) print their usage line and call
    nothing when it is missing. *)
Theorem execute_command_reads_two_words
        (lead : nat) (words : list (list ascii * nat)) (last : list ascii) :
  Forall (fun w => is_word (fst w)) words ->
  last = [] \/ is_word last ->
  execute_command (repeat " "%char lead ++ spaced words ++ last) =
    match map fst words ++ (if decide (last = []) then [] else [last]) with
    | [] => NoCommand
    | [w] => execute_command w
    | w1 :: w2 :: _ => execute_command (w1 ++ " "%char :: w2)
    end /\
  (forall name : string,
     In name ["stop"; "cat"; "nano"; "make"; "delete"; "ping"]%string ->
     map fst words ++ (if decide (last = []) then [] else [last])
       = [list_ascii_of_string name] ->
     exists text,
       execute_command (repeat " "%char lead ++ spaced words ++ last) =
       Usage text).
Proof.
  intros Hw Hl.
  pose proof (parse_args_spaced words MAX_ARGS lead last Hw Hl) as Hp.
  assert (Hws : Forall is_word
            (map fst words ++ (if decide (last = []) then [] else [last]))).
  { apply Forall_app. split.
    - apply Forall_fmap. exact Hw.
    - destruct (decide (last = [])) as [| Hne]; [constructor |].
      destruct Hl as [-> | Hl]; [contradiction |].
      constructor; [exact Hl | constructor]. }
  assert (Hnorm : execute_command (repeat " "%char lead ++ spaced words ++ last) =
    match map fst words ++ (if decide (last = []) then [] else [last]) with
    | [] => NoCommand
    | [w] => execute_command w
    | w1 :: w2 :: _ => execute_command (w1 ++ " "%char :: w2)
    end).
  { destruct (map fst words ++ (if decide (last = []) then [] else [last]))
      as [| w1 [| w2 more]].
    - unfold execute_command. rewrite Hp. reflexivity.
    - inversion Hws as [| ? ? H1 _]; subst.
      apply (execute_command_arg _ _ w1); [exact Hp |].
      apply parse_one_word, H1.
    - inversion Hws as [| ? ? H1 Hws']; subst.
      inversion Hws' as [| ? ? H2 _]; subst.
      eapply execute_command_args; [exact Hp |].
      apply parse_two_words; assumption. }
  split; [exact Hnorm |].
  intros name Hin Hone. rewrite Hnorm, Hone.
  cbn [In] in Hin.
  repeat (destruct Hin as [<- | Hin]; [eexists; vm_compute; reflexivity |]).
  destruct Hin.
Qed.

Lemma execute_command_reads_two_words_witness :
  execute_command (list_ascii_of_string "  make   notes.txt  now ") =
  NanoEditor (list_ascii_of_string "notes.txt").
Proof.
  destruct (execute_command_reads_two_words 2
              [(list_ascii_of_string "make", 2%nat);
               (list_ascii_of_string "notes.txt", 1%nat);
               (list_ascii_of_string "now", 0%nat)] []) as [H _].
  - repeat constructor; discriminate.
  - left. reflexivity.
  - exact H.
Defined.

Lemma shell_run_app keys more st :
  shell_run (keys ++ more) st =
  let (st1, ev1) := shell_run keys st in
  let (st2, ev2) := shell_run more st1 in
  (st2, ev1 ++ ev2).
Proof.
  revert st. induction keys as [| c keys IH]; intros st; cbn [app shell_run].
  - destruct (shell_run more st). reflexivity.
  - destruct (shell_char c st) as [st1 ev1]. rewrite IH.
    destruct (shell_run keys st1) as [st2 ev2].
    destruct (shell_run more st2) as [st3 ev3].
    rewrite app_assoc. reflexivity.
Qed.

Lemma shell_run_typing : forall keys buf (idx : nat),
  Forall (fun c => is_printable c = true) keys ->
  length buf = 256%nat -> (idx <= 255)%nat ->
  let kept := take (255 - idx) keys in
  exists buf',
    shell_run keys (mk_shell buf (Z.of_nat idx)) =
      (mk_shell buf' (Z.of_nat (idx + length kept)),
       map (fun c => ShPrint (String c "")) kept) /\
    length buf' = 256%nat /\
    take (idx + length kept) buf' = take idx buf ++ kept.
Proof.
  induction keys as [| c keys IH]; intros buf idx Hk Hb Hidx kept; subst kept.
  - rewrite take_nil. cbn [shell_run length map].
    exists buf. rewrite Nat.add_0_r, app_nil_r. auto.
  - inversion Hk as [| ? ? Hc Hk']; subst.
    destruct (printable_not_special c Hc) as (Hn & Hbs & _).
    cbn [shell_run]. unfold shell_char. rewrite Hn, Hbs, Hc.
    cbn [cmd_index command_buffer].
    destruct (Z.ltb_spec (Z.of_nat idx) (256 - 1)) as [Hlt | Hge].
    + rewrite wrap32_small by lia. rewrite Nat2Z.id.
      replace (Z.of_nat idx + 1) with (Z.of_nat (S idx)) by lia.
      destruct (IH (<[idx := c]> buf) (S idx) Hk'
                  ltac:(rewrite length_insert; exact Hb) ltac:(lia))
        as (buf' & E & L & T).
      rewrite E. exists buf'.
      replace (255 - idx)%nat with (S (255 - S idx)) by lia.
      cbn [take length map].
      replace (idx + S (length (take (255 - S idx) keys)))%nat
        with (S idx + length (take (255 - S idx) keys))%nat by lia.
      split; [reflexivity |]. split; [exact L |].
      rewrite T.
      assert (Ha : <[idx := c]> buf !! idx = Some c).
      { rewrite list_lookup_insert.
        destruct (decide (idx = idx /\ (idx < length buf)%nat)) as [_ | n];
          [reflexivity | exfalso; apply n; split; [reflexivity | lia]]. }
      rewrite (take_S_r _ idx c Ha), take_insert_ge by lia.
      rewrite <- app_assoc. reflexivity.
    + assert (idx = 255%nat) by lia. subst idx.
      destruct (IH buf 255%nat Hk' Hb ltac:(lia)) as (buf' & E & L & T).
      rewrite E. exists buf'. cbn [Nat.sub take length map app] in *.
      split; [reflexivity |]. split; [exact L | exact T].
Qed.

Lemma skip_delims_suffix s :
  exists pre, s = pre ++ skip_delims s /\
              length pre = (length s - length (skip_delims s))%nat.
Proof.
  induction s as [| a s (pre & E & L)]; cbn.
  - exists []. split; reflexivity.
  - destruct (is_delim a).
    + exists (a :: pre). cbn. split; [f_equal; exact E |].
      assert (length (skip_delims s) <= length s)%nat
        by (rewrite E at 2; rewrite length_app; lia).
      lia.
    + exists []. cbn. split; [reflexivity | lia].
Qed.

Lemma scan_token_split : forall u tok rest,
  scan_token u = (tok, rest) ->
  (length tok < length u -> length u = S (length tok + length rest))%nat.
Proof.
  induction u as [| a u IH]; intros tok rest H; cbn in H.
  - inversion H. cbn. lia.
  - destruct (is_delim a).
    + inversion H. cbn. lia.
    + destruct (scan_token u) as [t' q'] eqn:E. inversion H; subst.
      specialize (IH _ _ eq_refl). cbn. lia.
Qed.

Lemma strtok_marks_length : forall calls s,
  length (strtok_marks calls s) = length s.
Proof.
  induction calls as [| calls IH]; intros s; cbn [strtok_marks];
    [reflexivity |].
  destruct (strtok s) as [[tok rest] |] eqn:E; [| reflexivity].
  destruct (Nat.ltb_spec (length s - length (skip_delims s) + length tok)
                         (length s)) as [Hlt | _]; [| reflexivity].
  rewrite length_app, length_take. cbn [length]. rewrite IH.
  unfold strtok in E. destruct (skip_delims_suffix s) as (pre & Es & Lp).
  destruct (skip_delims s) as [| c r] eqn:Ek; [discriminate |].
  assert (H1 : scan_token (c :: r) = (tok, rest)) by congruence.
  assert (Hs : length s = (length pre + length (c :: r))%nat)
    by (rewrite Es at 1; apply length_app).
  pose proof (scan_token_split _ _ _ H1) as H2. lia.
Qed.

(** X17 (shell_loop).  The command line of the shell: from an empty
    command buffer, printable characters typed and Enter make the shell
    echo the first 255 of them, print CR LF, carry out those characters as
    a command (nothing when there are none) and print the prompt, with the
    buffer empty again for the next line; the characters behind the 255th
    are dropped without echo. *)
Theorem shell_runs_the_line_typed
        (st : shell) (line : list ascii) (t : ascii) :
  cmd_index st = 0 -> length (command_buffer st) = 256%nat ->
  Forall (fun c => is_printable c = true) line -> is_newline t = true ->
  let kept := take 255 line in
  exists st',
    shell_run (line ++ [t]) st =
      (st',
       map (fun c => ShPrint (String c "")) kept
       ++ [ShPrint (Fmt.cr ++ Fmt.nl)%string]
       ++ (if decide (kept = []) then []
           else [ShExecute (execute_command kept)])
       ++ [ShPrompt]) /\
    cmd_index st' = 0 /\ length (command_buffer st') = 256%nat /\
    Fmt.c_str (command_buffer st') = ""%string.
Proof.
  intros Hi Hb Hl Ht kept.
  destruct (shell_run_typing line (command_buffer st) 0 Hl Hb ltac:(lia))
    as (buf' & E & L & T).
  cbn [Nat.sub Nat.add take app] in E, T. fold kept in E, T.
  change (255 - 0)%nat with 255%nat in E, T. fold kept in E, T.
  assert (Hlen : (length kept <= 255)%nat)
    by (unfold kept; rewrite length_take; lia).
  assert (Hkp : Forall (fun c => is_printable c = true) kept)
    by (apply Forall_take; exact Hl).
  assert (Hbuf : <[length kept := NUL]> buf' =
                 kept ++ NUL :: drop (S (length kept)) buf').
  { rewrite insert_take_drop by lia. rewrite T. reflexivity. }
  assert (Hchar :
    shell_char t (mk_shell buf' (Z.of_nat (length kept))) =
    (mk_shell
       (<[0%nat := NUL]>
          (if Z.of_nat (length kept) >? 0
           then strtok_marks (S MAX_ARGS) kept
                ++ drop (length kept)
                        (kept ++ NUL :: drop (S (length kept)) buf')
           else kept ++ NUL :: drop (S (length kept)) buf')) 0,
     [ShPrint (Fmt.cr ++ Fmt.nl)%string]
     ++ (if Z.of_nat (length kept) >? 0
         then [ShExecute (execute_command kept)] else [])
     ++ [ShPrompt])).
  { unfold shell_char. rewrite Ht. cbn [cmd_index command_buffer].
    rewrite Nat2Z.id, Hbuf.
    rewrite (c_str_printable kept _ Hkp).
    rewrite list_ascii_of_string_of_list_ascii. reflexivity. }
  set (B := kept ++ NUL :: drop (S (length kept)) buf') in *.
  set (B1 := if Z.of_nat (length kept) >? 0
             then strtok_marks (S MAX_ARGS) kept ++ drop (length kept) B
             else B) in *.
  assert (HB1 : length B1 = 256%nat).
  { assert (HB : length B = 256%nat).
    { unfold B. rewrite length_app. cbn [length]. rewrite length_drop. lia. }
    unfold B1. destruct (Z.of_nat (length kept) >? 0); [| exact HB].
    rewrite length_app, strtok_marks_length, length_drop. lia. }
  rewrite shell_run_app.
  replace st with (mk_shell (command_buffer st) (Z.of_nat 0))
    by (destruct st; cbn in *; subst; reflexivity).
  rewrite E. cbn [shell_run]. rewrite Hchar.
  exists (mk_shell (<[0%nat := NUL]> B1) 0).
  split; [| split; [reflexivity | split]].
  - f_equal. rewrite app_nil_r. f_equal. f_equal. f_equal.
    destruct (decide (kept = [])) as [Hk | Hne].
    + rewrite Hk. reflexivity.
    + destruct (Z.gtb_spec (Z.of_nat (length kept)) 0) as [_ | Hz];
        [reflexivity |].
      destruct kept; [contradiction | cbn in Hz; lia].
  - cbn [command_buffer]. rewrite length_insert. exact HB1.
  - cbn [command_buffer]. destruct B1; [discriminate | reflexivity].
Qed.

Lemma shell_runs_the_line_typed_witness :
  exists st',
    shell_run (list_ascii_of_string ("ps" ++ Fmt.cr)) initial_shell =
      (st', [ShPrint "p"; ShPrint "s"; ShPrint (Fmt.cr ++ Fmt.nl)%string;
             ShExecute ListProcesses; ShPrompt]) /\
    cmd_index st' = 0.
Proof.
  destruct (shell_runs_the_line_typed initial_shell
              (list_ascii_of_string "ps") "013"%char)
    as (st' & E & I & _).
  - reflexivity.
  - reflexivity.
  - repeat constructor.
  - reflexivity.
  - exists st'. split; [exact E | exact I].
Defined.
End CommandLine.

(** ** The shell's web server *)

Section ShellWebServer.
Import CInt Lwip ShellHttp.

Lemma strrchr_none s c :
  ~ In c s -> strrchr s c = None.
Proof.
  induction s as [| a s IH]; intros H; cbn; [reflexivity |].
  rewrite IH by (intros ?; apply H; right; assumption).
  destruct (Ascii.eqb_spec a c) as [-> | _]; [| reflexivity].
  exfalso. apply H. left. reflexivity.
Qed.

Lemma strrchr_last_dot dir ext c :
  ~ In c ext -> strrchr (dir ++ c :: ext) c = Some (c :: ext).
Proof.
  intros H. induction dir as [| a dir IH]; cbn [app strrchr].
  - rewrite (strrchr_none ext c H), Ascii.eqb_refl. reflexivity.
  - rewrite IH. reflexivity.
Qed.

(** X18 (get_mime_type).  The content type goes by what follows the last
    dot of the whole path: a path without a dot is text/plain, and a path
    ending in a dot and an extension has the type of that extension alone,
    whatever directories and dots come before. *)
Theorem mime_type_by_last_dot (dir ext : list ascii) :
  ~ In "."%char ext ->
  get_mime_type ext = "text/plain"%string /\
  get_mime_type (dir ++ "."%char :: ext) = get_mime_type ("."%char :: ext).
Proof.
  intros H. unfold get_mime_type. split.
  - rewrite (strrchr_none ext "." H). reflexivity.
  - rewrite (strrchr_last_dot dir ext "." H).
    pose proof (strrchr_last_dot [] ext "." H) as H0. cbn [app] in H0.
    rewrite H0. reflexivity.
Qed.

Lemma mime_type_by_last_dot_witness :
  get_mime_type (list_ascii_of_string "/web/v1.2/site.css") = "text/css"%string /\
  get_mime_type (list_ascii_of_string "/web/v1.2/readme") =
    "application/octet-stream"%string.
Proof.
  split.
  - destruct (mime_type_by_last_dot (list_ascii_of_string "/web/v1.2/site")
                (list_ascii_of_string "css")) as [_ H].
    + cbn. intros [H | [H | [H | []]]]; discriminate.
    + exact H.
  - reflexivity.
Defined.

Lemma truncate_short n s :
  (String.length s < n)%nat -> Fmt.truncate n s = s.
Proof.
  unfold Fmt.truncate. intros H.
  assert (K : forall m t, (String.length t <= m)%nat ->
                          String.substring 0 m t = t).
  { intros m t. revert m. induction t as [| a t IH]; intros m Hm.
    - destruct m; reflexivity.
    - destruct m as [| m]; [cbn in Hm; lia |]. cbn.
      rewrite IH by (cbn in Hm; lia). reflexivity. }
  apply K. lia.
Qed.

Local Opaque error_page file_header Fmt.truncate Fmt.d String.substring.

Lemma send_http_error_trace E code message st :
  exists data len,
    snd (send_http_error E code message st) =
    mk_state (active_connections st)
             (trace st ++ [EvTcpWrite data len; EvTcpOutput]).
Proof.
  unfold send_http_error, tcp_write, emit. cbn.
  eexists _, _. rewrite <- app_assoc. reflexivity.
Qed.

(** What [send_file_response] adds to the trace. *)
Lemma send_file_response_trace E filepath st :
  exists tr,
    snd (send_file_response E filepath st) =
      mk_state (active_connections st)
               (trace st ++ EvFileOpen filepath :: tr) /\
    count_event is_close tr =
      (if file_open_rc E filepath <? 0 then 0%nat else 1%nat) /\
    count_event is_free tr = count_event is_malloc tr /\
    (count_event is_malloc tr <= 1)%nat /\
    (1 <= count_event is_write tr <= 2)%nat /\
    Forall (fun e => match e with
                     | EvFileOpen _ | EvTcpClose | EvTcpAbort | EvPbufFree _
                     | EvTcpRecved _ | EvSleep _ | EvTcpCallbacks => False
                     | _ => True
                     end) tr.
Proof.
  unfold send_file_response.
  destruct (file_open_rc E filepath <? 0).
  { destruct (send_http_error_trace E 404 "Not Found"
                (emit (EvLog "HTTP: File not found")
                      (emit (EvFileOpen filepath) st))) as (d & l & H).
    rewrite H. cbn [emit active_connections trace].
    rewrite <- !app_assoc. cbn [app]. eexists. split; [reflexivity |].
    cbn. repeat split; try lia. repeat constructor. }
  destruct ((file_size E filepath <? 0) || (file_size E filepath >? 65536)).
  { destruct (send_http_error_trace E 500 "Internal Server Error"
                (emit EvFileClose (emit (EvFileOpen filepath) st)))
      as (d & l & H).
    rewrite H. cbn [emit active_connections trace].
    rewrite <- !app_assoc. cbn [app]. eexists. split; [reflexivity |].
    cbn. repeat split; try lia. repeat constructor. }
  destruct (malloc_ok E (wrap32 (file_size E filepath + 1))); cbn [negb].
  2:{ destruct (send_http_error_trace E 500 "Internal Server Error"
                (emit EvFileClose (emit (EvFileOpen filepath) st)))
      as (d & l & H).
    rewrite H. cbn [emit active_connections trace].
    rewrite <- !app_assoc. cbn [app]. eexists. split; [reflexivity |].
    cbn. repeat split; try lia. repeat constructor. }
  destruct (file_read_rc E filepath <? 0).
  { destruct (send_http_error_trace E 500 "Internal Server Error"
                (emit EvFree (emit EvFileClose
                   (emit (EvMalloc (wrap32 (file_size E filepath + 1)))
                         (emit (EvFileOpen filepath) st))))) as (d & l & H).
    rewrite H. cbn [emit active_connections trace].
    rewrite <- !app_assoc. cbn [app]. eexists. split; [reflexivity |].
    cbn. repeat split; try lia. repeat constructor. }
  unfold tcp_write. cbn [emit active_connections trace fst snd].
  destruct (tcp_write_rc E _ =? ERR_OK);
    cbv beta iota; unfold emit; cbn [active_connections trace fst snd];
    rewrite <- !app_assoc; cbn [app]; (eexists; split; [reflexivity |]);
    cbn; repeat split; try lia; repeat constructor.
Qed.

(** X19 (send_file_response).  Whatever the file system, the allocator
    and the network answer, a file response gives back what it took: the
    file is closed once exactly when it was opened, the buffer is freed
    once exactly when it was allocated, one or two writes go to the
    connection, and the connection count is left alone. *)
Theorem send_file_response_releases_what_it_takes
        (E : env) (filepath : list ascii) (st : state) :
  exists tr,
    snd (send_file_response E filepath st) =
      mk_state (active_connections st)
               (trace st ++ EvFileOpen filepath :: tr) /\
    count_event (is_open E) (EvFileOpen filepath :: tr) =
      count_event is_close tr /\
    count_event is_free tr = count_event is_malloc tr /\
    (1 <= count_event is_write tr <= 2)%nat.
Proof.
  destruct (send_file_response_trace E filepath st)
    as (tr & H & Hc & Hf & _ & Hw & Hall).
  exists tr. split; [exact H |]. split; [| split; assumption].
  rewrite Hc. unfold count_event. cbn [List.filter is_open].
  assert (Hno : List.filter (is_open E) tr = []).
  { clear - Hall. induction Hall as [| e tr He _ IH]; [reflexivity |].
    cbn [List.filter]. destruct e; cbn [is_open]; try exact IH.
    contradiction. }
  destruct (file_open_rc E filepath <? 0); cbn [negb length]; rewrite Hno;
    reflexivity.
Qed.

Lemma http_recv_callback_count E p err st :
  active_connections (snd (http_recv_callback E p err st)) =
  wrap32 (active_connections st - 1).
Proof.
  unfold http_recv_callback, close_connection.
  destruct p as [p |]; [| reflexivity].
  destruct (negb (err =? ERR_OK)); [reflexivity |].
  destruct (parse_request (request_text p)) as [[[method path] version] |].
  - destruct (negb (ShellInput.streq method "GET")).
    + destruct (send_http_error_trace E 405 "Method Not Allowed"
        (emit (EvLog (Fmt.truncate 256
                 ("HTTP: " ++ string_of_list_ascii method ++ " "
                  ++ string_of_list_ascii path)))
           (emit (EvPbufFree p) (emit (EvTcpRecved (tot_len p)) st))))
        as (d & l & H).
      cbn [snd emit active_connections trace] in *. rewrite H. reflexivity.
    + destruct (send_file_response_trace E (map_url path)
        (emit (EvLog (Fmt.truncate 256
                 ("HTTP: " ++ string_of_list_ascii method ++ " "
                  ++ string_of_list_ascii path)))
           (emit (EvPbufFree p) (emit (EvTcpRecved (tot_len p)) st))))
        as (tr & H & _).
      cbn [snd emit active_connections trace] in *. rewrite H. reflexivity.
  - destruct (send_http_error_trace E 400 "Bad Request"
        (emit (EvPbufFree p) (emit (EvTcpRecved (tot_len p)) st)))
        as (d & l & H).
    cbn [snd emit active_connections trace] in *. rewrite H. reflexivity.
Qed.

Lemma remove_one_late pcb held :
  holds pcb held = false -> remove_one pcb held = held.
Proof.
  unfold holds. induction held as [| q r IH]; [reflexivity |].
  cbn [existsb remove_one]. intros H. apply orb_false_iff in H.
  destruct H as [H1 H2]. rewrite H1, (IH H2). reflexivity.
Qed.

Lemma remove_one_held pcb held :
  holds pcb held = true ->
  (1 <= length held)%nat /\
  length (remove_one pcb held) = (length held - 1)%nat.
Proof.
  unfold holds. induction held as [| q r IH]; [discriminate |].
  cbn [existsb remove_one length]. intros H.
  destruct (Nat.eqb pcb q); [lia |].
  destruct (IH H) as [H1 H2]. cbn [length]. lia.
Qed.

Lemma remove_one_length pcb held :
  (length held - 1 <= length (remove_one pcb held))%nat.
Proof.
  destruct (holds pcb held) eqn:H.
  - destruct (remove_one_held _ _ H). lia.
  - rewrite (remove_one_late _ _ H). lia.
Qed.

(** The accept callback: refused, aborted or counted. *)
Lemma http_accept_callback_cases newpcb_null err st :
  - 2^31 <= active_connections st <= 4 ->
  http_accept_callback newpcb_null err st =
    if negb (err =? ERR_OK) || newpcb_null then (ERR_VAL, st)
    else if active_connections st =? 4 then (ERR_ABRT, emit EvTcpAbort st)
    else (ERR_OK,
          emit EvTcpCallbacks
            (mk_state (active_connections st + 1) (trace st))).
Proof.
  intros H. unfold http_accept_callback, MAX_HTTP_CONNECTIONS.
  destruct (negb (err =? ERR_OK) || newpcb_null); [reflexivity |].
  destruct (Z.geb_spec (active_connections st) 4),
           (Z.eqb_spec (active_connections st) 4); try lia; [reflexivity |].
  rewrite wrap32_small by lia. reflexivity.
Qed.

(** One call: the count stays at most 4 and at most the number of
    connections open, and goes down by one at most. *)
Lemma deliver_bounds E c st held :
  - 2^31 < active_connections st <= 4 ->
  active_connections st <= Z.of_nat (length held) ->
  active_connections st - 1 <= active_connections (deliver E c st) <= 4 /\
  active_connections (deliver E c st) <= Z.of_nat (length (track c st held)) /\
  (late c held = false ->
   active_connections st = Z.of_nat (length held) ->
   active_connections (deliver E c st) =
     Z.of_nat (length (track c st held))).
Proof.
  intros Hb Hh. destruct c as [newpcb err | pcb p err | pcb];
    cbn [deliver track late].
  - destruct newpcb as [pcb |];
      rewrite !http_accept_callback_cases by lia; cbn [orb negb].
    + destruct (negb (err =? ERR_OK)); cbn [orb fst snd];
        [change (ERR_VAL =? ERR_OK) with false; lia |].
      destruct (Z.eqb_spec (active_connections st) 4);
        cbn [fst snd emit active_connections].
      * change (ERR_ABRT =? ERR_OK) with false. lia.
      * change (ERR_OK =? ERR_OK) with true. cbn [length]. lia.
    + rewrite orb_true_r. cbn [snd]. lia.
  - rewrite http_recv_callback_count, wrap32_small by lia.
    pose proof (remove_one_length pcb held) as Hl.
    split; [lia |]. split; [lia |]. intros Hlate He.
    apply negb_false_iff in Hlate.
    destruct (remove_one_held _ _ Hlate). lia.
  - unfold http_err_callback.
    pose proof (remove_one_length pcb held) as Hl.
    destruct (Z.gtb_spec (active_connections st) 0) as [Hpos | Hneg];
      cbn [active_connections]; rewrite ?wrap32_small by lia.
    + split; [lia |]. split; [lia |]. intros Hlate He.
      apply negb_false_iff in Hlate.
      destruct (remove_one_held _ _ Hlate). lia.
    + split; [lia |]. split; [lia |]. intros Hlate He.
      apply negb_false_iff in Hlate.
      destruct (remove_one_held _ _ Hlate). lia.
Qed.

Lemma serve_bounds E : forall calls st held,
  Z.of_nat (length calls) - 2^31 < active_connections st <= 4 ->
  active_connections st <= Z.of_nat (length held) ->
  let r := serve E calls st held in
  active_connections st - Z.of_nat (length calls)
    <= active_connections (fst r) <= 4 /\
  active_connections (fst r) <= Z.of_nat (length (snd r)) /\
  (timely E calls st held = true ->
   active_connections st = Z.of_nat (length held) ->
   active_connections (fst r) = Z.of_nat (length (snd r))).
Proof.
  induction calls as [| c calls IH]; intros st held Hb Hh;
    cbn [serve timely length] in *.
  - cbn [fst snd]. split; [lia |]. split; [exact Hh |]. intros _ He. exact He.
  - destruct (deliver_bounds E c st held) as (H1 & H2 & H3); [lia | exact Hh |].
    destruct (IH (deliver E c st) (track c st held)) as (K1 & K2 & K3);
      [lia | exact H2 |].
    split; [lia |]. split; [exact K2 |]. intros Ht He.
    apply andb_true_iff in Ht. destruct Ht as [Hl Ht].
    apply negb_true_iff in Hl. exact (K3 Ht (H3 Hl He)).
Qed.

Lemma serve_app E : forall calls calls' st held,
  serve E (calls ++ calls') st held =
  serve E calls' (fst (serve E calls st held)) (snd (serve E calls st held)).
Proof.
  induction calls as [| c calls IH]; intros calls' st held;
    [reflexivity |].
  cbn [app serve]. apply IH.
Qed.

(** X20 (http_accept_callback, http_recv_callback, http_err_callback).
    The connection count and the connections open, over every run of
    callbacks from the start of the server (fewer than 2^31 of them, so
    that the int does not overflow): [active_connections] never exceeds
    4 and never exceeds the number of connections open at the server; an
    offer at count 4 is aborted and any offer below it is taken.  The
    count is the number of connections open, which is then at most 4,
    as long as no callback comes for a connection already closed.  The
    receive callback closes without unregistering the callbacks, and a
    receive callback that comes after the close counts the connection
    down a second time: the count falls below the number open and can be
    negative, as after one request and the peer's close, where it is -1
    with no connection open, and five connections are open at once when
    five more are offered. *)
Theorem http_connection_count_and_late_callbacks
        (E : env) (calls : list call) :
  Z.of_nat (length calls) < 2^31 ->
  let st := fst (serve E calls (mk_state 0 []) []) in
  let held := snd (serve E calls (mk_state 0 []) []) in
  active_connections st <= MAX_HTTP_CONNECTIONS /\
  active_connections st <= Z.of_nat (length held) /\
  (active_connections st = 4 ->
   http_accept_callback false ERR_OK st = (ERR_ABRT, emit EvTcpAbort st)) /\
  (active_connections st < 4 ->
   forall pcb,
     fst (http_accept_callback false ERR_OK st) = ERR_OK /\
     serve E (calls ++ [Accept (Some pcb) ERR_OK]) (mk_state 0 []) [] =
       (deliver E (Accept (Some pcb) ERR_OK) st, pcb :: held) /\
     active_connections (deliver E (Accept (Some pcb) ERR_OK) st) =
       active_connections st + 1) /\
  (timely E calls (mk_state 0 []) [] = true ->
   active_connections st = Z.of_nat (length held) /\ (length held <= 4)%nat) /\
  (forall pcb p err,
     holds pcb held = false ->
     serve E (calls ++ [Received pcb p err]) (mk_state 0 []) [] =
       (deliver E (Received pcb p err) st, held) /\
     active_connections (deliver E (Received pcb p err) st) =
       active_connections st - 1 /\
     active_connections (deliver E (Received pcb p err) st) <
       Z.of_nat (length held)) /\
  (forall request : pbuf,
     let gone :=
       serve E [Accept (Some 0%nat) ERR_OK;
                Received 0 (Some request) ERR_OK; Received 0 None ERR_OK]
             (mk_state 0 []) [] in
     let crowd :=
       serve E (map (fun pcb => Accept (Some pcb) ERR_OK) (seq 1 5))
             (fst gone) (snd gone) in
     active_connections (fst gone) = -1 /\ snd gone = [] /\
     active_connections (fst crowd) = 4 /\ length (snd crowd) = 5%nat).
Proof.
  intros Hn st held.
  destruct (serve_bounds E calls (mk_state 0 []) []) as (H1 & H2 & H3);
    [cbn [active_connections]; lia | cbn; lia |].
  cbn [active_connections] in H1. fold st held in H1, H2, H3.
  unfold MAX_HTTP_CONNECTIONS.
  split; [lia |]. split; [exact H2 |].
  split; [| split; [| split; [| split]]].
  - intros H4. rewrite http_accept_callback_cases by lia.
    rewrite H4. reflexivity.
  - intros H4 pcb. rewrite serve_app. fold st held. cbn [serve deliver track].
    rewrite !http_accept_callback_cases by lia.
    destruct (Z.eqb_spec (active_connections st) 4) as [e | _]; [lia |].
    cbn [negb orb fst snd emit active_connections].
    change (ERR_OK =? ERR_OK) with true. cbn [negb orb fst snd].
    change (ERR_OK =? ERR_OK) with true.
    split; [reflexivity |]. split; reflexivity.
  - intros Ht. specialize (H3 Ht eq_refl). split; [exact H3 | lia].
  - intros pcb p err Hl. rewrite serve_app. fold st held.
    cbn [serve deliver track]. rewrite (remove_one_late _ _ Hl).
    rewrite http_recv_callback_count, wrap32_small by lia.
    split; [reflexivity |]. split; lia.
  - intros request.
    set (gone := serve E [Accept (Some 0%nat) ERR_OK;
                          Received 0 (Some request) ERR_OK;
                          Received 0 None ERR_OK] (mk_state 0 []) []).
    assert (G : active_connections (fst gone) = -1 /\ snd gone = []).
    { unfold gone. cbn [serve deliver track fst snd].
      rewrite !http_recv_callback_count. split; reflexivity. }
    destruct G as [G1 G2]. split; [exact G1 |]. split; [exact G2 |].
    rewrite G2.
    destruct (fst gone) as [a tr]. cbn [active_connections] in G1. subst a.
    split; reflexivity.
Qed.

Lemma http_connection_count_and_late_callbacks_witness :
  let E := mk_env (fun _ => -2) (fun _ => 0) (fun _ => 0)
                  (fun _ => ""%string) (fun _ => true) (fun _ => 0) in
  let calls := [Accept (Some 7%nat) ERR_OK; Accept None ERR_OK;
                Accept (Some 8%nat) ERR_OK; Received 7 None ERR_OK] in
  Z.of_nat (length calls) < 2^31 /\
  timely E calls (mk_state 0 []) [] = true /\
  snd (serve E calls (mk_state 0 []) []) = [8%nat] /\
  active_connections (fst (serve E calls (mk_state 0 []) [])) =
    Z.of_nat (length (snd (serve E calls (mk_state 0 []) []))).
Proof.
  intros E calls.
  assert (Hn : Z.of_nat (length calls) < 2^31) by (vm_compute; reflexivity).
  destruct (http_connection_count_and_late_callbacks E calls Hn)
    as (_ & _ & _ & _ & Ht & _).
  split; [exact Hn |]. split; [reflexivity |]. split; [reflexivity |].
  exact (proj1 (Ht eq_refl)).
Defined.

Lemma take_word_spec word : forall width tail,
  Forall (fun c => Todo.isspace c = false) word ->
  (length word <= width)%nat ->
  tail = [] \/ (exists c r, tail = c :: r /\ Todo.isspace c = true) ->
  take_word width (word ++ tail) = (word, tail).
Proof.
  induction word as [| a word IH]; intros width tail Hw Hlen Ht; cbn [app].
  - destruct width as [| k]; [destruct tail; reflexivity |].
    destruct Ht as [-> | (c & r & -> & Hc)]; [reflexivity |].
    cbn. rewrite Hc. reflexivity.
  - inversion Hw as [| ? ? Ha Hw']; subst.
    destruct width as [| k]; [cbn in Hlen; lia |].
    cbn [take_word]. rewrite Ha, (IH k tail Hw' ltac:(cbn in Hlen; lia) Ht).
    reflexivity.
Qed.

Lemma sscan_word_spec word width tail :
  word <> [] -> Forall (fun c => Todo.isspace c = false) word ->
  (length word <= width)%nat ->
  tail = [] \/ (exists c r, tail = c :: r /\ Todo.isspace c = true) ->
  sscan_word width (word ++ tail) = Some (word, tail) /\
  sscan_word width (" "%char :: word ++ tail) = Some (word, tail).
Proof.
  intros Hne Hw Hlen Ht.
  assert (H : sscan_word width (word ++ tail) = Some (word, tail)).
  { unfold sscan_word. destruct word as [| a word]; [contradiction |].
    inversion Hw as [| ? ? Ha _]; subst. cbn [app Todo.skip_spaces].
    rewrite Ha. change (a :: word ++ tail) with ((a :: word) ++ tail).
    rewrite take_word_spec by assumption. reflexivity. }
  split; [exact H |]. unfold sscan_word in *. exact H.
Qed.

(** X21 (http_recv_callback).  How a request is answered: for a request
    line of three words (method of at most 15, path of at most 127,
    version of at most 15 characters), the segment is acknowledged and
    freed and the request logged with method and path in full; a method
    other than GET gets one error response and no file is opened; GET
    opens exactly the file /web/index.html for the path /, /web followed
    by the whole path otherwise; then come the pause of 10 ms and the
    close, and the connection count is one less. *)
Theorem http_request_is_mapped_to_a_file
        (E : env) (p : pbuf) (st : state)
        (method path version tail : list ascii) :
  request_text p = method ++ " "%char :: path ++ " "%char :: version ++ tail ->
  method <> [] -> path <> [] -> version <> [] ->
  Forall (fun c => Todo.isspace c = false) method ->
  Forall (fun c => Todo.isspace c = false) path ->
  Forall (fun c => Todo.isspace c = false) version ->
  (length method <= 15)%nat -> (length path <= 127)%nat ->
  (length version <= 15)%nat ->
  tail = [] \/ (exists c r, tail = c :: r /\ Todo.isspace c = true) ->
  let r := http_recv_callback E (Some p) ERR_OK st in
  let head :=
    [EvTcpRecved (tot_len p); EvPbufFree p;
     EvLog ("HTTP: " ++ string_of_list_ascii method ++ " "
            ++ string_of_list_ascii path)%string] in
  let file :=
    if ShellInput.streq path "/" then list_ascii_of_string "/web/index.html"
    else list_ascii_of_string "/web" ++ path in
  fst r = ERR_OK /\
  active_connections (snd r) = wrap32 (active_connections st - 1) /\
  exists tr,
    trace (snd r) = trace st ++ head ++ tr ++ [EvSleep 10; EvTcpClose] /\
    if ShellInput.streq method "GET"
    then exists tr', tr = EvFileOpen file :: tr' /\
                     count_event (fun e => match e with
                                           | EvFileOpen _ => true
                                           | _ => false end) tr' = 0%nat
    else exists data len, tr = [EvTcpWrite data len; EvTcpOutput].
Proof.
  intros Hreq Hm Hp Hv Wm Wp Wv Lm Lp Lv Ht r head file.
  assert (Hparse : parse_request (request_text p) = Some (method, path, version)).
  { rewrite Hreq. unfold parse_request.
    destruct (sscan_word_spec method 15 (" "%char :: path ++ " "%char :: version ++ tail)
                Hm Wm Lm) as [E1 _].
    { right. eexists _, _. split; reflexivity. }
    rewrite E1.
    destruct (sscan_word_spec path 127 (" "%char :: version ++ tail)
                Hp Wp Lp) as [_ E2].
    { right. eexists _, _. split; reflexivity. }
    rewrite E2.
    destruct (sscan_word_spec version 15 tail Hv Wv Lv Ht) as [_ E3].
    rewrite E3. reflexivity. }
  assert (Hlog : Fmt.truncate 256
                   ("HTTP: " ++ string_of_list_ascii method ++ " "
                    ++ string_of_list_ascii path) =
                 ("HTTP: " ++ string_of_list_ascii method ++ " "
                  ++ string_of_list_ascii path)%string).
  { apply truncate_short.
    rewrite !string_length_app, !string_length_of_list. cbn. lia. }
  assert (Hmap : map_url path = file).
  { unfold map_url, file. destruct (ShellInput.streq path "/"); [reflexivity |].
    apply take_ge. rewrite length_app. cbn. lia. }
  split; [subst r; unfold http_recv_callback; cbn; rewrite Hparse; reflexivity |].
  split; [apply http_recv_callback_count |].
  subst r. unfold http_recv_callback. cbn [negb Z.eqb ERR_OK].
  change (negb (ERR_OK =? ERR_OK)) with false. cbv iota.
  rewrite Hparse, Hlog, Hmap.
  destruct (ShellInput.streq method "GET"); cbn [negb].
  - destruct (send_file_response_trace E file
        (emit (EvLog ("HTTP: " ++ string_of_list_ascii method ++ " "
                      ++ string_of_list_ascii path))
           (emit (EvPbufFree p) (emit (EvTcpRecved (tot_len p)) st))))
      as (tr & H & _ & _ & _ & _ & Hall).
    rewrite H. unfold close_connection, emit.
    cbn [snd active_connections trace].
    exists (EvFileOpen file :: tr). split.
    + unfold head. rewrite <- !app_assoc. reflexivity.
    + exists tr. split; [reflexivity |].
      unfold count_event. clear - Hall.
      induction Hall as [| e tr He _ IH]; [reflexivity |].
      cbn [List.filter]. destruct e; try exact IH. contradiction.
  - destruct (send_http_error_trace E 405 "Method Not Allowed"
        (emit (EvLog ("HTTP: " ++ string_of_list_ascii method ++ " "
                      ++ string_of_list_ascii path))
           (emit (EvPbufFree p) (emit (EvTcpRecved (tot_len p)) st))))
      as (d & l & H).
    rewrite H. unfold close_connection, emit.
    cbn [snd active_connections trace].
    exists [EvTcpWrite d l; EvTcpOutput]. split.
    + unfold head. rewrite <- !app_assoc. reflexivity.
    + eexists _, _. reflexivity.
Qed.

Lemma http_request_is_mapped_to_a_file_witness :
  let E := mk_env (fun _ => -2) (fun _ => 0) (fun _ => 0)
                  (fun _ => ""%string) (fun _ => true) (fun _ => 0) in
  let line := ("GET /style.css HTTP/1.1" ++ Fmt.cr ++ Fmt.nl)%string in
  let p := mk_pbuf 25 (map byte_of_ascii (list_ascii_of_string line)) in
  exists tr,
    trace (snd (http_recv_callback E (Some p) ERR_OK (mk_state 1 []))) =
    [EvTcpRecved 25; EvPbufFree p; EvLog "HTTP: GET /style.css";
     EvFileOpen (list_ascii_of_string "/web/style.css")] ++ tr
    ++ [EvSleep 10; EvTcpClose].
Proof.
  intros E line p.
  destruct (http_request_is_mapped_to_a_file E p (mk_state 1 [])
              (list_ascii_of_string "GET") (list_ascii_of_string "/style.css")
              (list_ascii_of_string "HTTP/1.1")
              (list_ascii_of_string (Fmt.cr ++ Fmt.nl)))
    as (_ & _ & tr & Htr & Hget).
  - reflexivity.
  - discriminate.
  - discriminate.
  - discriminate.
  - repeat constructor.
  - repeat constructor.
  - repeat constructor.
  - cbn. lia.
  - cbn. lia.
  - cbn. lia.
  - right. eexists _, _. split; reflexivity.
  - change (ShellInput.streq (list_ascii_of_string "GET") "GET") with true in Hget.
    destruct Hget as (tr' & -> & _).
    exists tr'. rewrite Htr. reflexivity.
Defined.
End ShellWebServer.

(** ** Snake *)

Section SnakeGame.
Import CInt Snake.

Lemma segment_at_lookup arr i s :
  arr !! i = Some s -> segment_at arr i = s.
Proof. unfold segment_at. rewrite nth_lookup. intros ->. reflexivity. Qed.

Lemma segment_at_insert_ne arr i j s :
  i <> j -> segment_at (<[i := s]> arr) j = segment_at arr j.
Proof.
  intros H. unfold segment_at.
  rewrite !nth_lookup, list_lookup_insert_ne by exact H. reflexivity.
Qed.

(** The shifting loop moves the first [top] segments one place up and
    leaves the first where it is. *)
Lemma shift_spec : forall top arr,
  (top < length arr)%nat ->
  shift top arr = (segment_at arr 0 :: take top arr) ++ drop (S top) arr.
Proof.
  induction top as [| j IH]; intros arr Hlen; cbn [shift].
  - destruct arr as [| a arr]; [cbn in Hlen; lia |]. reflexivity.
  - rewrite IH by (rewrite length_insert; lia).
    rewrite segment_at_insert_ne by lia.
    rewrite take_insert_ge by lia.
    assert (Hj : is_Some (arr !! j)) by (apply lookup_lt_is_Some; lia).
    destruct Hj as [s Hs].
    rewrite (segment_at_lookup arr j s Hs).
    rewrite (insert_take_drop arr (S j) s) by lia.
    rewrite drop_app_length' by (rewrite length_take; lia).
    rewrite (take_S_r arr j s Hs).
    cbn [app]. rewrite <- app_assoc. reflexivity.
Qed.

Lemma shift_length top arr :
  (top < length arr)%nat -> length (shift top arr) = length arr.
Proof.
  intros H. rewrite shift_spec by exact H.
  cbn [app length]. rewrite length_app, length_take, length_drop. lia.
Qed.

Lemma on_snake_false arr len px py :
  0 <= len -> (Z.to_nat len <= length arr)%nat ->
  on_snake arr len px py = false ->
  ~ In (mk_segment px py) (take (Z.to_nat len) arr).
Proof.
  intros H0 Hlen H Hin. unfold on_snake in H.
  rewrite existsb_false_iff in H.
  apply list_elem_of_In, list_elem_of_lookup in Hin. destruct Hin as [i Hi].
  rewrite lookup_take in Hi.
  destruct (decide (i < Z.to_nat len)%nat) as [Hlt | ]; [| discriminate].
  specialize (H i ltac:(apply in_seq; lia)).
  rewrite (segment_at_lookup arr i _ Hi) in H. cbn [x y] in H.
  rewrite !Z.eqb_refl in H. discriminate.
Qed.

Lemma place_food_spec E : forall fuel g g',
  (forall k, 0 <= rand E k) ->
  place_food E fuel g = Some g' ->
  snake g' = snake g /\ snake_length g' = snake_length g /\
  dx g' = dx g /\ dy g' = dy g /\ score g' = score g /\
  move_interval g' = move_interval g /\
  pending_direction g' = pending_direction g /\
  0 <= food_x g' < SNAKE_WIDTH /\ 0 <= food_y g' < SNAKE_HEIGHT /\
  on_snake (snake g) (snake_length g) (food_x g') (food_y g') = false.
Proof.
  induction fuel as [| fuel IH]; intros g g' Hr H; cbn [place_food] in H;
    [discriminate |].
  cbn [snake snake_length] in H.
  destruct (on_snake (snake g) (snake_length g) _ _) eqn:Eon.
  - apply IH in H; [| exact Hr]. cbn in H. exact H.
  - inversion H; subst. cbn.
    pose proof (Hr (rand_calls g)). pose proof (Hr (S (rand_calls g))).
    unfold SNAKE_WIDTH, SNAKE_HEIGHT in *.
    repeat (split; [first [reflexivity | apply Z.rem_bound_pos; lia] |]).
    exact Eon.
Qed.

(** The body after a move that was due: the new head in front; without
    food the last segment dropped, with food all segments kept (or, at
    the full length of 100, the old head dropped). *)
Lemma move_snake_body E fuel now g g' :
  (forall k, 0 <= rand E k) -> game_ok g ->
  move_snake E fuel now g = Some (Running g') ->
  let h := mk_segment (x (segment_at (snake g) 0) + fst (direction g))
                      (y (segment_at (snake g) 0) + snd (direction g)) in
  let ate := (x h =? food_x g) && (y h =? food_y g) in
  in_field h /\ ~ In h (body g) /\
  (dx g', dy g') = direction g /\
  pending_direction g' = pending_direction g /\
  length (snake g') = length (snake g) /\
  (0 <= food_x g' < SNAKE_WIDTH /\ 0 <= food_y g' < SNAKE_HEIGHT) /\
  (if ate then
     if snake_length g <? SNAKE_MAX_LENGTH
     then snake_length g' = snake_length g + 1 /\
          score g' = score g + 10 /\
          move_interval g' = Z.max 50 (move_interval g - 5) /\
          body g' = h :: body g /\
          ~ In (mk_segment (food_x g') (food_y g')) (body g)
     else snake_length g' = snake_length g /\ score g' = score g /\
          move_interval g' = move_interval g /\
          body g' = h :: tl (body g) /\
          ~ In (mk_segment (food_x g') (food_y g')) (body g)
   else snake_length g' = snake_length g /\ score g' = score g /\
        move_interval g' = move_interval g /\
        food_x g' = food_x g /\ food_y g' = food_y g /\
        body g' = h :: take (Z.to_nat (snake_length g) - 1) (snake g)).
Proof.
  intros Hr (Hlen & Hl & Hf & Hnd & Hfx & Hfy & Hsc & Hmi & Hd & Hp & Hrev) H h ate.
  unfold SNAKE_MAX_LENGTH, SNAKE_WIDTH, SNAKE_HEIGHT in *.
  change (Z.to_nat 100) with 100%nat in Hlen.
  assert (Hhead : in_field (segment_at (snake g) 0)).
  { unfold body in Hf. destruct (snake g) as [| s0 arr] eqn:Es;
      [cbn in Hlen; lia |].
    replace (Z.to_nat (snake_length g)) with (S (Z.to_nat (snake_length g) - 1))
      in Hf by lia.
    cbn [take] in Hf. inversion Hf; subst. assumption. }
  destruct Hhead as [Hx Hy]. unfold SNAKE_WIDTH, SNAKE_HEIGHT in *.
  assert (Hdir : In (direction g) [(0, -1); (0, 1); (-1, 0); (1, 0)]).
  { unfold direction. cbn [In] in Hp.
    destruct Hp as [<- | [<- | [<- | [<- | []]]]]; cbn; auto. }
  unfold move_snake in H. destruct (direction g) as [dx' dy'] eqn:Edir.
  unfold SNAKE_WIDTH, SNAKE_HEIGHT, SNAKE_MAX_LENGTH in H.
  assert (Hdb : -1 <= dx' <= 1 /\ -1 <= dy' <= 1).
  { cbn [In] in Hdir.
    destruct Hdir as [Q | [Q | [Q | [Q | []]]]]; inversion Q; lia. }
  cbn [fst snd] in h.
  rewrite !wrap32_small in H by lia.
  fold h in H. change (x (segment_at (snake g) 0) + dx') with (x h) in H.
  change (y (segment_at (snake g) 0) + dy') with (y h) in H.
  destruct ((x h <? 0) || (x h >=? 20) || (y h <? 0) || (y h >=? 15)) eqn:Ewall;
    [discriminate |].
  apply orb_false_iff in Ewall. destruct Ewall as [Ewall E4].
  apply orb_false_iff in Ewall. destruct Ewall as [Ewall E3].
  apply orb_false_iff in Ewall. destruct Ewall as [E1 E2].
  assert (Hin : in_field h).
  { unfold in_field, SNAKE_WIDTH, SNAKE_HEIGHT.
    destruct (Z.ltb_spec (x h) 0), (Z.geb_spec (x h) 20),
      (Z.ltb_spec (y h) 0), (Z.geb_spec (y h) 15); try discriminate. lia. }
  destruct (on_snake (snake g) (snake_length g) (x h) (y h)) eqn:Eself;
    [discriminate |].
  assert (Hnot : ~ In h (body g)).
  { unfold body. replace h with (mk_segment (x h) (y h)) by reflexivity.
    apply on_snake_false; [lia | lia | exact Eself]. }
  split; [exact Hin |]. split; [exact Hnot |].
  assert (Ha : is_Some (snake g !! 0%nat)) by (apply lookup_lt_is_Some; lia).
  fold ate in H. destruct ate eqn:Eate; cbn [negb] in H.
  - destruct (place_food E fuel _) as [g2 |] eqn:Epf; [| discriminate].
    inversion H; subst g'; clear H.
    apply place_food_spec in Epf; [| exact Hr].
    destruct Epf as (P1 & P2 & P3 & P4 & P5 & P6 & P7 & P8 & P9 & P10).
    cbn [dx dy pending_direction snake snake_length score move_interval
         food_x food_y body].
    unfold SNAKE_WIDTH, SNAKE_HEIGHT in *.
    destruct (Z.ltb_spec (snake_length g) 100) as [Hlt | Hge].
    + cbn [snake snake_length dx dy score move_interval pending_direction]
        in P1, P2, P3, P4, P5, P6, P7.
      rewrite P1, P2, P3, P4, P5, P6, P7.
      split; [reflexivity |]. split; [reflexivity |].
      split; [rewrite length_insert, shift_length by lia; reflexivity |].
      split; [split; assumption |].
      split; [reflexivity |].
      split; [reflexivity |].
      split.
      * unfold u32. change (2 ^ 32) with 4294967296.
        rewrite Z.mod_small by lia.
        destruct (Z.ltb_spec (move_interval g - 5) 50); lia.
      * assert (Htk : take (Z.to_nat (snake_length g + 1))
                           (shift (Z.to_nat (snake_length g)) (snake g)) =
                      segment_at (snake g) 0 :: body g).
        { unfold body. rewrite shift_spec by lia.
          replace (Z.to_nat (snake_length g + 1))
            with (S (Z.to_nat (snake_length g))) by lia.
          cbn [app take]. f_equal.
          rewrite take_app_le by (rewrite length_take; lia).
          rewrite take_take. f_equal. lia. }
        split.
        -- unfold body. cbn [snake snake_length].
           rewrite shift_spec by lia.
           replace (Z.to_nat (snake_length g + 1))
             with (S (Z.to_nat (snake_length g))) by lia.
           cbn [app insert list_insert take]. f_equal.
           rewrite take_app_le by (rewrite length_take; lia).
           rewrite take_take. f_equal. lia.
        -- cbn [snake snake_length] in P10.
           apply on_snake_false in P10;
             [| lia | rewrite shift_length by lia; lia].
           rewrite Htk in P10. intros Hc. apply P10. right. exact Hc.
    + cbn [snake snake_length dx dy score move_interval pending_direction]
        in P1, P2, P3, P4, P5, P6, P7.
      rewrite P1, P2, P3, P4, P5, P6, P7.
      split; [reflexivity |]. split; [reflexivity |].
      split; [rewrite length_insert; reflexivity |].
      split; [split; assumption |].
      split; [reflexivity |]. split; [reflexivity |]. split; [reflexivity |].
      split.
      * unfold body. cbn [snake snake_length].
        destruct (snake g) as [| s0 arr] eqn:Es; [cbn in Hlen; lia |].
        replace (Z.to_nat (snake_length g))
          with (S (Z.to_nat (snake_length g) - 1)) by lia.
        reflexivity.
      * cbn [snake snake_length] in P10.
        apply on_snake_false in P10; [exact P10 | lia | lia].
  - inversion H; subst g'; clear H.
    cbn [dx dy pending_direction snake snake_length score move_interval
         food_x food_y body].
    split; [reflexivity |]. split; [reflexivity |].
    split; [rewrite length_insert, shift_length by lia; reflexivity |].
    split; [split; assumption |].
    repeat (split; [reflexivity |]).
    unfold body. cbn [snake snake_length].
    rewrite shift_spec by lia.
    replace (Z.to_nat (snake_length g))
      with (S (Z.to_nat (snake_length g - 1))) at 1 by lia.
    cbn [app insert list_insert take]. f_equal.
    rewrite take_app_le by (rewrite length_take; lia).
    rewrite take_take. f_equal. lia.
Qed.

Lemma unit_not_opposite (v : Z * Z) :
  In v [(0, -1); (0, 1); (-1, 0); (1, 0)] -> v <> (- fst v, - snd v).
Proof.
  cbn [In]. intros [<- | [<- | [<- | [<- | []]]]]; cbn; intros E;
    inversion E.
Qed.

Lemma handle_key_ok c g g1 :
  game_ok g -> handle_key c g = Some g1 ->
  game_ok g1 /\ snake g1 = snake g /\ snake_length g1 = snake_length g /\
  dx g1 = dx g /\ dy g1 = dy g /\ score g1 = score g /\
  food_x g1 = food_x g /\ food_y g1 = food_y g /\
  last_move g1 = last_move g /\ move_interval g1 = move_interval g /\
  clock_reads g1 = clock_reads g.
Proof.
  intros Hok H.
  assert (Hsame : game_ok g /\ snake g = snake g /\
    snake_length g = snake_length g /\
    dx g = dx g /\ dy g = dy g /\ score g = score g /\
    food_x g = food_x g /\ food_y g = food_y g /\
    last_move g = last_move g /\ move_interval g = move_interval g /\
    clock_reads g = clock_reads g) by (split; [exact Hok | repeat split]).
  assert (Hturn : forall d v,
    In d ["w"; "s"; "a"; "d"]%char ->
    (forall q, pending_direction q = d -> direction q = v) ->
    v <> (- dx g, - dy g) ->
    let g' := mk_game (snake g) (snake_length g) (dx g) (dy g) (score g)
                (food_x g) (food_y g) (last_move g) (move_interval g)
                d (rand_calls g) (clock_reads g) in
    game_ok g' /\ snake g' = snake g /\ snake_length g' = snake_length g /\
    dx g' = dx g /\ dy g' = dy g /\ score g' = score g /\
    food_x g' = food_x g /\ food_y g' = food_y g /\
    last_move g' = last_move g /\ move_interval g' = move_interval g /\
    clock_reads g' = clock_reads g).
  { intros d v Hd Hv Hne g'.
    split; [| repeat split].
    destruct Hok as (K1 & K2 & K3 & K4 & K5 & K6 & K7 & K8 & K9 & K10 & K11).
    unfold game_ok, body. cbn [snake snake_length dx dy score food_x food_y
      move_interval pending_direction].
    repeat (split; [assumption |]).
    rewrite (Hv g' eq_refl). exact Hne. }
  destruct Hok as (K1 & K2 & K3 & K4 & K5 & K6 & K7 & K8 & K9 & K10 & K11).
  assert (Hu : In (dx g, dy g) [(0, -1); (0, 1); (-1, 0); (1, 0)]) by exact K9.
  unfold handle_key in H. destruct c as [c |]; [| inversion H; subst; exact Hsame].
  destruct ((Ascii.eqb c "w" || Ascii.eqb c "W") && negb (dy g =? 1)) eqn:Ew.
  { inversion H; subst. apply (Hturn "w"%char (0, -1)).
    - cbn; auto.
    - intros q Hq. unfold direction. rewrite Hq. reflexivity.
    - apply andb_true_iff in Ew. destruct Ew as [_ Ew].
      apply negb_true_iff, Z.eqb_neq in Ew. intros E. inversion E. lia. }
  destruct ((Ascii.eqb c "s" || Ascii.eqb c "S") && negb (dy g =? -1)) eqn:Es.
  { inversion H; subst. apply (Hturn "s"%char (0, 1)).
    - cbn; auto.
    - intros q Hq. unfold direction. rewrite Hq. reflexivity.
    - apply andb_true_iff in Es. destruct Es as [_ Es].
      apply negb_true_iff, Z.eqb_neq in Es. intros E. inversion E. lia. }
  destruct ((Ascii.eqb c "a" || Ascii.eqb c "A") && negb (dx g =? 1)) eqn:Ea.
  { inversion H; subst. apply (Hturn "a"%char (-1, 0)).
    - cbn; auto.
    - intros q Hq. unfold direction. rewrite Hq. reflexivity.
    - apply andb_true_iff in Ea. destruct Ea as [_ Ea].
      apply negb_true_iff, Z.eqb_neq in Ea. intros E. inversion E. lia. }
  destruct ((Ascii.eqb c "d" || Ascii.eqb c "D") && negb (dx g =? -1)) eqn:Ed.
  { inversion H; subst. apply (Hturn "d"%char (1, 0)).
    - cbn; auto.
    - intros q Hq. unfold direction. rewrite Hq. reflexivity.
    - apply andb_true_iff in Ed. destruct Ed as [_ Ed].
      apply negb_true_iff, Z.eqb_neq in Ed. intros E. inversion E. lia. }
  destruct (Ascii.eqb c "q" || Ascii.eqb c "Q"); [discriminate |].
  inversion H; subst. exact Hsame.
Qed.

Lemma direction_pending g g' :
  In (pending_direction g) ["w"; "s"; "a"; "d"]%char ->
  pending_direction g' = pending_direction g ->
  direction g' = direction g.
Proof.
  intros Hin Hp. unfold direction. rewrite Hp. cbn [In] in Hin.
  destruct Hin as [<- | [<- | [<- | [<- | []]]]]; reflexivity.
Qed.

Lemma move_snake_ok E fuel now g g' :
  (forall k, 0 <= rand E k) -> game_ok g ->
  move_snake E fuel now g = Some (Running g') ->
  game_ok g' /\ (dx g', dy g') <> (- dx g, - dy g).
Proof.
  intros Hr Hok H.
  destruct (move_snake_body E fuel now g g' Hr Hok H)
    as (Hin & Hnot & Hdir & Hpend & Hlen & Hfood & Hcase).
  destruct Hok as (K1 & K2 & K3 & K4 & K5 & K6 & K7 & K8 & K9 & K10 & K11).
  assert (Hu : In (direction g) [(0, -1); (0, 1); (-1, 0); (1, 0)]).
  { unfold direction. cbn [In] in K10.
    destruct K10 as [<- | [<- | [<- | [<- | []]]]]; cbn; auto. }
  split; [| rewrite Hdir; exact K11].
  unfold SNAKE_MAX_LENGTH in *.
  assert (Hbody : take (Z.to_nat (snake_length g) - 1) (snake g) =
                  take (Z.to_nat (snake_length g) - 1) (body g)).
  { unfold body. rewrite take_take. f_equal. lia. }
  assert (Hrest :
    snake_length g' = snake_length g + 1 /\ 3 <= snake_length g' <= 100 /\
    score g' = 10 * (snake_length g' - 3) /\
    move_interval g' = Z.max 50 (200 - 5 * (snake_length g' - 3)) /\
    body g' = mk_segment (x (segment_at (snake g) 0) + fst (direction g))
                         (y (segment_at (snake g) 0) + snd (direction g))
              :: body g
    \/
    snake_length g' = snake_length g /\ 3 <= snake_length g' <= 100 /\
    score g' = 10 * (snake_length g' - 3) /\
    move_interval g' = Z.max 50 (200 - 5 * (snake_length g' - 3)) /\
    exists rest,
      body g' = mk_segment (x (segment_at (snake g) 0) + fst (direction g))
                           (y (segment_at (snake g) 0) + snd (direction g))
                :: rest /\
      rest `sublist_of` body g).
  { destruct (_ && _) in Hcase.
    - destruct (Z.ltb_spec (snake_length g) 100).
      + left. destruct Hcase as (C1 & C2 & C3 & C4 & _).
        repeat split; try assumption; lia.
      + right. destruct Hcase as (C1 & C2 & C3 & C4 & _).
        repeat split; try lia.
        exists (tl (body g)). split; [exact C4 |].
        destruct (body g); [reflexivity |]. cbn. apply sublist_cons.
        reflexivity.
    - right. destruct Hcase as (C1 & C2 & C3 & _ & _ & C4).
      repeat split; try lia.
      exists (take (Z.to_nat (snake_length g) - 1) (snake g)).
      split; [exact C4 |]. rewrite Hbody. apply sublist_take. }
  unfold game_ok. unfold SNAKE_MAX_LENGTH.
  rewrite Hlen, Hpend.
  assert (Hd' : direction g' = direction g)
    by (apply direction_pending; assumption).
  rewrite Hd'.
  assert (Hdx : dx g' = fst (direction g) /\ dy g' = snd (direction g))
    by (rewrite <- Hdir; split; reflexivity).
  destruct Hdx as [-> ->].
  assert (Hunit : In (fst (direction g), snd (direction g))
                     [(0, -1); (0, 1); (-1, 0); (1, 0)])
    by (destruct (direction g); exact Hu).
  assert (Hopp : direction g <> (- fst (direction g), - snd (direction g)))
    by (apply unit_not_opposite; exact Hu).
  destruct Hrest as [(R1 & R2 & R3 & R4 & R5) | (R1 & R2 & R3 & R4 & rest & R5 & R6)].
  - rewrite R5. split; [exact K1 |]. split; [exact R2 |].
    split; [constructor; assumption |].
    split; [apply NoDup_cons; split;
            [rewrite list_elem_of_In; exact Hnot | exact K4] |].
    destruct Hfood. repeat (split; [assumption |]). exact Hopp.
  - rewrite R5. split; [exact K1 |]. split; [exact R2 |].
    split.
    { constructor; [exact Hin |]. apply Forall_forall. intros s Hs.
      apply (proj1 (Forall_forall _ _) K3). eapply elem_of_sublist; eassumption. }
    split.
    { apply NoDup_cons. split.
      - intros Hc. apply Hnot.
        apply list_elem_of_In. eapply elem_of_sublist; [| exact R6].
        exact Hc.
      - eapply sublist_NoDup; eassumption. }
    destruct Hfood. repeat (split; [assumption |]). exact Hopp.
Qed.

Lemma initial_game_ok (E : env) (garbage : list SnakeSegment) :
  (forall k, 0 <= rand E k) -> length garbage = 100%nat ->
  game_ok (initial E garbage).
Proof.
  intros Hr Hg.
  destruct garbage as [| a [| b [| d rest]]]; try (cbn in Hg; lia).
  unfold game_ok, initial, body, direction.
  cbn [snake snake_length dx dy score food_x food_y move_interval
       pending_direction insert list_insert length].
  unfold SNAKE_MAX_LENGTH, SNAKE_WIDTH, SNAKE_HEIGHT.
  pose proof (Hr 0%nat). pose proof (Hr 1%nat).
  change (Z.to_nat 3) with 3%nat. cbn [take x y].
  change (wrap32 (20 `quot` 2 - 1)) with 9.
  change (wrap32 (9 - 1)) with 8.
  change (20 `quot` 2) with 10. change (15 `quot` 2) with 7.
  split; [exact Hg |]. split; [lia |].
  split.
  { repeat (constructor; [unfold in_field, SNAKE_WIDTH, SNAKE_HEIGHT;
                          cbn [x y]; lia |]).
    constructor. }
  split.
  { repeat (apply NoDup_cons; split;
            [rewrite list_elem_of_In; cbn; intros Hc;
             repeat (destruct Hc as [Hc | Hc]; [discriminate Hc |]);
             exact Hc |]).
    constructor. }
  split; [apply Z.rem_bound_pos; lia |].
  split; [apply Z.rem_bound_pos; lia |].
  split; [reflexivity |]. split; [reflexivity |].
  split; [cbn; auto |]. split; [cbn; auto |].
  cbn. discriminate.
Qed.

(** X22 (snake_game).  What holds at the start of every turn of the
    Snake game, whatever keys are pressed, whatever [rand] returns and
    whatever the array held at first: the snake has 3 to 100 segments,
    all inside the 20 x 15 field and no two on the same cell, the food is
    inside the field, so every write to the board is within its bounds;
    the score is ten times the segments gained and the interval between
    moves 200 ms less 5 ms per segment gained, not below 50 ms; and a move
    never turns the snake back on itself. *)
Theorem snake_game_invariant
        (E : env) (garbage : list SnakeSegment) (g : game)
        (c : option ascii) (fuel : nat) :
  (forall k, 0 <= rand E k) ->
  length garbage = 100%nat ->
  game_ok (initial E garbage) /\
  (game_ok g ->
   Forall (fun w => 0 <= fst w < SNAKE_HEIGHT /\ 0 <= snd w < SNAKE_WIDTH)
          (board_writes g) /\
   (forall g', iteration E fuel c g = Some (Running g') ->
      game_ok g' /\ (dx g', dy g') <> (- dx g, - dy g)) /\
   (iteration E fuel c g = None ->
      exists g1, handle_key c g = Some g1 /\
        x (segment_at (snake g) 0) + fst (direction g1) = food_x g /\
        y (segment_at (snake g) 0) + snd (direction g1) = food_y g)).
Proof.
  intros Hr Hg. split; [exact (initial_game_ok E garbage Hr Hg) |].
  intros Hok. split; [| split].
    + destruct Hok as (K1 & K2 & K3 & K4 & K5 & K6 & _).
      unfold board_writes. apply Forall_app. split.
      * apply List.Forall_forall. intros w Hw.
        apply in_map_iff in Hw. destruct Hw as (i & <- & Hi).
        apply in_seq in Hi. cbn [fst snd].
        unfold SNAKE_MAX_LENGTH in *.
        change (Z.to_nat 100) with 100%nat in K1.
        assert (Hs : is_Some (snake g !! i)) by (apply lookup_lt_is_Some; lia).
        destruct Hs as [s Hs]. rewrite (segment_at_lookup _ _ _ Hs).
        assert (Hb : body g !! i = Some s).
        { unfold body. rewrite lookup_take.
          destruct (decide (i < Z.to_nat (snake_length g))%nat); [exact Hs | lia]. }
        pose proof (Forall_lookup_1 _ _ _ _ K3 Hb) as [Hx Hy].
        split; assumption.
      * constructor; [| constructor]. cbn [fst snd]. split; assumption.
    + intros g' H. unfold iteration in H.
      destruct (handle_key c g) as [g1 |] eqn:Ek; [| discriminate].
      destruct (handle_key_ok c g g1 Hok Ek)
        as (Hok1 & S1 & S2 & S3 & S4 & S5 & S6 & S7 & S8 & S9 & S10).
      set (g2 := mk_game (snake g1) (snake_length g1) (dx g1) (dy g1)
                   (score g1) (food_x g1) (food_y g1) (last_move g1)
                   (move_interval g1) (pending_direction g1) (rand_calls g1)
                   (S (clock_reads g1))) in *.
      assert (Hok2 : game_ok g2) by exact Hok1.
      destruct (u32 (clock_ms E (clock_reads g1) - last_move g2)
                >=? move_interval g2).
      * destruct (move_snake_ok E fuel _ g2 g' Hr Hok2 H) as [Q1 Q2].
        split; [exact Q1 |]. cbn [dx dy g2] in Q2. rewrite S3, S4 in Q2.
        exact Q2.
      * inversion H; subst g'. split; [exact Hok2 |].
        cbn [dx dy g2]. rewrite S3, S4.
        destruct Hok as (_ & _ & _ & _ & _ & _ & _ & _ & K9 & _).
        intros Q. apply (unit_not_opposite (dx g, dy g) K9). exact Q.
    + intros H. unfold iteration in H.
      destruct (handle_key c g) as [g1 |] eqn:Ek; [| discriminate].
      exists g1. split; [reflexivity |].
      destruct (handle_key_ok c g g1 Hok Ek)
        as (Hok1 & S1 & S2 & S3 & S4 & S5 & S6 & S7 & S8 & S9 & S10).
      destruct (u32 _ >=? _); [| discriminate].
      unfold move_snake in H.
      change (direction (mk_game (snake g1) (snake_length g1) (dx g1) (dy g1)
                (score g1) (food_x g1) (food_y g1) (last_move g1)
                (move_interval g1) (pending_direction g1) (rand_calls g1)
                (S (clock_reads g1)))) with (direction g1) in H.
      cbn [snake snake_length food_x food_y] in H.
      assert (Hu : In (direction g1) [(0, -1); (0, 1); (-1, 0); (1, 0)]).
      { destruct Hok1 as (_ & _ & _ & _ & _ & _ & _ & _ & _ & K10 & _).
        unfold direction. cbn [In] in K10.
        destruct K10 as [<- | [<- | [<- | [<- | []]]]]; cbn; auto. }
      destruct (direction g1) as [dx' dy'].
      assert (Hhead : in_field (segment_at (snake g) 0)).
      { destruct Hok as (K1 & K2 & K3 & _). unfold body in K3.
        unfold SNAKE_MAX_LENGTH in *.
        destruct (snake g) as [| s0 arr] eqn:Es; [cbn in K1; lia |].
        replace (Z.to_nat (snake_length g))
          with (S (Z.to_nat (snake_length g) - 1)) in K3 by lia.
        cbn [take] in K3. inversion K3; subst. assumption. }
      destruct Hhead as [Hx Hy]. unfold SNAKE_WIDTH, SNAKE_HEIGHT in *.
      assert (Hdb : -1 <= dx' <= 1 /\ -1 <= dy' <= 1).
      { cbn [In] in Hu.
        destruct Hu as [Q | [Q | [Q | [Q | []]]]]; inversion Q; lia. }
      rewrite S1 in H. rewrite !wrap32_small in H by lia.
      destruct (_ || _) in H; [discriminate |].
      destruct (on_snake _ _ _ _) in H; [discriminate |].
      rewrite S6, S7 in H. cbn [fst snd].
      destruct (Z.eqb_spec (x (segment_at (snake g) 0) + dx') (food_x g));
        [| discriminate].
      destruct (Z.eqb_spec (y (segment_at (snake g) 0) + dy') (food_y g));
        [| discriminate].
      split; assumption.
Qed.

Lemma snake_game_invariant_witness :
  let E := mk_env (fun k => Z.of_nat (13 * k + 11)) (fun k => 250 * Z.of_nat k) in
  let g := initial E (repeat (mk_segment 77 (-5)) 100) in
  game_ok g /\
  exists g', iteration E 1 (Some "w"%char) g = Some (Running g') /\
             game_ok g' /\ body g' =
               [mk_segment 10 6; mk_segment 10 7; mk_segment 9 7].
Proof.
  intros E g.
  assert (Hr : forall k, 0 <= rand E k) by (intros k; cbn; lia).
  destruct (snake_game_invariant E (repeat (mk_segment 77 (-5)) 100) g
              (Some "w"%char) 1 Hr (repeat_length _ _)) as [Hinit Hstep].
  split; [exact Hinit |].
  destruct (Hstep Hinit) as (_ & Hrun & _).
  destruct (iteration E 1 (Some "w"%char) g) as [[g' | g' | g'] |] eqn:Ei;
    try (vm_compute in Ei; discriminate Ei).
  exists g'. split; [reflexivity |].
  split; [exact (proj1 (Hrun g' eq_refl)) |].
  vm_compute in Ei. inversion Ei. reflexivity.
Defined.

(** X23 (snake_game).  A move that is due takes the head one cell on in
    the pending direction, to a free cell of the field; without food the
    other segments follow and the last cell is given up; with food the
    snake keeps all its cells and gains the new one, ten points and 5 ms
    of speed (not below 50 ms), and at the full length of 100 it gives up
    the cell of the old head instead; the new food is put on no cell the
    snake had before the move. *)
Theorem snake_moves_by_one_cell
        (E : env) (fuel : nat) (now : Z) (g g' : game) :
  (forall k, 0 <= rand E k) -> game_ok g ->
  move_snake E fuel now g = Some (Running g') ->
  let h := mk_segment (x (segment_at (snake g) 0) + fst (direction g))
                      (y (segment_at (snake g) 0) + snd (direction g)) in
  let ate := (x h =? food_x g) && (y h =? food_y g) in
  in_field h /\ ~ In h (body g) /\
  (if ate then
     if snake_length g <? SNAKE_MAX_LENGTH
     then snake_length g' = snake_length g + 1 /\
          score g' = score g + 10 /\
          move_interval g' = Z.max 50 (move_interval g - 5) /\
          body g' = h :: body g /\
          ~ In (mk_segment (food_x g') (food_y g')) (body g)
     else snake_length g' = snake_length g /\ score g' = score g /\
          move_interval g' = move_interval g /\
          body g' = h :: tl (body g) /\
          ~ In (mk_segment (food_x g') (food_y g')) (body g)
   else snake_length g' = snake_length g /\ score g' = score g /\
        move_interval g' = move_interval g /\
        food_x g' = food_x g /\ food_y g' = food_y g /\
        body g' = h :: take (Z.to_nat (snake_length g) - 1) (snake g)).
Proof.
  intros Hr Hok H h ate.
  destruct (move_snake_body E fuel now g g' Hr Hok H)
    as (Hin & Hnot & _ & _ & _ & _ & Hcase).
  split; [exact Hin |]. split; [exact Hnot |]. exact Hcase.
Qed.

Lemma snake_moves_by_one_cell_witness :
  let E := mk_env (fun k => match k with O => 11 | 1%nat => 7 | _ => 31 end)
                  (fun k => 250 * Z.of_nat k) in
  let g := initial E (repeat (mk_segment 0 0) 100) in
  exists g', move_snake E 1 250 g = Some (Running g') /\
    body g' = [mk_segment 11 7; mk_segment 10 7; mk_segment 9 7;
               mk_segment 8 7] /\
    score g' = 10 /\ move_interval g' = 195 /\
    (food_x g', food_y g') = (11, 1).
Proof.
  intros E g.
  assert (Hr : forall k, 0 <= rand E k)
    by (intros [| [| k]]; cbn; lia).
  assert (Hok : game_ok g).
  { exact (initial_game_ok E (repeat (mk_segment 0 0) 100) Hr
                              (repeat_length _ _)). }
  destruct (move_snake E 1 250 g) as [[g' | g' | g'] |] eqn:Em;
    try (vm_compute in Em; discriminate Em).
  destruct (snake_moves_by_one_cell E 1 250 g g' Hr Hok Em)
    as (_ & _ & Hcase).
  change ((x (mk_segment (x (segment_at (snake g) 0) + fst (direction g))
                         (y (segment_at (snake g) 0) + snd (direction g)))
           =? food_x g)
          && (y (mk_segment (x (segment_at (snake g) 0) + fst (direction g))
                            (y (segment_at (snake g) 0) + snd (direction g)))
              =? food_y g)) with true in Hcase.
  change (snake_length g <? SNAKE_MAX_LENGTH) with true in Hcase.
  destruct Hcase as (_ & C2 & C3 & C4 & _).
  exists g'. split; [reflexivity |].
  split; [exact C4 |]. split; [exact C2 |]. split; [exact C3 |].
  vm_compute in Em. inversion Em. reflexivity.
Defined.
End SnakeGame.

(** ** The shell's to-do list *)

Section ShellTodoList.
Import CInt CLib ShellInput ShellTodo.

Local Opaque banner listing invalid_number ShellOS.ANSI_GREEN
  ShellOS.ANSI_YELLOW ShellOS.ANSI_RESET.

Lemma todo_at_lookup todos i t : todos !! i = Some t -> todo_at todos i = t.
Proof. unfold todo_at. rewrite nth_lookup. intros ->. reflexivity. Qed.

(** What [strncpy] and the terminator leave in the text of an item. *)
Lemma stored_text line :
  Forall (fun c => is_printable c = true) line ->
  length (strncpy 99 line ++ [NUL]) = 100%nat /\
  Fmt.c_str (strncpy 99 line ++ [NUL]) = string_of_list_ascii (take 99 line).
Proof.
  intros Hl. unfold strncpy. split.
  - rewrite length_app, length_take, length_app, repeat_length.
    cbn [length]. lia.
  - destruct (Nat.le_gt_cases 99 (length line)) as [Hge | Hlt].
    + rewrite take_app_le by lia.
      apply c_str_printable. apply Forall_take. exact Hl.
    + rewrite take_app_ge by lia. rewrite (take_ge line) by lia.
      rewrite <- app_assoc.
      destruct (99 - length line)%nat as [| k] eqn:Ek; [lia |].
      cbn [repeat take app]. apply c_str_printable. exact Hl.
Qed.

Lemma choice_read st c t rest :
  is_printable c = true -> is_newline t = true ->
  length (input_buffer1 st) = 256%nat -> length (input_buffer2 st) = 256%nat ->
  exists p st1 out,
    read_line (Fmt.nl ++ "Choice: ") true st (c :: t :: rest) =
      Some (p, st1, rest, out) /\
    line_of st1 p = [c] /\
    length (input_buffer1 st1) = 256%nat /\
    length (input_buffer2 st1) = 256%nat.
Proof.
  intros Hc Ht L1 L2.
  exact (read_line_plain _ true st [c] t rest
           ltac:(constructor; [exact Hc | constructor]) Ht
           ltac:(cbn; lia) L1 L2).
Qed.

(** X24 (todo_app, Add).  A to-do typed in goes into the first free
    item: the text is kept up to 99 characters, the item is active and not
    completed, the other item is untouched; with both items in use the Add
    choice reads no text and changes nothing. *)
Theorem shell_todo_add
        (st : buffers) (todos : list TodoItem)
        (line rest : list ascii) (t1 t2 : ascii) :
  todos_ok todos ->
  length (input_buffer1 st) = 256%nat -> length (input_buffer2 st) = 256%nat ->
  Forall (fun c => is_printable c = true) line ->
  (1 <= length line < 255)%nat ->
  is_newline t1 = true -> is_newline t2 = true ->
  match first_free todos with
  | Some i =>
      exists st' out stored,
        todo_iteration st todos ("1"%char :: t1 :: line ++ t2 :: rest) =
          Some (true, st', <[i := mk_todo stored false true]> todos, rest, out) /\
        Fmt.c_str stored = string_of_list_ascii (take 99 line) /\
        todos_ok (<[i := mk_todo stored false true]> todos) /\
        (forall j, j <> i ->
           todo_at (<[i := mk_todo stored false true]> todos) j =
           todo_at todos j) /\
        (i = 0%nat \/ (i = 1%nat /\ active (todo_at todos 0) = true))
  | None =>
      exists st' out,
        todo_iteration st todos ("1"%char :: t1 :: line ++ t2 :: rest) =
          Some (true, st', todos, line ++ t2 :: rest, out)
  end.
Proof.
  intros (Hlen & Hall) L1 L2 Hl Hn Ht1 Ht2.
  destruct (choice_read st "1" t1 (line ++ t2 :: rest) eq_refl Ht1 L1 L2)
    as (p & st1 & out & E & C & M1 & M2).
  unfold todo_iteration. rewrite E, C.
  change (streq ["1"%char] "1") with true. cbv iota.
  unfold add_todo.
  destruct (first_free todos) as [i |] eqn:Ef.
  - destruct (read_line_plain "Enter todo: " true st1 line t2 rest
                Hl Ht2 ltac:(lia) M1 M2) as (p2 & st2 & out2 & E2 & C2 & N1 & N2).
    rewrite E2. unfold line_of. rewrite C2.
    destruct (Nat.eqb_spec (length line) 0) as [? | _]; [lia |].
    destruct (stored_text line Hl) as [S1 S2].
    eexists _, _, _. split; [reflexivity |].
    split; [exact S2 |]. split; [| split].
    + split; [rewrite length_insert; exact Hlen |].
      apply Forall_insert; [exact Hall |]. cbn [text]. split; [exact S1 |].
      rewrite S2, string_length_of_list, length_take. lia.
    + intros j Hj. unfold todo_at.
      rewrite !nth_lookup, list_lookup_insert_ne by lia. reflexivity.
    + unfold first_free in Ef.
      destruct (active (todo_at todos 0)); cbn [negb] in Ef.
      * destruct (active (todo_at todos 1)); cbn [negb] in Ef;
          [discriminate |]. inversion Ef. right. split; reflexivity.
      * inversion Ef. left. reflexivity.
  - eexists _, _. reflexivity.
Qed.

Lemma shell_todo_add_witness :
  exists st' out stored,
    todo_iteration initial_buffers initial_todos
      (list_ascii_of_string ("1" ++ Fmt.cr ++ "buy milk" ++ Fmt.cr)) =
      Some (true, st', <[0%nat := mk_todo stored false true]> initial_todos,
            [], out) /\
    Fmt.c_str stored = "buy milk"%string.
Proof.
  pose proof (shell_todo_add initial_buffers initial_todos
                (list_ascii_of_string "buy milk") [] "013" "013") as H.
  change (first_free initial_todos) with (Some 0%nat) in H.
  destruct H as (st' & out & stored & E & C & _).
  - split; [reflexivity |]. repeat constructor; cbn; lia.
  - reflexivity.
  - reflexivity.
  - repeat constructor.
  - cbn. lia.
  - reflexivity.
  - reflexivity.
  - exists st', out, stored. split; [exact E | exact C].
Defined.

Lemma number_read prompt st i t rest :
  (i < 2)%nat -> is_newline t = true ->
  length (input_buffer1 st) = 256%nat -> length (input_buffer2 st) = 256%nat ->
  exists p st1 out,
    read_line prompt true st (ascii_of_nat (49 + i) :: t :: rest) =
      Some (p, st1, rest, out) /\
    wrap32 (atoi (line_of st1 p) - 1) = Z.of_nat i /\
    length (input_buffer1 st1) = 256%nat /\
    length (input_buffer2 st1) = 256%nat.
Proof.
  intros Hi Ht L1 L2.
  assert (Hp : is_printable (ascii_of_nat (49 + i)) = true)
    by (destruct i as [| [| i]]; [reflexivity | reflexivity | lia]).
  destruct (read_line_plain prompt true st [ascii_of_nat (49 + i)] t rest
              ltac:(constructor; [exact Hp | constructor]) Ht
              ltac:(cbn; lia) L1 L2) as (p & st1 & out & E & C & M1 & M2).
  exists p, st1, out. split; [exact E |]. split; [| split; assumption].
  unfold line_of. rewrite C.
  destruct i as [| [| i]]; [reflexivity | reflexivity | lia].
Qed.

(** X25 (todo_app, Complete and Delete).  Items are addressed by their
    place: for the number of an item in use, Complete flips its mark and
    nothing else, so that completing twice leaves the list as it was, and
    Delete empties that item and leaves the other in its place under its
    number; for the number of an item not in use both change nothing. *)
Theorem shell_todo_complete_and_delete
        (st : buffers) (todos : list TodoItem) (i : nat)
        (rest : list ascii) (t1 t2 : ascii) :
  todos_ok todos -> (i < 2)%nat ->
  length (input_buffer1 st) = 256%nat -> length (input_buffer2 st) = 256%nat ->
  is_newline t1 = true -> is_newline t2 = true ->
  let num := ascii_of_nat (49 + i) in
  let item := todo_at todos i in
  let flipped := mk_todo (text item) (negb (completed item)) (active item) in
  let emptied := mk_todo (<[0%nat := NUL]> (text item)) (completed item) false in
  (exists st' out,
     todo_iteration st todos ("2"%char :: t1 :: num :: t2 :: rest) =
       Some (true, st',
             if active item then <[i := flipped]> todos else todos,
             rest, out) /\
     length (input_buffer1 st') = 256%nat /\
     length (input_buffer2 st') = 256%nat) /\
  <[i := mk_todo (text flipped) (negb (completed flipped)) (active flipped)]>
    (<[i := flipped]> todos) = todos /\
  (exists st' out,
     todo_iteration st todos ("3"%char :: t1 :: num :: t2 :: rest) =
       Some (true, st',
             if active item then <[i := emptied]> todos else todos,
             rest, out)) /\
  Fmt.c_str (text emptied) = ""%string /\
  todos_ok (<[i := emptied]> todos) /\
  (forall j, j <> i -> todo_at (<[i := emptied]> todos) j = todo_at todos j).
Proof.
  intros (Hlen & Hall) Hi L1 L2 Ht1 Ht2 num item flipped emptied.
  assert (Hitem : todos !! i = Some item).
  { unfold item, todo_at. rewrite nth_lookup.
    destruct (todos !! i) as [x |] eqn:Ex; [reflexivity |].
    apply lookup_ge_None in Ex. lia. }
  destruct (Forall_lookup_1 _ _ _ _ Hall Hitem) as [Ix Iy].
  split; [| split; [| split; [| split; [| split]]]].
  - destruct (choice_read st "2" t1 (num :: t2 :: rest) eq_refl Ht1 L1 L2)
      as (p & st1 & out & E & C & M1 & M2).
    unfold todo_iteration. rewrite E, C.
    change (streq ["2"%char] "1") with false.
    change (streq ["2"%char] "2") with true. cbv iota.
    unfold complete_todo.
    destruct (number_read "Todo number to complete: " st1 i t2 rest Hi Ht2 M1 M2)
      as (p2 & st2 & out2 & E2 & C2 & N1 & N2).
    fold num in E2. rewrite E2, C2. unfold valid_index.
    rewrite Nat2Z.id. fold item.
    destruct (Z.geb_spec (Z.of_nat i) 0); [| lia].
    destruct (Z.ltb_spec (Z.of_nat i) 2); [| lia]. cbn [andb].
    destruct (active item); eexists _, _; (split; [reflexivity |]);
      split; assumption.
  - unfold flipped. cbn [text completed active].
    rewrite negb_involutive, list_insert_insert_eq.
    replace (mk_todo (text item) (completed item) (active item)) with item
      by (destruct item; reflexivity).
    apply list_insert_id. exact Hitem.
  - destruct (choice_read st "3" t1 (num :: t2 :: rest) eq_refl Ht1 L1 L2)
      as (p & st1 & out & E & C & M1 & M2).
    unfold todo_iteration. rewrite E, C.
    change (streq ["3"%char] "1") with false.
    change (streq ["3"%char] "2") with false.
    change (streq ["3"%char] "3") with true. cbv iota.
    unfold delete_todo.
    destruct (number_read "Todo number to delete: " st1 i t2 rest Hi Ht2 M1 M2)
      as (p2 & st2 & out2 & E2 & C2 & N1 & N2).
    fold num in E2. rewrite E2, C2. unfold valid_index.
    rewrite Nat2Z.id. fold item.
    destruct (Z.geb_spec (Z.of_nat i) 0); [| lia].
    destruct (Z.ltb_spec (Z.of_nat i) 2); [| lia]. cbn [andb].
    destruct (active item); eexists _, _; reflexivity.
  - unfold emptied. cbn [text].
    destruct (text item); [cbn in Ix; lia | reflexivity].
  - split; [rewrite length_insert; exact Hlen |].
    apply Forall_insert; [exact Hall |]. unfold emptied. cbn [text].
    rewrite length_insert. split; [exact Ix |].
    destruct (text item); [cbn in Ix; lia | cbn; lia].
  - intros j Hj. unfold todo_at.
    rewrite !nth_lookup, list_lookup_insert_ne by lia. reflexivity.
Qed.

Lemma shell_todo_complete_and_delete_witness :
  let todos := [mk_todo (list_ascii_of_string "milk" ++ repeat NUL 96) false true;
                mk_todo (list_ascii_of_string "tea" ++ repeat NUL 97) true true] in
  exists st' out,
    todo_iteration initial_buffers todos
      (list_ascii_of_string ("3" ++ Fmt.cr ++ "1" ++ Fmt.cr)) =
    Some (true, st',
          [mk_todo (NUL :: list_ascii_of_string "ilk" ++ repeat NUL 96)
                   false false;
           mk_todo (list_ascii_of_string "tea" ++ repeat NUL 97) true true],
          [], out).
Proof.
  intros todos.
  destruct (shell_todo_complete_and_delete initial_buffers todos 0 []
              "013" "013") as (_ & _ & (st' & out & E) & _).
  - split; [reflexivity |]. repeat constructor; cbn; lia.
  - lia.
  - reflexivity.
  - reflexivity.
  - reflexivity.
  - reflexivity.
  - exists st', out. exact E.
Defined.
End ShellTodoList.

(** ** The port scanner *)

Section PortScanner.
Import CInt CLib PortScan.

Lemma scan_loop_ends is_open : forall (n : nat) fuel port end_port cnt,
  0 <= port -> end_port < 65535 -> port + Z.of_nat n = end_port + 1 ->
  (n < fuel)%nat -> 0 <= cnt -> cnt + Z.of_nat n < 2^31 ->
  scan_loop is_open fuel port end_port cnt =
  Some (map (fun k => port + Z.of_nat k) (seq 0 n),
        cnt + Z.of_nat (length (List.filter is_open
                (map (fun k => port + Z.of_nat k) (seq 0 n))))).
Proof.
  induction n as [| n IH]; intros fuel port end_port cnt Hp He Hn Hf Hc Hc2.
  - destruct fuel as [| fuel]; [lia |]. cbn [scan_loop seq map List.filter length].
    destruct (Z.leb_spec port end_port); [lia |].
    rewrite Z.add_0_r. reflexivity.
  - destruct fuel as [| fuel]; [lia |]. cbn [scan_loop].
    destruct (Z.leb_spec port end_port); [| lia].
    assert (Hu : u16 (port + 1) = port + 1).
    { unfold u16. change (2 ^ 16) with 65536. apply Z.mod_small. lia. }
    rewrite Hu.
    assert (Hcnt : 0 <= (if is_open port then wrap32 (cnt + 1) else cnt) /\
                   (if is_open port then wrap32 (cnt + 1) else cnt) =
                   cnt + (if is_open port then 1 else 0)).
    { destruct (is_open port); [rewrite wrap32_small by lia |]; lia. }
    destruct Hcnt as [Hc3 Hc4].
    rewrite (IH fuel (port + 1) end_port _ ltac:(lia) He ltac:(lia) ltac:(lia)
                Hc3 ltac:(rewrite Hc4; destruct (is_open port); lia)).
    cbn [seq map]. rewrite <- seq_shift, map_map.
    rewrite Z.add_0_r. cbn [List.filter].
    assert (Hm : map (fun k => port + 1 + Z.of_nat k) (seq 0 n) =
                 map (fun k => port + Z.of_nat (S k)) (seq 0 n)).
    { apply map_ext. intros k. lia. }
    rewrite Hm, Hc4. f_equal. f_equal.
    destruct (is_open port); cbn [length]; lia.
Qed.

Lemma scan_loop_goes_on is_open : forall fuel port cnt,
  0 <= port <= 65535 -> scan_loop is_open fuel port 65535 cnt = None.
Proof.
  induction fuel as [| fuel IH]; intros port cnt Hp; cbn [scan_loop];
    [reflexivity |].
  destruct (Z.leb_spec port 65535); [| lia].
  rewrite IH; [reflexivity |].
  unfold u16. change (2 ^ 16) with 65536.
  pose proof (Z.mod_pos_bound (port + 1) 65536 ltac:(lia)). lia.
Qed.

(** X26 (nmap_app, the range scan).  A range that ends below port 65535
    is scanned port by port, each port once, first to last, and the count
    of open ports is the number of ports [scan_port] reports open.  A range
    that ends at 65535 is not left: the 16-bit port counter passes from
    65535 to 0, which is again within the range, and the loop is still
    running after any number of turns. *)
Theorem port_scan_range
        (is_open : Z -> bool) (start_port end_port : Z) (fuel : nat) :
  1 <= start_port <= end_port -> end_port <= 65535 ->
  invalid_range start_port end_port = false /\
  if end_port <? 65535 then
    (end_port - start_port + 1 < Z.of_nat fuel ->
     scan_loop is_open fuel start_port end_port 0 =
     Some (map (fun k => start_port + Z.of_nat k)
               (seq 0 (Z.to_nat (end_port - start_port + 1))),
           Z.of_nat (length (List.filter is_open
             (map (fun k => start_port + Z.of_nat k)
                  (seq 0 (Z.to_nat (end_port - start_port + 1))))))))
  else
    scan_loop is_open fuel start_port end_port 0 = None /\
    scanned (Z.to_nat (65536 - start_port) + 1) start_port end_port =
      map (fun k => start_port + Z.of_nat k)
          (seq 0 (Z.to_nat (65536 - start_port))) ++ [0].
Proof.
  intros Hs He. split.
  - unfold invalid_range.
    destruct (Z.ltb_spec start_port 1); [lia |].
    destruct (Z.gtb_spec start_port end_port); [lia | reflexivity].
  - destruct (Z.ltb_spec end_port 65535) as [Hlt | Hge].
    + intros Hf.
      rewrite (scan_loop_ends is_open (Z.to_nat (end_port - start_port + 1))
                 fuel start_port end_port 0) by lia.
      rewrite Z.add_0_l. reflexivity.
    + assert (end_port = 65535) by lia. subst end_port.
      split; [apply scan_loop_goes_on; lia |].
      rewrite Nat.add_1_r.
      set (n := Z.to_nat (65536 - start_port)).
      assert (Hn : Z.of_nat n = 65536 - start_port) by (unfold n; lia).
      assert (K : forall (m : nat) port,
        0 <= port <= 65535 -> Z.of_nat m = 65536 - port ->
        scanned (S m) port 65535 =
        map (fun k => port + Z.of_nat k) (seq 0 m) ++ [0]).
      { induction m as [| m IH]; intros port Hp Hm; [lia |].
        change (scanned (S (S m)) port 65535)
          with (if port <=? 65535
                then port :: scanned (S m) (u16 (port + 1)) 65535 else []).
        destruct (Z.leb_spec port 65535); [| lia].
        cbn [seq map app]. rewrite Z.add_0_r. f_equal.
        destruct (Z.eq_dec port 65535) as [-> | Hne].
        - assert (m = 0%nat) by lia. subst m. reflexivity.
        - assert (Hu : u16 (port + 1) = port + 1).
          { unfold u16. change (2 ^ 16) with 65536. apply Z.mod_small. lia. }
          rewrite Hu, IH by lia. rewrite <- seq_shift, map_map. f_equal.
          apply map_ext. intros k. lia. }
      apply K; lia.
Qed.

Lemma port_scan_range_witness :
  parse_range (list_ascii_of_string "65530-65535") = (65530, 65535) /\
  scan_range (fun _ => false) 1000 (list_ascii_of_string "65530-65535") =
    Some None /\
  scanned 7 65530 65535 = [65530; 65531; 65532; 65533; 65534; 65535; 0].
Proof.
  pose proof (port_scan_range (fun _ => false) 65530 65535 1000
                ltac:(lia) ltac:(lia)) as H.
  change (65535 <? 65535) with false in H. cbv iota in H.
  destruct H as (Hv & Hnone & Hsc).
  split; [reflexivity |]. split.
  - unfold scan_range.
    change (parse_range (list_ascii_of_string "65530-65535"))
      with (65530, 65535).
    cbv beta iota. rewrite Hv, Hnone. reflexivity.
  - exact Hsc.
Defined.
End PortScanner.
